(** * HR portal browser extension: the popup's state logic

    A shallow embedding of [popup.js].  The repository holds three copies of
    the popup script that differ in a handful of functions:

    - [PopupJs]  : [src/popup.js];
    - [Part000]  : [src/unnamed/part_000] (adds [restoreLocalState] and the
                   [preservePunch] option of [handleLogout]);
    - [Part001]  : [src/unnamed/part_001] (the shortest one: [handleLogout]
                   clears the whole store, no regular expression in
                   [fetchStatus]).

    Functions whose text is the same in the three files are embedded once;
    the others take the copy as a [Variant] argument and follow the text of
    that copy.

    Conventions of the model.
    - [chrome.storage.local] is a finite map from keys to stored values.
    - Every handler is a computation in a small state-and-exception monad
      over a [World]: the store, the module variable [timerInterval], the
      host's table of live repeating timers, the part of the DOM that the
      handlers write (current view, toast text, user name, status, timer
      text, history list) and the log of HTTP requests that were issued.
    - What the outside decides (the clock, [navigator.onLine], the text of
      the input fields, the answer of the server) is an argument of the
      handler.  One invocation of a handler reads the clock as one instant.
    - A handler runs to completion before the next one starts; a call that
      the script does not [await] ([handleLogout] inside [apiFetch]) is run
      at the place of the call.  The requests that [syncState] starts
      together under [Promise.all] are run one after another, in the order
      they are started: that is one of the schedules the script allows, and a
      statement about [init] is a statement about that schedule.
    - Answers of the server have the shape given by the interface of the
      backend; a body that is not JSON is [None].
    - The elements that the script looks up in [popup.html] exist.
    - The theme and the fields of the login form are kept apart from the
      [World], in a [Shell]; the class that disables the punch button is
      given as a function of what [updatePunchUI] is handed.  The other
      button classes, the loading state of buttons, CSS transitions and the
      expiry of toasts are outside the model. *)

From Stdlib Require Import ZArith Lia Ascii String List DecimalString.
From stdpp Require Import gmap strings list fin_maps.

Local Open Scope string_scope.

(** ** Stored values *)

Record User := mkUser { user_name : string; user_email : string }.

Record Creds := mkCreds { creds_email : string; creds_password : string }.

(** One entry of the attendance history: [{ type, timestamp }]. *)
Record HistoryEntry := mkEntry { entry_type : string; entry_timestamp : Z }.

Inductive Value :=
| VStr (s : string)
| VNum (n : Z)
| VNaN
| VUser (u : User)
| VCreds (c : Creds)
| VHistory (h : list HistoryEntry).

(** JavaScript truthiness of a stored value; a missing key reads as
    [undefined]. *)
Definition truthy_string (s : string) : bool :=
  match s with EmptyString => false | _ => true end.

Definition truthy_num (n : Z) : bool := negb (n =? 0)%Z.

Definition truthy_value (v : Value) : bool :=
  match v with
  | VStr s => truthy_string s
  | VNum n => truthy_num n
  | VNaN => false
  | VUser _ | VCreds _ | VHistory _ => true
  end.

Definition truthy (o : option Value) : bool :=
  match o with Some v => truthy_value v | None => false end.

Definition truthy_opt_string (o : option string) : bool :=
  match o with Some s => truthy_string s | None => false end.

(** [a || b] on optional strings. *)
Definition or_else (a b : option string) : option string :=
  if truthy_opt_string a then a else b.

(** [a || 'literal'], where the last operand is a string. *)
Definition or_default (a : option string) (d : string) : string :=
  match a with
  | Some s => if truthy_string s then s else d
  | None => d
  end.

(** ** The world the handlers act on *)

Inductive View := LoginView | DashboardView.

Inductive ReqBody :=
| NoBody
| LoginForm (email password : string)
| PunchForm (type : string) (timestamp : Z).

Record Request := mkRequest {
  req_endpoint : string;
  req_method : string;
  req_bearer : option string;
  req_body : ReqBody
}.

Record World := mkWorld {
  storage : gmap string Value;       (* chrome.storage.local *)
  timerInterval : option nat;        (* let timerInterval = null *)
  intervals : gmap nat Z;            (* live setInterval handles and the
                                        startTime their callback closes over *)
  nextHandle : nat;                  (* next handle the host hands out *)
  view : View;
  toasts : list string;              (* texts shown by showToast, newest first *)
  requests : list Request;           (* HTTP requests issued, newest first *)
  userName : string;                 (* #user-display *)
  statusOnline : bool;               (* #status-text is 'Online' *)
  timerDisplay : string;             (* #timer *)
  historyList : list HistoryEntry;   (* entries rendered in #history-list *)
  ticks : nat                        (* number of runs of a timer callback *)
}.

Definition with_storage (f : gmap string Value → gmap string Value) (w : World) : World :=
  mkWorld (f (storage w)) (timerInterval w) (intervals w) (nextHandle w) (view w)
          (toasts w) (requests w) (userName w) (statusOnline w) (timerDisplay w)
          (historyList w) (ticks w).

Definition with_timer (ti : option nat) (iv : gmap nat Z) (nh : nat) (w : World) : World :=
  mkWorld (storage w) ti iv nh (view w)
          (toasts w) (requests w) (userName w) (statusOnline w) (timerDisplay w)
          (historyList w) (ticks w).

Definition with_view (v : View) (w : World) : World :=
  mkWorld (storage w) (timerInterval w) (intervals w) (nextHandle w) v
          (toasts w) (requests w) (userName w) (statusOnline w) (timerDisplay w)
          (historyList w) (ticks w).

Definition with_toast (msg : string) (w : World) : World :=
  mkWorld (storage w) (timerInterval w) (intervals w) (nextHandle w) (view w)
          (msg :: toasts w) (requests w) (userName w) (statusOnline w) (timerDisplay w)
          (historyList w) (ticks w).

Definition with_request (r : Request) (w : World) : World :=
  mkWorld (storage w) (timerInterval w) (intervals w) (nextHandle w) (view w)
          (toasts w) (r :: requests w) (userName w) (statusOnline w) (timerDisplay w)
          (historyList w) (ticks w).

Definition with_userName (n : string) (w : World) : World :=
  mkWorld (storage w) (timerInterval w) (intervals w) (nextHandle w) (view w)
          (toasts w) (requests w) n (statusOnline w) (timerDisplay w)
          (historyList w) (ticks w).

Definition with_status (b : bool) (w : World) : World :=
  mkWorld (storage w) (timerInterval w) (intervals w) (nextHandle w) (view w)
          (toasts w) (requests w) (userName w) b (timerDisplay w)
          (historyList w) (ticks w).

Definition with_timerDisplay (s : string) (w : World) : World :=
  mkWorld (storage w) (timerInterval w) (intervals w) (nextHandle w) (view w)
          (toasts w) (requests w) (userName w) (statusOnline w) s
          (historyList w) (ticks w).

Definition with_historyList (h : list HistoryEntry) (w : World) : World :=
  mkWorld (storage w) (timerInterval w) (intervals w) (nextHandle w) (view w)
          (toasts w) (requests w) (userName w) (statusOnline w) (timerDisplay w)
          h (ticks w).

Definition with_tick (w : World) : World :=
  mkWorld (storage w) (timerInterval w) (intervals w) (nextHandle w) (view w)
          (toasts w) (requests w) (userName w) (statusOnline w) (timerDisplay w)
          (historyList w) (S (ticks w)).

(** The popup as it is when the script starts: nothing rendered, no timer,
    the store as the browser kept it. *)
Definition initWorld (st : gmap string Value) : World :=
  mkWorld st None ∅ 1 LoginView [] [] EmptyString false "00:00:00" [] 0.

(** ** The monad: state, and exceptions carrying [e.message] *)

Inductive outcome (A : Type) :=
| Done (a : A)
| Thrown (msg : string).
Arguments Done {A} a.
Arguments Thrown {A} msg.

Definition M (A : Type) : Type := World → outcome A * World.

#[export] Instance M_ret : MRet M := λ A a w, (Done a, w).

#[export] Instance M_bind : MBind M := λ A B f m w,
  match m w with
  | (Done a, w') => f a w'
  | (Thrown e, w') => (Thrown e, w')
  end.

Definition throw {A} (msg : string) : M A := λ w, (Thrown msg, w).

(** [try { m } catch (e) { h e.message }] *)
Definition try_catch {A} (m : M A) (h : string → M A) : M A := λ w,
  match m w with
  | (Done a, w') => (Done a, w')
  | (Thrown e, w') => h e w'
  end.

Definition modify (f : World → World) : M unit := λ w, (Done tt, f w).

Definition gets {A} (f : World → A) : M A := λ w, (Done (f w), w).

(** The world a handler leaves behind. *)
Definition exec {A} (m : M A) (w : World) : World := snd (m w).

(** [chrome.storage.local] *)
Definition storage_get (k : string) : M (option Value) :=
  gets (λ w, storage w !! k).

Definition storage_set (k : string) (v : Value) : M unit :=
  modify (with_storage (insert k v)).

Definition storage_remove (ks : list string) : M unit :=
  modify (with_storage (λ st, foldr delete st ks)).

Definition storage_clear : M unit := modify (with_storage (λ _, ∅)).

(** ** Numbers and strings *)

Definition PUNCH_DELAY_MS : Z := 2 * 60 * 60 * 1000.

(** [String(n)] for an integer. *)
Definition String_of (n : Z) : string := NilZero.string_of_int (Z.to_int n).

(** [s.padStart(2, '0')] *)
Definition padStart2 (s : string) : string :=
  match s with
  | EmptyString => "00"
  | String c EmptyString => "0" +:+ s
  | _ => s
  end.

(** [Math.ceil(a / b)] for integers [a] and [b]. *)
Definition Math_ceil_div (a b : Z) : Z := (- ((- a) / b))%Z.

(** [Math.floor(a / b)] for integers [a] and [b]. *)
Definition Math_floor_div (a b : Z) : Z := (a / b)%Z.

(** ** The display timer *)

(** The callback [update] of [startTimer]; [%] is the remainder that takes
    the sign of the dividend. *)
Definition update (startTime now : Z) : M unit :=
  let diff := (now - startTime)%Z in
  let h := padStart2 (String_of (Math_floor_div diff 3600000)) in
  let m := padStart2 (String_of (Math_floor_div (Z.rem diff 3600000) 60000)) in
  let s := padStart2 (String_of (Math_floor_div (Z.rem diff 60000) 1000)) in
  modify (λ w, with_tick (with_timerDisplay (h +:+ ":" +:+ m +:+ ":" +:+ s) w)).

(** A handle is truthy when it is not [null] and not [0]. *)
Definition truthy_handle (o : option nat) : bool :=
  match o with Some (S _) => true | _ => false end.

Definition clearInterval (o : option nat) : M unit :=
  modify (λ w,
    match o with
    | Some h => with_timer (timerInterval w) (delete h (intervals w)) (nextHandle w) w
    | None => w
    end).

(** [setInterval(update, 1000)]: the host registers the callback under a
    fresh handle and returns the handle. *)
Definition setInterval (startTime : Z) : M nat := λ w,
  let h := nextHandle w in
  (Done h, with_timer (timerInterval w) (<[h := startTime]> (intervals w)) (S h) w).

Definition set_timerInterval (o : option nat) : M unit :=
  modify (λ w, with_timer o (intervals w) (nextHandle w) w).

Definition startTimer (now startTime : Z) : M unit :=
  ti ← gets timerInterval;
  (if truthy_handle ti then clearInterval ti else mret tt) ;;
  update startTime now ;;
  h ← setInterval startTime;
  set_timerInterval (Some h).

Definition stopTimer : M unit :=
  ti ← gets timerInterval;
  (if truthy_handle ti then clearInterval ti else mret tt) ;;
  set_timerInterval None.

(** One period of the host's timers going by at instant [now]: every live
    repeating timer runs its callback once. *)
Definition tick (now : Z) (w : World) : World :=
  map_fold (λ _ startTime acc, exec (update startTime now) acc) w (intervals w).

(** ** Strings

    Strings are sequences of ASCII characters; white space is the ASCII
    white space that [trim] and [\s] accept. *)

Definition is_space (c : ascii) : bool :=
  let n := nat_of_ascii c in
  (n =? 32)%nat || ((9 <=? n)%nat && (n <=? 13)%nat).

Definition is_digit (c : ascii) : bool :=
  let n := nat_of_ascii c in (48 <=? n)%nat && (n <=? 57)%nat.

Definition digit_val (c : ascii) : Z := Z.of_nat (nat_of_ascii c - 48).

Fixpoint drop_spaces (l : list ascii) : list ascii :=
  match l with
  | c :: r => if is_space c then drop_spaces r else l
  | [] => []
  end.

(** [s.trim()] *)
Definition trim (s : string) : string :=
  string_of_list_ascii
    (rev (drop_spaces (rev (drop_spaces (list_ascii_of_string s))))).

(** [s.split(sep)] for a separator of one character: the pieces between
    the occurrences of [sep], never an empty list. *)
Fixpoint split_go (sep : ascii) (cur : list ascii) (l : list ascii) : list string :=
  match l with
  | [] => [string_of_list_ascii (rev cur)]
  | c :: r =>
      if Ascii.eqb c sep
      then string_of_list_ascii (rev cur) :: split_go sep [] r
      else split_go sep (c :: cur) r
  end.

Definition split (sep : ascii) (s : string) : list string :=
  split_go sep [] (list_ascii_of_string s).

Fixpoint is_prefix (p l : list ascii) : bool :=
  match p, l with
  | [], _ => true
  | a :: p', b :: l' => Ascii.eqb a b && is_prefix p' l'
  | _ :: _, [] => false
  end.

Fixpoint includes_go (p l : list ascii) : bool :=
  is_prefix p l || match l with [] => false | _ :: r => includes_go p r end.

(** [s.includes(p)] *)
Definition includes (s p : string) : bool :=
  includes_go (list_ascii_of_string p) (list_ascii_of_string s).

Definition lower (c : ascii) : ascii :=
  let n := nat_of_ascii c in
  if (65 <=? n)%nat && (n <=? 90)%nat then ascii_of_nat (n + 32) else c.

Fixpoint toLowerCase (s : string) : string :=
  match s with
  | EmptyString => EmptyString
  | String c r => String (lower c) (toLowerCase r)
  end.

(** ** What the host provides

    The calendar and the conversions of the JavaScript engine. *)
Class Host := {
  (* new Date(ms).toDateString() *)
  Date_toDateString : Z → string;
  (* d = new Date(ms); d.setHours(h, m, s, 0); d.getTime() *)
  Date_setHours : Z → Z → Z → Z → Z;
  (* new Date(text).getTime(); None is NaN *)
  Date_parse : string → option Z;
  (* the integer an argument of setHours is converted to; None is NaN *)
  ToInteger : string → option Z;
  (* parseInt(text, 10); None is NaN *)
  parseInt10 : string → option Z
}.

(** ** Answers of the server *)

Record HttpResponse (R : Type) := mkResponse {
  status : Z;
  statusText : string;
  body : option R          (* None: the body is not JSON *)
}.
Arguments mkResponse {R} _ _ _.
Arguments status {R} _.
Arguments statusText {R} _.
Arguments body {R} _.

Inductive Fetched (R : Type) :=
| NetworkError (msg : string)      (* fetch rejects *)
| Answer (r : HttpResponse R).
Arguments NetworkError {R} msg.
Arguments Answer {R} r.

(** [response.ok] *)
Definition ok {R} (r : HttpResponse R) : bool :=
  (200 <=? status r)%Z && (status r <=? 299)%Z.

(** POST /login *)
Record LoginResult := mkLoginResult {
  lr_token : option string;           (* result.token *)
  lr_data_token : option string;      (* result.data?.token *)
  lr_user_name : option string;       (* result.user?.name *)
  lr_data_user_name : option string;  (* result.data?.user?.name *)
  lr_message : option string          (* result.message *)
}.

(** GET /me *)
Record MeResult := mkMeResult {
  me_user : option (string * string)  (* result.user: name, business_email *)
}.

(** GET /user/status *)
Record StatusResult := mkStatusResult {
  sr_isPunchedIn : bool;
  sr_punchInTime : option string
}.

(** GET /punch/history *)
Record HistoryResult := mkHistoryResult {
  hr_history : option (list HistoryEntry)
}.

(** POST /punch/action *)
Record PunchResult := mkPunchResult {
  pr_status : option string;       (* result.status *)
  pr_success : bool;               (* result.success === true *)
  pr_data_status : option string;  (* result.data.status *)
  pr_error : option string;        (* result.error *)
  pr_message : option string;      (* result.message *)
  pr_msg : option string           (* result.msg *)
}.

(** [await fetch(...)]: the request goes out; a transport failure throws. *)
Definition fetch {R} (rq : Request) (resp : Fetched R) : M (HttpResponse R) :=
  modify (with_request rq) ;;
  match resp with
  | NetworkError msg => throw msg
  | Answer r => mret r
  end.

(** [await response.json()] and [JSON.parse(await response.text())] *)
Definition json {R} (r : HttpResponse R) : M R :=
  match body r with
  | Some b => mret b
  | None => throw "Unexpected token in JSON"
  end.

(** ** Rendering *)

Definition showToast (msg : string) : M unit := modify (with_toast msg).

Definition showError (msg : string) : M unit := showToast msg.

Definition transitionToView (v : View) : M unit := modify (with_view v).

(** [user?.name || 'Employee'] *)
Definition setupDashboard (user : option User) : M unit :=
  modify (with_userName (or_default (user_name <$> user) "Employee")) ;;
  transitionToView DashboardView.

Definition updatePunchUI (active : bool) : M unit :=
  modify (with_status active) ;;
  if active then mret tt else modify (with_timerDisplay "00:00:00").

(** [a.slice(-n)] *)
Definition slice_last {A} (n : nat) (l : list A) : list A :=
  drop (length l - n) l.

(** The entries [renderHistory] puts in the list, first row first; the
    empty history shows a placeholder and no entry. *)
Definition renderHistory (history : list HistoryEntry) : M unit :=
  match history with
  | [] => modify (with_historyList [])
  | _ => modify (with_historyList (reverse (slice_last 5 history)))
  end.

(** ** Local history *)

Definition stored_history (o : option Value) : list HistoryEntry :=
  match o with
  | Some (VHistory h) => h
  | _ => []
  end.

Definition logActivity (now : Z) (type : string) : M unit :=
  data ← storage_get "history";
  let history := (stored_history data ++ [mkEntry type now])%list in
  let snapshot := slice_last 20 history in
  storage_set "history" (VHistory snapshot) ;;
  renderHistory snapshot.

(** ** Authentication *)

Inductive Variant := PopupJs | Part000 | Part001.

Definition stored_user (n e : string) : Value := VUser (mkUser n e).

Definition handleLogin (emailInput passwordInput : string) (remember : bool)
    (resp : Fetched LoginResult) : M unit :=
  let email := trim emailInput in
  let password := passwordInput in
  if negb (truthy_string email) || negb (truthy_string password)
  then showError "Invalid credentials provided."
  else
    try_catch
      (response ← fetch (mkRequest "/login" "POST" None (LoginForm email password)) resp;
       result ← json response;
       let token := or_else (lr_token result) (lr_data_token result) in
       if ok response && truthy_opt_string token
       then
         let user :=
           mkUser (or_default (or_else (lr_user_name result) (lr_data_user_name result))
                              (default EmptyString (head (split "@"%char email))))
                  email in
         (if remember
          then storage_set "savedCreds" (VCreds (mkCreds email password))
          else storage_remove ["savedCreds"]) ;;
         storage_set "token" (VStr (default EmptyString token)) ;;
         storage_set "user" (VUser user) ;;
         setupDashboard (Some user) ;;
         renderHistory [] ;;
         updatePunchUI false ;;
         showToast "Welcome back"
       else showError (or_default (lr_message result) "Login failed. Check credentials."))
      (λ _, showError "Connection error during login.").

(** The token as it is put in the [Authorization] header. *)
Definition bearer (tok : option Value) : option string :=
  match tok with Some (VStr s) => Some s | _ => None end.

(** [handleLogout].  The request to /logout goes out when a token is stored;
    its answer and its failure are both ignored.  Only [Part000] reads the
    option [preservePunch]; the other two copies take no argument. *)
Definition handleLogout (v : Variant) (preservePunch : bool) : M unit :=
  tok ← storage_get "token";
  (if truthy tok
   then modify (with_request (mkRequest "/logout" "POST" (bearer tok) NoBody))
   else mret tt) ;;
  match v with
  | PopupJs => storage_remove ["token"; "user"; "punchInTime"]
  | Part000 =>
      if preservePunch
      then storage_remove ["token"; "user"]
      else storage_remove ["token"; "user"; "punchInTime"]
  | Part001 => storage_clear
  end ;;
  stopTimer ;;
  transitionToView LoginView ;;
  showToast "Logged out successfully".

(** ** Calls with the bearer token *)

(** [apiFetch].  [Part000] asks [handleLogout] to keep the punch state; in
    [PopupJs] and [Part000] whatever is thrown after the token check is
    thrown again with a prefix. *)
Definition apiFetch {R} (v : Variant) (endpoint method : string) (form : ReqBody)
    (resp : Fetched R) : M (HttpResponse R) :=
  tok ← storage_get "token";
  if negb (truthy tok)
  then handleLogout v true ;; throw "No token found"
  else
    let call : M (HttpResponse R) :=
      response ← fetch (mkRequest endpoint method (bearer tok) form) resp;
      if (status response =? 401)%Z
      then handleLogout v true ;; throw "Session expired"
      else mret response in
    match v with
    | Part001 => call
    | _ => try_catch call (λ e, throw ("Network request failed: " +:+ e))
    end.

(** ** Reading the time of day the server reports *)

Inductive Meridiem := AM | PM.

(** [(\d{1,2}):] at the head of the text: the number and what follows the
    colon. *)
Definition digits12_colon (l : list ascii) : option (Z * list ascii) :=
  match l with
  | d1 :: d2 :: c :: r =>
      if is_digit d1 && is_digit d2 && Ascii.eqb c ":"
      then Some (10 * digit_val d1 + digit_val d2, r)%Z
      else if is_digit d1 && Ascii.eqb d2 ":"
      then Some (digit_val d1, c :: r)
      else None
  | [d1; c] =>
      if is_digit d1 && Ascii.eqb c ":" then Some (digit_val d1, []) else None
  | _ => None
  end.

(** [(\d{1,2})] at the head of the text, as many digits as there are. *)
Definition digits12 (l : list ascii) : option (Z * list ascii) :=
  match l with
  | d1 :: d2 :: r =>
      if is_digit d1 && is_digit d2
      then Some (10 * digit_val d1 + digit_val d2, r)%Z
      else if is_digit d1 then Some (digit_val d1, d2 :: r) else None
  | [d1] => if is_digit d1 then Some (digit_val d1, []) else None
  | [] => None
  end.

(** [(?:\s*(AM|PM))?] with the flag [i]: the captured modifier, if any. *)
Definition meridiem (l : list ascii) : option Meridiem :=
  match drop_spaces l with
  | a :: m :: _ =>
      if Ascii.eqb (lower m) "m"
      then if Ascii.eqb (lower a) "a" then Some AM
           else if Ascii.eqb (lower a) "p" then Some PM else None
      else None
  | _ => None
  end.

Definition time_here (l : list ascii) : option (Z * Z * Z * option Meridiem) :=
  '(h, r1) ← digits12_colon l;
  '(m, r2) ← digits12_colon r1;
  '(s, r3) ← digits12 r2;
  Some (h, m, s, meridiem r3).

(** [text.match(/(\d{1,2}):(\d{1,2}):(\d{1,2})(?:\s*(AM|PM))?/i)]: the
    captures of the leftmost match, numbers already read by [parseInt]. *)
Fixpoint time_match (l : list ascii) : option (Z * Z * Z * option Meridiem) :=
  match time_here l with
  | Some r => Some r
  | None => match l with [] => None | _ :: r => time_match r end
  end.

Definition hours24 (hours : Z) (modifier : option Meridiem) : Z :=
  let hours1 :=
    match modifier with
    | Some PM => if (hours <? 12)%Z then (hours + 12)%Z else hours
    | _ => hours
    end in
  match modifier with
  | Some AM => if (hours1 =? 12)%Z then 0%Z else hours1
  | _ => hours1
  end.

Section WithHost.
Context `{Host}.

(** The branch [if (serverPunchInTime.includes(':'))] of [PopupJs] and
    [Part000]: [parsedTime], or [None] when it stays undefined. *)
Definition parse_time_of_day (now : Z) (text : string) : option Z :=
  match time_match (list_ascii_of_string text) with
  | Some (hours, minutes, seconds, modifier) =>
      Some (Date_setHours now (hours24 hours modifier) minutes seconds)
  | None => None
  end.

(** [parsedTime] of [PopupJs]. *)
Definition parsedTime_popup (now : Z) (text : string) : option Z :=
  if includes text ":" then parse_time_of_day now text else None.

(** [parsedTime] of [Part000]. *)
Definition parsedTime_part000 (now : Z) (text : string) : option Z :=
  if includes text ":" then parse_time_of_day now text else Date_parse text.

(** The reading of [Part001]: split at the space, then at the colons. *)
Definition startTime_part001 (now : Z) (text : string) : option Z :=
  let parts := split " " text in
  let time := default EmptyString (parts !! 0%nat) in
  let modifier := parts !! 1%nat in
  let fields := split ":" time in
  let hours := default EmptyString (fields !! 0%nat) in
  let minutes := fields !! 1%nat in
  let seconds := fields !! 2%nat in
  let hours1 := if String.eqb hours "12" then "00" else hours in
  let hours2 :=
    if bool_decide (modifier = Some "PM")
    then (λ n, n + 12)%Z <$> parseInt10 hours1
    else ToInteger hours1 in
  h ← hours2;
  m ← minutes ≫= ToInteger;
  s ← seconds ≫= ToInteger;
  Some (Date_setHours now h m s).

(** [parsedTime && !isNaN(parsedTime)], and [parsedTime || ...] *)
Definition usable (t : option Z) : bool :=
  match t with Some n => truthy_num n | None => false end.

(** The number a stored value is read as where the script subtracts it or
    hands it to the timer; only numbers are written under [punchInTime]. *)
Definition to_num (o : option Value) : Z :=
  match o with Some (VNum n) => n | _ => 0%Z end.

(** ** Synchronisation with the server *)

Definition fetchMe (v : Variant) (resp : Fetched MeResult) : M unit :=
  try_catch
    (response ← apiFetch v "/me" "GET" NoBody resp;
     result ← json response;
     match me_user result with
     | Some (name, business_email) =>
         if ok response
         then modify (with_userName name) ;;
              storage_set "user" (VUser (mkUser name business_email))
         else mret tt
     | None => mret tt
     end)
    (λ _, mret tt).

Definition fetchHistory (v : Variant) (resp : Fetched HistoryResult) : M unit :=
  try_catch
    (response ← apiFetch v "/punch/history" "GET" NoBody resp;
     result ← json response;
     match hr_history result with
     | Some history =>
         if ok response
         then renderHistory history ;;
              storage_set "history" (VHistory history)
         else mret tt
     | None => mret tt
     end)
    (λ _, mret tt).

(** [fetchStatus] of [src/popup.js]. *)
Definition fetchStatus_popup (now : Z) (resp : Fetched StatusResult) : M unit :=
  try_catch
    (response ← apiFetch PopupJs "/user/status" "GET" NoBody resp;
     result ← json response;
     if ok response
     then
       if sr_isPunchedIn result
       then
         localData ← storage_get "punchInTime";
         startTime ←
           (if negb (truthy localData) && truthy_opt_string (sr_punchInTime result)
            then
              try_catch
                (let parsedTime :=
                   parsedTime_popup now (default EmptyString (sr_punchInTime result)) in
                 let startTime := if usable parsedTime then default 0%Z parsedTime else now in
                 storage_set "punchInTime" (VNum startTime) ;;
                 mret (Some (VNum startTime)))
                (λ _, mret (Some (VNum now)))
            else mret localData);
         if truthy startTime
         then startTimer now (to_num startTime) ;; updatePunchUI true
         else mret tt
       else
         storage_remove ["punchInTime"] ;;
         stopTimer ;;
         updatePunchUI false
     else mret tt)
    (λ _, mret tt).

(** [fetchStatus] of [src/unnamed/part_000]. *)
Definition fetchStatus_part000 (now : Z) (resp : Fetched StatusResult) : M unit :=
  try_catch
    (response ← apiFetch Part000 "/user/status" "GET" NoBody resp;
     result ← json response;
     if ok response
     then
       localStartTime ← storage_get "punchInTime";
       if sr_isPunchedIn result
       then
         startTime1 ←
           (if negb (truthy localStartTime) && truthy_opt_string (sr_punchInTime result)
            then
              try_catch
                (let parsedTime :=
                   parsedTime_part000 now (default EmptyString (sr_punchInTime result)) in
                 if usable parsedTime
                 then storage_set "punchInTime" (VNum (default 0%Z parsedTime)) ;;
                      mret (Some (VNum (default 0%Z parsedTime)))
                 else mret localStartTime)
                (λ _, mret localStartTime)
            else mret localStartTime);
         startTime2 ←
           (if negb (truthy startTime1)
            then storage_set "punchInTime" (VNum now) ;; mret (Some (VNum now))
            else mret startTime1);
         startTimer now (to_num startTime2) ;;
         updatePunchUI true
       else
         if truthy localStartTime
         then startTimer now (to_num localStartTime) ;; updatePunchUI true
         else stopTimer ;; updatePunchUI false
     else mret tt)
    (λ _, mret tt).

(** [fetchStatus] of [src/unnamed/part_001]. *)
Definition fetchStatus_part001 (now : Z) (resp : Fetched StatusResult) : M unit :=
  try_catch
    (response ← apiFetch Part001 "/user/status" "GET" NoBody resp;
     result ← json response;
     if ok response
     then
       if sr_isPunchedIn result
       then
         localData ← storage_get "punchInTime";
         startTime ←
           (if negb (truthy localData) && truthy_opt_string (sr_punchInTime result)
            then
              let startTime :=
                match startTime_part001 now (default EmptyString (sr_punchInTime result)) with
                | Some t => VNum t
                | None => VNaN
                end in
              storage_set "punchInTime" startTime ;;
              mret (Some startTime)
            else mret localData);
         if truthy startTime
         then startTimer now (to_num startTime) ;; updatePunchUI true
         else mret tt
       else
         storage_remove ["punchInTime"] ;;
         stopTimer ;;
         updatePunchUI false
     else mret tt)
    (λ _, mret tt).

Definition fetchStatus (v : Variant) : Z → Fetched StatusResult → M unit :=
  match v with
  | PopupJs => fetchStatus_popup
  | Part000 => fetchStatus_part000
  | Part001 => fetchStatus_part001
  end.

(** ** Punching in and out *)

(** [history.some(item => item.type === 'out' &&
      new Date(item.timestamp).toDateString() === todayStr)] *)
Definition hasPunchedOutToday (now : Z) (history : list HistoryEntry) : bool :=
  existsb (λ item, String.eqb (entry_type item) "out" &&
                   String.eqb (Date_toDateString (entry_timestamp item))
                              (Date_toDateString now))
          history.

(** [Math.ceil((PUNCH_DELAY_MS - (now - punchInTime)) / 60000)] *)
Definition remaining (now punchInTime : Z) : Z :=
  Math_ceil_div (PUNCH_DELAY_MS - (now - punchInTime)) 60000.

Definition minStayMessage (now punchInTime : Z) : string :=
  "Min. stay required: " +:+ String_of (remaining now punchInTime) +:+ " mins left".

Definition hasError (result : PunchResult) : bool :=
  truthy_opt_string (pr_error result)
  || (truthy_opt_string (pr_message result)
      && includes (toLowerCase (default EmptyString (pr_message result))) "error")
  || (truthy_opt_string (pr_status result)
      && String.eqb (toLowerCase (default EmptyString (pr_status result))) "error").

Definition isSuccess (result : PunchResult) : bool :=
  bool_decide (pr_status result = Some "success")
  || pr_success result
  || bool_decide (pr_data_status result = Some "success").

(** What follows the answer of /punch/action in [PopupJs] and [Part000]. *)
Definition punch_answer_verbose (v : Variant) (type : string) (now : Z)
    (response : HttpResponse PunchResult) (hist : Fetched HistoryResult) : M unit :=
  match body response with
  | None =>
      showToast ("Server error: " +:+ String_of (status response) +:+ " "
                 +:+ statusText response)
  | Some result =>
      if ok response && (status response =? 200)%Z
         && (isSuccess result || negb (hasError result))
      then
        (if String.eqb type "in"
         then storage_set "punchInTime" (VNum now) ;;
              startTimer now now ;;
              updatePunchUI true ;;
              showToast (or_default (pr_message result) "Punched In Successfully")
         else storage_remove ["punchInTime"] ;;
              stopTimer ;;
              updatePunchUI false ;;
              showToast (or_default (pr_message result) "Punched Out Successfully")) ;;
        fetchHistory v hist
      else
        showToast
          (or_default
             (or_else (pr_message result) (or_else (pr_error result) (pr_msg result)))
             ("Action failed (" +:+ String_of (status response) +:+ ")"))
  end.

(** What follows the answer of /punch/action in [Part001]. *)
Definition punch_answer_part001 (type : string) (now : Z)
    (response : HttpResponse PunchResult)
    (stat : Fetched StatusResult) (hist : Fetched HistoryResult) : M unit :=
  result ← json response;
  if ok response && bool_decide (pr_status result = Some "success")
  then
    (if String.eqb type "in"
     then storage_set "punchInTime" (VNum now) ;;
          startTimer now now ;;
          updatePunchUI true ;;
          showToast "Punched In Successfully"
     else storage_remove ["punchInTime"] ;;
          stopTimer ;;
          updatePunchUI false ;;
          showToast "Punched Out Successfully") ;;
    fetchStatus Part001 now stat ;;
    fetchHistory Part001 hist
  else showToast (or_default (pr_message result) "Action failed").

(** The [try] block of [handlePunch] with its [catch]: the request to
    /punch/action and what follows its answer. *)
Definition punchRequest (v : Variant) (type : string) (now : Z)
    (resp : Fetched PunchResult)
    (stat : Fetched StatusResult) (hist : Fetched HistoryResult) : M unit :=
  try_catch
    (response ← apiFetch v "/punch/action" "POST"
                  (PunchForm type (Math_floor_div now 1000)) resp;
     match v with
     | Part001 => punch_answer_part001 type now response stat hist
     | _ => punch_answer_verbose v type now response hist
     end)
    (λ e,
       match v with
       | Part001 => showToast "Sync Error"
       | _ => showToast ("Punch failed: " +:+
                or_default (Some e) "Network error. Please check your connection.")
       end).

(** [handlePunch].  [online] is [navigator.onLine], [now] is [Date.now()];
    [resp] answers /punch/action, [stat] and [hist] answer the requests that
    follow a successful punch. *)
Definition handlePunch (v : Variant) (online : bool) (now : Z)
    (resp : Fetched PunchResult)
    (stat : Fetched StatusResult) (hist : Fetched HistoryResult) : M unit :=
  if negb online
  then showToast "Offline: Check connection"
  else
    punchInTime ← storage_get "punchInTime";
    token ← storage_get "token";
    if negb (truthy token)
    then handleLogout v true
    else
      let isPunchedIn := truthy punchInTime in
      let type := if isPunchedIn then "out" else "in" in
      shiftDone ←
        (if negb isPunchedIn
         then historyData ← storage_get "history";
              mret (hasPunchedOutToday now (stored_history historyData))
         else mret false : M bool);
      if (shiftDone : bool)
      then showToast "Already completed today’s attendance"
      else if isPunchedIn && (now - to_num punchInTime <? PUNCH_DELAY_MS)%Z
      then showToast (minStayMessage now (to_num punchInTime))
      else punchRequest v type now resp stat hist.

(** ** Start of the popup *)

(** [restoreLocalState], in [Part000] only. *)
Definition restoreLocalState (now : Z) : M unit :=
  punchInTime ← storage_get "punchInTime";
  token ← storage_get "token";
  if negb (truthy token)
  then mret tt
  else if truthy punchInTime
  then startTimer now (to_num punchInTime) ;; updatePunchUI true
  else updatePunchUI false.

(** [syncState]: the three requests of [Promise.all] in the order they are
    started; [Part000] renders the local state first and asks for the
    status last. *)
Definition syncState (v : Variant) (now : Z) (me : Fetched MeResult)
    (stat : Fetched StatusResult) (hist : Fetched HistoryResult) : M unit :=
  match v with
  | Part000 =>
      restoreLocalState now ;;
      fetchMe v me ;;
      fetchHistory v hist ;;
      fetchStatus v now stat
  | _ =>
      fetchMe v me ;;
      fetchStatus v now stat ;;
      fetchHistory v hist
  end.

Definition init (v : Variant) (now : Z) (me : Fetched MeResult)
    (stat : Fetched StatusResult) (hist : Fetched HistoryResult) : M unit :=
  token ← storage_get "token";
  user ← storage_get "user";
  if truthy token
  then setupDashboard (match user with Some (VUser u) => Some u | _ => None end) ;;
       syncState v now me stat hist
  else transitionToView LoginView.

(** ** Runs of the popup *)

Inductive Event :=
| Init (now : Z) (me : Fetched MeResult) (stat : Fetched StatusResult)
       (hist : Fetched HistoryResult)
| LoginClick (email password : string) (remember : bool) (resp : Fetched LoginResult)
| LogoutClick
| PunchClick (online : bool) (now : Z) (resp : Fetched PunchResult)
             (stat : Fetched StatusResult) (hist : Fetched HistoryResult)
| TimerPeriod (now : Z).

Definition step (v : Variant) (e : Event) (w : World) : World :=
  match e with
  | Init now me stat hist => exec (init v now me stat hist) w
  | LoginClick email password remember resp =>
      exec (handleLogin email password remember resp) w
  | LogoutClick => exec (handleLogout v false) w
  | PunchClick online now resp stat hist =>
      exec (handlePunch v online now resp stat hist) w
  | TimerPeriod now => tick now w
  end.

Definition run (v : Variant) (es : list Event) (w : World) : World :=
  foldl (λ acc e, step v e acc) w es.

End WithHost.

(** ** A host for examples

    A host on UTC whose [toDateString] prints the number of the day since
    the epoch; it reads decimal digits only. *)
Fixpoint digits_value (acc : Z) (l : list ascii) : option Z :=
  match l with
  | [] => Some acc
  | c :: r => if is_digit c then digits_value (10 * acc + digit_val c)%Z r else None
  end.

Definition decimal (s : string) : option Z :=
  match list_ascii_of_string s with
  | [] => None
  | l => digits_value 0 l
  end.

Definition MS_PER_DAY : Z := 86400000.

Definition utcHost : Host := {|
  Date_toDateString := λ ms, String_of (ms / MS_PER_DAY);
  Date_setHours := λ ms h m s,
    (ms / MS_PER_DAY * MS_PER_DAY + h * 3600000 + m * 60000 + s * 1000)%Z;
  Date_parse := λ text,
    if String.eqb text "2024-01-15T10:16:29Z" then Some 1705313789000%Z else None;
  ToInteger := λ text, if String.eqb text EmptyString then Some 0%Z else decimal text;
  parseInt10 := decimal
|}.

(** ** Predicates of the statements *)

(** A local punch-in time is stored: the test [!!data.punchInTime]. *)
Definition punchedInLocally (w : World) : bool :=
  truthy (storage w !! "punchInTime").

(** A session token is stored: the test [data.token]. *)
Definition hasToken (w : World) : bool := truthy (storage w !! "token").

(** The timers of the host and the variable [timerInterval] agree: no timer
    is live when the variable is [null], and otherwise the only live timer is
    the one the variable names. *)
Definition timer_inv (w : World) : Prop :=
  nextHandle w ≠ 0 ∧
  match timerInterval w with
  | Some h => h ≠ 0 ∧ ∃ startTime, intervals w = {[h := startTime]}
  | None => intervals w = ∅
  end.

(** A computation keeps a property of the world, however it ends. *)
Definition preserves (P : World → Prop) {A} (m : M A) : Prop :=
  ∀ w, P w → P (snd (m w)).

(** What the store is after [handleLogout]. *)
Definition logout_store (v : Variant) (preservePunch : bool)
    (st : gmap string Value) : gmap string Value :=
  match v with
  | PopupJs => delete "token" (delete "user" (delete "punchInTime" st))
  | Part000 =>
      if preservePunch
      then delete "token" (delete "user" st)
      else delete "token" (delete "user" (delete "punchInTime" st))
  | Part001 => ∅
  end.

(** The stored punch-in time is [x]. *)
Definition punchInTimeIs (x : option Value) (w : World) : Prop :=
  storage w !! "punchInTime" = x.

(** The answer to /punch/action counts as a success in [PopupJs] and
    [Part000]. *)
Definition punchSucceeds (resp : Fetched PunchResult) : bool :=
  match resp with
  | Answer r =>
      match body r with
      | Some result =>
          ok r && (status r =? 200)%Z && (isSuccess result || negb (hasError result))
      | None => false
      end
  | NetworkError _ => false
  end.

(** The events that are neither a manual logout nor a punch the server
    accepts. *)
Definition keepsPunch (e : Event) : Prop :=
  match e with
  | LogoutClick => False
  | PunchClick _ _ resp _ _ => punchSucceeds resp = false
  | _ => True
  end.

Definition outToday `{Host} (now : Z) (h : list HistoryEntry) : Prop :=
  ∃ item, item ∈ h
    ∧ entry_type item = "out"
    ∧ Date_toDateString (entry_timestamp item) = Date_toDateString now.

(** The attempt is turned down where it is made: no request goes out, the
    store is left as it was and a toast is shown. *)
Definition refusedOnTheSpot (w w' : World) : Prop :=
  requests w' = requests w
  ∧ storage w' = storage w
  ∧ ∃ msg, toasts w' = msg :: toasts w.

(** The punch is turned down by one of the two local rules. *)
Definition refusedLocally `{Host} (now : Z) (w : World) : bool :=
  (negb (punchedInLocally w)
   && hasPunchedOutToday now (stored_history (storage w !! "history")))
  || (punchedInLocally w
      && (now - to_num (storage w !! "punchInTime") <? PUNCH_DELAY_MS)%Z).

(** A request to /punch/action carries the form of this punch. *)
Definition punchFormOnly (type : string) (ts : Z) (rq : Request) : Prop :=
  req_endpoint rq = "/punch/action" →
  req_method rq = "POST" ∧ req_body rq = PunchForm type ts.

Definition thePunchRequest (type : string) (ts : Z) (tok : option string) : Request :=
  mkRequest "/punch/action" "POST" tok (PunchForm type ts).

(** Since [w0], the request of this punch went out, and no other request
    to /punch/action did. *)
Definition punchLogged (w0 : World) (type : string) (ts : Z) (tok : option string)
    (w : World) : Prop :=
  ∃ new, requests w = (new ++ requests w0)%list
    ∧ Forall (punchFormOnly type ts) new
    ∧ thePunchRequest type ts tok ∈ new.

(** [apiFetch] once the token is read and the request is out. *)
Definition apiFetch_tail {R} (v : Variant) (resp : Fetched R) : M (HttpResponse R) :=
  let call : M (HttpResponse R) :=
    response ← match resp with
               | NetworkError msg => throw msg
               | Answer r => mret r
               end;
    if (status response =? 401)%Z
    then handleLogout v true ;; throw "Session expired"
    else mret response in
  match v with
  | Part001 => call
  | _ => try_catch call (λ e, throw ("Network request failed: " +:+ e))
  end.

(** The time [PopupJs] and [Part000] adopt from a text that holds a
    colon. *)
Definition adopted `{Host} (now : Z) (text : string) : Z :=
  match time_match (list_ascii_of_string text) with
  | Some (hours, minutes, seconds, modifier) =>
      let t := Date_setHours now (hours24 hours modifier) minutes seconds in
      if truthy_num t then t else now
  | None => now
  end.

(** ** Inputs of the examples *)

Definition loginAnswerT1 : HttpResponse LoginResult :=
  mkResponse 200 "OK" (Some (mkLoginResult (Some "T1") None None None None)).

(** A store of a user who punched in at [1000]. *)
Definition punchedInStore : gmap string Value :=
  {[ "token" := VStr "T"; "punchInTime" := VNum 1000 ]}.

Definition noPunchAnswer : Fetched PunchResult := NetworkError "unreachable".
Definition noStatusAnswer : Fetched StatusResult := NetworkError "unreachable".
Definition noHistoryAnswer : Fetched HistoryResult := NetworkError "unreachable".

Definition sessionExpired {R} : Fetched R :=
  Answer (mkResponse 401 "Unauthorized" None).

(** A store of a user who is logged in and punched in at [1000]. *)
Definition sessionStore : gmap string Value :=
  {[ "token" := VStr "T";
     "user" := VUser (mkUser "A" "a@b.com");
     "punchInTime" := VNum 1000 ]}.

Definition historyAnswerOutAt1000 : Fetched HistoryResult :=
  Answer (mkResponse 200 "OK"
            (Some (mkHistoryResult (Some [mkEntry "in" 500; mkEntry "out" 1000])))).

Definition meAnswerA : Fetched MeResult :=
  Answer (mkResponse 200 "OK" (Some (mkMeResult (Some ("A", "a@b.com"))))).

Definition statusAnswerOut : Fetched StatusResult :=
  Answer (mkResponse 200 "OK" (Some (mkStatusResult false None))).

(** A store of a user who is logged in and has punched out at [1000]. *)
Definition shiftDoneStore : gmap string Value :=
  {[ "token" := VStr "T";
     "history" := VHistory [mkEntry "in" 500; mkEntry "out" 1000] ]}.

(** The same history in a store that holds no token. *)
Definition historyOnlyStore : gmap string Value :=
  {[ "history" := VHistory [mkEntry "in" 500; mkEntry "out" 1000] ]}.

(** Twenty-one entries, one a second. *)
Definition longHistory : list HistoryEntry :=
  (λ i, mkEntry (if Nat.even i then "out" else "in") (Z.of_nat i * 1000)) <$> seq 1 21.

Definition isoText : string := "2024-01-15T10:16:29Z".

Definition statusAnswerIso : Fetched StatusResult :=
  Answer (mkResponse 200 "OK" (Some (mkStatusResult true (Some isoText)))).

Definition tokenOnlyStore : gmap string Value := {[ "token" := VStr "T" ]}.

Definition statusAnswerNoText : Fetched StatusResult :=
  Answer (mkResponse 200 "OK" (Some (mkStatusResult true None))).

(** ** The theme and the login form

    The part of the page that [init] and [toggleTheme] write and that
    [handleLogin] reads: the attribute [data-theme] of the body and the
    fields of the login form. *)
Record Shell := mkShell {
  dataTheme : option string;      (* None: the attribute is not set *)
  emailInput : string;            (* nodes.emailInput.value *)
  passwordInput : string;         (* nodes.passwordInput.value *)
  rememberChecked : bool          (* nodes.rememberCheckbox.checked *)
}.

Definition applyTheme (theme : string) (sh : Shell) : Shell :=
  mkShell (Some theme) (emailInput sh) (passwordInput sh) (rememberChecked sh).

Definition toggleTheme (sh : Shell) : M Shell :=
  let current := dataTheme sh in
  let next := if bool_decide (current = Some "light") then "dark" else "light" in
  storage_set "theme" (VStr next) ;;
  mret (applyTheme next sh).

(** [data.theme || 'dark']; only strings are written under [theme]. *)
Definition theme_or_dark (theme : option Value) : string :=
  match theme with
  | Some (VStr s) => if truthy_string s then s else "dark"
  | _ => "dark"
  end.

(** Step 0 of [init]: the saved credentials go into the form and the box
    is ticked. *)
Definition prefill (savedCreds : option Value) (sh : Shell) : Shell :=
  match savedCreds with
  | Some (VCreds c) => mkShell (dataTheme sh) (creds_email c) (creds_password c) true
  | Some (VUser u) => mkShell (dataTheme sh) (user_email u) EmptyString true
  | Some v => if truthy_value v then mkShell (dataTheme sh) EmptyString EmptyString true
              else sh
  | None => sh
  end.

(** Steps 0 and 1 of [init]: prefill and theme. *)
Definition initShell (sh : Shell) : M Shell :=
  savedCreds ← storage_get "savedCreds";
  theme ← storage_get "theme";
  mret (applyTheme (theme_or_dark theme) (prefill savedCreds sh)).

(** The click on the login button: [handleLogin] on what the form holds. *)
Definition loginClick (sh : Shell) (resp : Fetched LoginResult) : M unit :=
  handleLogin (emailInput sh) (passwordInput sh) (rememberChecked sh) resp.

(** The class [btn-disabled] that [updatePunchUI(active, punchInTime)] puts
    on the punch button at instant [now]. *)
Definition punchBtnDisabled (active : bool) (punchInTime : option Value) (now : Z) : bool :=
  active && truthy punchInTime && (now - to_num punchInTime <? PUNCH_DELAY_MS)%Z.

(** ** Predicates of the further properties *)

(** The message of what [apiFetch] throws for an error [msg] raised after
    the token check. *)
Definition rethrown (v : Variant) (msg : string) : string :=
  match v with
  | Part001 => msg
  | _ => "Network request failed: " +:+ msg
  end.

(** The request [apiFetch] sends from the world [w]. *)
Definition apiRequest (endpoint method : string) (form : ReqBody) (w : World) : Request :=
  mkRequest endpoint method (bearer (storage w !! "token")) form.

(** The server answered 401. *)
Definition expired {R} (resp : Fetched R) : bool :=
  match resp with
  | Answer r => (status r =? 401)%Z
  | NetworkError _ => false
  end.

(** The request failed without ending the session: no answer, or an answer
    other than 401 that is not JSON or not a 2xx. *)
Definition failedAnswer {R} (resp : Fetched R) : Prop :=
  match resp with
  | NetworkError _ => True
  | Answer r => status r ≠ 401%Z ∧ (body r = None ∨ ok r = false)
  end.

(** The answer to /punch/action counts as a success in the copy [v]. *)
Definition punchAccepted (v : Variant) (resp : Fetched PunchResult) : bool :=
  match v with
  | Part001 =>
      match resp with
      | Answer r =>
          match body r with
          | Some result => ok r && bool_decide (pr_status result = Some "success")
          | None => false
          end
      | NetworkError _ => false
      end
  | _ => punchSucceeds resp
  end.

(** The answer to /login is accepted. *)
Definition loginAccepted (resp : Fetched LoginResult) : bool :=
  match resp with
  | Answer r =>
      match body r with
      | Some result =>
          ok r && truthy_opt_string (or_else (lr_token result) (lr_data_token result))
      | None => false
      end
  | NetworkError _ => false
  end.

(** The toast of a login that is not accepted. *)
Definition loginFailureMessage (resp : Fetched LoginResult) : string :=
  match resp with
  | Answer r =>
      match body r with
      | Some result => or_default (lr_message result) "Login failed. Check credentials."
      | None => "Connection error during login."
      end
  | NetworkError _ => "Connection error during login."
  end.

(** [w'] is [w] but for the history: the stored list, the rendered list and
    the requests that were sent. *)
Definition historyRefreshed (w w' : World) : Prop :=
  timerInterval w' = timerInterval w
  ∧ intervals w' = intervals w
  ∧ nextHandle w' = nextHandle w
  ∧ view w' = view w
  ∧ toasts w' = toasts w
  ∧ userName w' = userName w
  ∧ statusOnline w' = statusOnline w
  ∧ timerDisplay w' = timerDisplay w
  ∧ ticks w' = ticks w
  ∧ ∀ k, k ≠ "history" → storage w' !! k = storage w !! k.

(** An event other than a click on the login button. *)
Definition notLogin (e : Event) : bool :=
  match e with
  | LoginClick _ _ _ _ => false
  | _ => true
  end.

(** The form of a punch of the given type at the instant [now]. *)
Definition punchForm (type : string) (now : Z) : ReqBody :=
  PunchForm type (Math_floor_div now 1000).

(** The toast of a punch the server answers without accepting it. *)
Definition punchRejectionMessage (v : Variant) (r : HttpResponse PunchResult) : string :=
  match v, body r with
  | Part001, None => "Sync Error"
  | Part001, Some result => or_default (pr_message result) "Action failed"
  | _, None => "Server error: " +:+ String_of (status r) +:+ " " +:+ statusText r
  | _, Some result =>
      or_default
        (or_else (pr_message result) (or_else (pr_error result) (pr_msg result)))
        ("Action failed (" +:+ String_of (status r) +:+ ")")
  end.

(** The toast of a punch that reaches the server and is not accepted. *)
Definition punchFailureMessage (v : Variant) (resp : Fetched PunchResult) : string :=
  match resp with
  | NetworkError msg =>
      match v with
      | Part001 => "Sync Error"
      | _ => "Punch failed: Network request failed: " +:+ msg
      end
  | Answer r => punchRejectionMessage v r
  end.

(** A text starts with a character that is not white space, or is
    empty. *)
Definition no_lead (l : list ascii) : Prop :=
  match l with
  | c :: _ => is_space c = false
  | [] => True
  end.

(** ** Inputs of the further examples *)

Definition punchAnswerOk : HttpResponse PunchResult :=
  mkResponse 200 "OK" (Some (mkPunchResult (Some "success") true None None None None)).

Definition punchAnswerTooEarly : Fetched PunchResult :=
  Answer (mkResponse 422 "Unprocessable"
            (Some (mkPunchResult (Some "error") false None None (Some "Too early") None))).

Definition loginAnswerWrongPassword : Fetched LoginResult :=
  Answer (mkResponse 401 "Unauthorized"
            (Some (mkLoginResult None None None None (Some "Wrong password")))).

Definition statusAnswerIn : HttpResponse StatusResult :=
  mkResponse 200 "OK" (Some (mkStatusResult true (Some "10:16:29 AM"))).

Definition statusAnswerNotIn : HttpResponse StatusResult :=
  mkResponse 200 "OK" (Some (mkStatusResult false None)).

Definition noMeAnswer : Fetched MeResult := NetworkError "unreachable".

(** A store whose history holds the twenty-one entries. *)
Definition longHistoryStore : gmap string Value :=
  {[ "history" := VHistory longHistory ]}.

Definition formOfA : Shell := mkShell (Some "dark") " a@b.com " "x" true.

Definition emptyForm : Shell := mkShell None EmptyString EmptyString false.

(** Events of a popup that holds no token. *)
Definition eventsWithoutLogin : list Event :=
  [ Init 5 meAnswerA statusAnswerOut historyAnswerOutAt1000;
    PunchClick true 6 noPunchAnswer noStatusAnswer noHistoryAnswer;
    LogoutClick;
    TimerPeriod 7 ].

(** * Properties *)

Section Preservation.
Context (P : World → Prop).

Lemma preserves_ret {A} (a : A) : preserves P (mret a).
Proof. intros w Hw; exact Hw. Qed.

Lemma preserves_throw {A} msg : preserves P (@throw A msg).
Proof. intros w Hw; exact Hw. Qed.

Lemma preserves_gets {A} (f : World → A) : preserves P (gets f).
Proof. intros w Hw; exact Hw. Qed.

Lemma preserves_bind {A B} (m : M A) (f : A → M B) :
  preserves P m → (∀ a, preserves P (f a)) → preserves P (m ≫= f).
Proof.
  intros Hm Hf w Hw. unfold mbind, M_bind.
  specialize (Hm w Hw). destruct (m w) as [[a|e] w']; simpl in *.
  - by apply Hf.
  - done.
Qed.

Lemma preserves_try_catch {A} (m : M A) (h : string → M A) :
  preserves P m → (∀ e, preserves P (h e)) → preserves P (try_catch m h).
Proof.
  intros Hm Hh w Hw. unfold try_catch.
  specialize (Hm w Hw). destruct (m w) as [[a|e] w']; simpl in *.
  - done.
  - by apply Hh.
Qed.

Lemma preserves_modify (f : World → World) :
  (∀ w, P w → P (f w)) → preserves P (modify f).
Proof. intros Hf w Hw. by apply Hf. Qed.

End Preservation.

(** One step of a proof that a handler keeps a property: go under the
    sequencing and the branches. *)
Ltac preserves_step :=
  lazymatch goal with
  | |- preserves _ (mret _) => apply preserves_ret
  | |- preserves _ (throw _) => apply preserves_throw
  | |- preserves _ (gets _) => apply preserves_gets
  | |- preserves _ (storage_get _) => apply preserves_gets
  | |- preserves _ (_ ≫= _) => apply preserves_bind; [| intros ?]
  | |- preserves _ (try_catch _ _) => apply preserves_try_catch; [| intros ?]
  | |- preserves _ (if ?b then _ else _) => destruct b
  | |- preserves _ (match ?x with _ => _ end) => destruct x
  end.

(** A handler keeps a property when the functions it calls do: [known]
    proves it for a call that is not to be opened, [leaf] for one write. *)
Ltac preserves_with known leaf :=
  repeat first
    [ solve [known]
    | preserves_step
    | lazymatch goal with
      | |- preserves _ (modify _) => apply preserves_modify; solve [leaf]
      end
    | progress (cbv zeta) ].

(** *** The display timer *)

Lemma timer_inv_init st : timer_inv (initWorld st).
Proof. by split. Qed.

Lemma startTimer_intervals now startTime w :
  timer_inv w →
  timerInterval (exec (startTimer now startTime) w) = Some (nextHandle w)
  ∧ intervals (exec (startTimer now startTime) w) = {[nextHandle w := startTime]}
  ∧ nextHandle (exec (startTimer now startTime) w) = S (nextHandle w).
Proof.
  unfold timer_inv. destruct w as [st ti iv nh vw ts rq un so td hl tk]; simpl.
  intros [_ Hti]. destruct ti as [[|h]|]; simpl.
  - by destruct Hti.
  - destruct Hti as [_ [t ->]]. cbn. by rewrite delete_singleton_eq, insert_empty.
  - rewrite Hti. cbn. by rewrite insert_empty.
Qed.

Lemma stopTimer_intervals w :
  timer_inv w →
  timerInterval (exec stopTimer w) = None ∧ intervals (exec stopTimer w) = ∅
  ∧ nextHandle (exec stopTimer w) = nextHandle w.
Proof.
  unfold timer_inv. destruct w as [st ti iv nh vw ts rq un so td hl tk]; simpl.
  intros [_ Hti]. destruct ti as [[|h]|]; simpl.
  - by destruct Hti.
  - destruct Hti as [_ [t ->]]. cbn. by rewrite delete_singleton_eq.
  - by rewrite Hti.
Qed.

Lemma startTimer_timer_inv now startTime : preserves timer_inv (startTimer now startTime).
Proof.
  intros w Hw. destruct (startTimer_intervals now startTime w Hw) as (Hti & Hiv & Hnh).
  fold (exec (startTimer now startTime) w).
  unfold timer_inv. rewrite Hti, Hiv, Hnh. destruct Hw as [Hw _].
  split; [done |]. split; [done |]. by eexists.
Qed.

Lemma stopTimer_timer_inv : preserves timer_inv stopTimer.
Proof.
  intros w Hw. destruct (stopTimer_intervals w Hw) as (Hti & Hiv & Hnh).
  fold (exec stopTimer w).
  unfold timer_inv. rewrite Hti, Hiv, Hnh. by destruct Hw.
Qed.

(** No handler touches the timers except through [startTimer] and
    [stopTimer]. *)
Create HintDb timer discriminated.

#[local] Hint Resolve startTimer_timer_inv stopTimer_timer_inv : timer.

Ltac timer_inv_auto :=
  preserves_with ltac:(auto 1 with timer nocore) ltac:(intros ? ?; assumption).

Lemma storage_set_timer_inv k x : preserves timer_inv (storage_set k x).
Proof. unfold storage_set. timer_inv_auto. Qed.

Lemma storage_remove_timer_inv ks : preserves timer_inv (storage_remove ks).
Proof. unfold storage_remove. timer_inv_auto. Qed.

Lemma storage_clear_timer_inv : preserves timer_inv storage_clear.
Proof. unfold storage_clear. timer_inv_auto. Qed.

Lemma showToast_timer_inv msg : preserves timer_inv (showToast msg).
Proof. unfold showToast. timer_inv_auto. Qed.

Lemma transitionToView_timer_inv vw : preserves timer_inv (transitionToView vw).
Proof. unfold transitionToView. timer_inv_auto. Qed.

#[local] Hint Resolve storage_set_timer_inv storage_remove_timer_inv
  storage_clear_timer_inv showToast_timer_inv transitionToView_timer_inv : timer.

Lemma setupDashboard_timer_inv u : preserves timer_inv (setupDashboard u).
Proof. unfold setupDashboard. timer_inv_auto. Qed.

Lemma updatePunchUI_timer_inv b : preserves timer_inv (updatePunchUI b).
Proof. unfold updatePunchUI. timer_inv_auto. Qed.

Lemma renderHistory_timer_inv h : preserves timer_inv (renderHistory h).
Proof. unfold renderHistory. timer_inv_auto. Qed.

Lemma fetch_timer_inv {R} rq (resp : Fetched R) : preserves timer_inv (fetch rq resp).
Proof. unfold fetch. timer_inv_auto. Qed.

Lemma json_timer_inv {R} (r : HttpResponse R) : preserves timer_inv (json r).
Proof. unfold json. timer_inv_auto. Qed.

#[local] Hint Resolve setupDashboard_timer_inv updatePunchUI_timer_inv
  renderHistory_timer_inv fetch_timer_inv json_timer_inv : timer.

Lemma handleLogin_timer_inv email password remember resp :
  preserves timer_inv (handleLogin email password remember resp).
Proof. unfold handleLogin, showError. timer_inv_auto. Qed.

Lemma handleLogout_timer_inv v preservePunch :
  preserves timer_inv (handleLogout v preservePunch).
Proof. unfold handleLogout. timer_inv_auto. Qed.

#[local] Hint Resolve handleLogout_timer_inv : timer.

Lemma apiFetch_timer_inv {R} v endpoint method form (resp : Fetched R) :
  preserves timer_inv (apiFetch v endpoint method form resp).
Proof. unfold apiFetch. timer_inv_auto. Qed.

#[local] Hint Resolve apiFetch_timer_inv : timer.

Section HandlersKeepTimer.
Context `{Host}.

Lemma fetchMe_timer_inv v resp : preserves timer_inv (fetchMe v resp).
Proof. unfold fetchMe. timer_inv_auto. Qed.

Lemma fetchHistory_timer_inv v resp : preserves timer_inv (fetchHistory v resp).
Proof. unfold fetchHistory. timer_inv_auto. Qed.

Lemma fetchStatus_timer_inv v now resp : preserves timer_inv (fetchStatus v now resp).
Proof.
  destruct v; simpl;
    [unfold fetchStatus_popup | unfold fetchStatus_part000 | unfold fetchStatus_part001];
    timer_inv_auto.
Qed.

Hint Resolve fetchMe_timer_inv fetchHistory_timer_inv fetchStatus_timer_inv : timer.

Lemma handlePunch_timer_inv v online now resp stat hist :
  preserves timer_inv (handlePunch v online now resp stat hist).
Proof.
  unfold handlePunch, punchRequest, punch_answer_verbose, punch_answer_part001.
  timer_inv_auto.
Qed.

Lemma init_timer_inv v now me stat hist :
  preserves timer_inv (init v now me stat hist).
Proof. unfold init, syncState, restoreLocalState. timer_inv_auto. Qed.

End HandlersKeepTimer.

(** A period of the host's timers runs one callback per live timer and
    changes nothing but the timer text and the count of runs. *)
Lemma tick_spec now w :
  storage (tick now w) = storage w
  ∧ timerInterval (tick now w) = timerInterval w
  ∧ intervals (tick now w) = intervals w
  ∧ nextHandle (tick now w) = nextHandle w
  ∧ requests (tick now w) = requests w
  ∧ ticks (tick now w) = ticks w + size (intervals w).
Proof.
  unfold tick.
  apply (map_fold_weak_ind
    (λ (r : World) (m : gmap nat Z),
       storage r = storage w ∧ timerInterval r = timerInterval w
       ∧ intervals r = intervals w ∧ nextHandle r = nextHandle w
       ∧ requests r = requests w
       ∧ ticks r = ticks w + size m)).
  - rewrite map_size_empty. repeat split; lia.
  - intros h t m r Hm (Hs & Hti & Hiv & Hnh & Hrq & Htk).
    rewrite map_size_insert_None by done. cbn.
    repeat split; try done. lia.
Qed.

Lemma tick_timer_inv now w : timer_inv w → timer_inv (tick now w).
Proof.
  destruct (tick_spec now w) as (_ & Hti & Hiv & Hnh & _).
  unfold timer_inv. by rewrite Hti, Hiv, Hnh.
Qed.

Section Runs.
Context `{Host}.

Lemma step_timer_inv v e w : timer_inv w → timer_inv (step v e w).
Proof.
  destruct e; simpl; unfold exec.
  - apply init_timer_inv.
  - apply handleLogin_timer_inv.
  - apply handleLogout_timer_inv.
  - apply handlePunch_timer_inv.
  - apply tick_timer_inv.
Qed.

Lemma run_timer_inv v es w : timer_inv w → timer_inv (run v es w).
Proof.
  revert w. induction es as [|e es IH]; intros w Hw; simpl.
  - done.
  - apply IH. by apply step_timer_inv.
Qed.

Lemma timer_inv_size w : timer_inv w → (size (intervals w) ≤ 1)%nat.
Proof.
  intros [_ Hw]. destruct (timerInterval w).
  - destruct Hw as [_ [t ->]]. by rewrite map_size_singleton.
  - rewrite Hw. rewrite map_size_empty. lia.
Qed.

(** C7.  In every state the popup reaches, in any of the three copies, at
    most one repeating timer is live.  A call of [startTimer] leaves the
    timer it creates as the only live one, whatever was running before; two
    calls in succession leave exactly one, and one period of the host then
    runs the callback exactly once. *)
Theorem C7_one_live_timer v st es :
  let w := run v es (initWorld st) in
  (size (intervals w) ≤ 1)%nat
  ∧ (∀ now startTime,
       intervals (exec (startTimer now startTime) w) = {[nextHandle w := startTime]})
  ∧ (∀ now t1 t2 later,
       let w2 := exec (startTimer now t2) (exec (startTimer now t1) w) in
       size (intervals w2) = 1
       ∧ intervals w2 = {[S (nextHandle w) := t2]}
       ∧ timerInterval w2 = Some (S (nextHandle w))
       ∧ ticks (tick later w2) = S (ticks w2)).
Proof.
  intros w.
  assert (Hw : timer_inv w) by apply run_timer_inv, timer_inv_init.
  split; [by apply timer_inv_size |]. split.
  - intros now startTime. by apply startTimer_intervals.
  - intros now t1 t2 later w2.
    pose proof (startTimer_timer_inv now t1 w Hw) as Hw1.
    fold (exec (startTimer now t1) w) in Hw1.
    destruct (startTimer_intervals now t1 w Hw) as (_ & _ & Hnh1).
    destruct (startTimer_intervals now t2 _ Hw1) as (Hti2 & Hiv2 & _).
    rewrite Hnh1 in Hti2, Hiv2. subst w2.
    destruct (tick_spec later (exec (startTimer now t2) (exec (startTimer now t1) w)))
      as (_ & _ & _ & _ & _ & Htk).
    rewrite Htk, Hiv2, map_size_singleton. repeat split; try done. lia.
Qed.

End Runs.

(** *** Login *)

(** The first piece of [split] is the text before the first separator. *)
Lemma split_go_head sep cur l :
  ∃ p : list ascii,
    head (split_go sep cur l) = Some (string_of_list_ascii (rev cur ++ p)%list)
    ∧ (sep ∉ p)
    ∧ (l = p ∨ ∃ rest, l = (p ++ sep :: rest)%list).
Proof.
  revert cur. induction l as [|c r IH]; intros cur; simpl.
  - exists []. rewrite app_nil_r. split; [done |]. split; [by apply not_elem_of_nil | by left].
  - destruct (Ascii.eqb_spec c sep) as [->|Hne].
    + exists []. rewrite app_nil_r. split; [done |].
      split; [by apply not_elem_of_nil |]. right. by exists r.
    + destruct (IH (c :: cur)) as (p & Hhd & Hnotin & Hshape).
      exists (c :: p). split; [| split].
      * rewrite Hhd. simpl. by rewrite <- app_assoc.
      * intros Hin. apply elem_of_cons in Hin as [Heq|Hin]; [by subst | done].
      * destruct Hshape as [->|[rest ->]]; [by left | right; by exists rest].
Qed.

Lemma split_head sep s :
  ∃ p : string,
    head (split sep s) = Some p
    ∧ (sep ∉ list_ascii_of_string p)
    ∧ (s = p ∨ ∃ rest, s = p +:+ String sep rest).
Proof.
  destruct (split_go_head sep [] (list_ascii_of_string s)) as (p & Hhd & Hnotin & Hshape).
  exists (string_of_list_ascii p). split; [exact Hhd |].
  rewrite list_ascii_of_string_of_list_ascii. split; [done |].
  destruct Hshape as [Hs|[rest Hs]].
  - left. by rewrite <- Hs, string_of_list_ascii_of_string.
  - right. exists (string_of_list_ascii rest).
    rewrite <- (string_of_list_ascii_of_string s), Hs.
    clear. induction p as [|c p IH]; simpl; [done | by rewrite IH].
Qed.

(** The store after a login the server accepts. *)
Lemma handleLogin_success emailInput password remember response result w :
  truthy_string (trim emailInput) = true →
  truthy_string password = true →
  body response = Some result →
  ok response = true →
  truthy_opt_string (or_else (lr_token result) (lr_data_token result)) = true →
  storage (exec (handleLogin emailInput password remember (Answer response)) w) =
    <["user" := VUser (mkUser
        (or_default (or_else (lr_user_name result) (lr_data_user_name result))
                    (default EmptyString (head (split "@" (trim emailInput)))))
        (trim emailInput))]>
      (<["token" := VStr (default EmptyString
                            (or_else (lr_token result) (lr_data_token result)))]>
         (if remember
          then <["savedCreds" := VCreds (mkCreds (trim emailInput) password)]> (storage w)
          else delete "savedCreds" (storage w))).
Proof.
  intros Hemail Hpassword Hbody Hok Htoken.
  unfold handleLogin, exec. rewrite Hemail, Hpassword. simpl.
  unfold try_catch, fetch, json, mbind, M_bind, modify. simpl.
  rewrite Hbody. simpl. rewrite Hok, Htoken. simpl.
  by destruct remember.
Qed.

(** C8.  A login that the server accepts with a token and without a user
    name, neither [result.user.name] nor [result.data.user.name], stores a
    user whose name is the text of the e-mail address before its first [@]
    (the whole address when it has none).  The address is the text of the
    field without the white space around it, which is also the address that
    is stored. *)
Theorem C8_login_name_defaults_to_mailbox
    emailInput password remember response result w :
  truthy_string (trim emailInput) = true →
  truthy_string password = true →
  body response = Some result →
  ok response = true →
  truthy_opt_string (or_else (lr_token result) (lr_data_token result)) = true →
  lr_user_name result = None →
  lr_data_user_name result = None →
  ∃ name : string,
    storage (exec (handleLogin emailInput password remember (Answer response)) w)
      !! "user" = Some (VUser (mkUser name (trim emailInput)))
    ∧ ("@"%char ∉ list_ascii_of_string name)
    ∧ (trim emailInput = name ∨ ∃ rest, trim emailInput = name +:+ String "@" rest).
Proof.
  intros Hemail Hpassword Hbody Hok Htoken Hname Hdname.
  destruct (split_head "@" (trim emailInput)) as (name & Hhd & Hnotin & Hshape).
  exists name. split; [| done].
  rewrite (handleLogin_success _ _ _ _ _ _ Hemail Hpassword Hbody Hok Htoken).
  rewrite lookup_insert_eq, Hname, Hdname, Hhd. done.
Qed.

Lemma C8_login_name_defaults_to_mailbox_witness :
  ∃ name : string,
    storage (exec (handleLogin " a@b.com" "x" true (Answer loginAnswerT1)) (initWorld ∅))
      !! "user" = Some (VUser (mkUser name "a@b.com"))
    ∧ ("@"%char ∉ list_ascii_of_string name)
    ∧ ("a@b.com" = name ∨ ∃ rest, "a@b.com" = name +:+ String "@" rest).
Proof.
  apply (C8_login_name_defaults_to_mailbox " a@b.com" "x" true loginAnswerT1
           (mkLoginResult (Some "T1") None None None None) (initWorld ∅));
    reflexivity.
Defined.

(** C9.  A login that the server accepts while the remember-me box is not
    ticked removes the key [savedCreds] from the store, whatever was saved
    under it before. *)
Theorem C9_login_without_remember_removes_savedCreds
    emailInput password response result w :
  truthy_string (trim emailInput) = true →
  truthy_string password = true →
  body response = Some result →
  ok response = true →
  truthy_opt_string (or_else (lr_token result) (lr_data_token result)) = true →
  storage (exec (handleLogin emailInput password false (Answer response)) w)
    !! "savedCreds" = None.
Proof.
  intros Hemail Hpassword Hbody Hok Htoken.
  rewrite (handleLogin_success _ _ _ _ _ _ Hemail Hpassword Hbody Hok Htoken).
  rewrite !lookup_insert_ne by done. apply lookup_delete_eq.
Qed.

Lemma C9_login_without_remember_removes_savedCreds_witness :
  storage (exec (handleLogin "a@b.com" "x" false (Answer loginAnswerT1))
             (initWorld {[ "savedCreds" := VCreds (mkCreds "old@b.com" "secret") ]}))
    !! "savedCreds" = None.
Proof.
  apply (C9_login_without_remember_removes_savedCreds "a@b.com" "x" loginAnswerT1
           (mkLoginResult (Some "T1") None None None None)); reflexivity.
Defined.

(** The same login with the box ticked stores the credentials that were
    entered. *)
Lemma login_with_remember_stores_savedCreds
    emailInput password response result w :
  truthy_string (trim emailInput) = true →
  truthy_string password = true →
  body response = Some result →
  ok response = true →
  truthy_opt_string (or_else (lr_token result) (lr_data_token result)) = true →
  storage (exec (handleLogin emailInput password true (Answer response)) w)
    !! "savedCreds" = Some (VCreds (mkCreds (trim emailInput) password)).
Proof.
  intros Hemail Hpassword Hbody Hok Htoken.
  rewrite (handleLogin_success _ _ _ _ _ _ Hemail Hpassword Hbody Hok Htoken).
  rewrite !lookup_insert_ne by done. apply lookup_insert_eq.
Qed.

(** *** The two rules that refuse a punch *)

(** [Math.ceil]: the least whole number of minutes that covers [a]
    milliseconds. *)
Lemma Math_ceil_div_spec a b :
  (0 < b)%Z →
  (b * (Math_ceil_div a b - 1) < a ≤ b * Math_ceil_div a b)%Z.
Proof.
  intros Hb. unfold Math_ceil_div.
  pose proof (Z.div_mod (- a) b ltac:(lia)) as Hdm.
  pose proof (Z.mod_pos_bound (- a) b Hb) as Hbound.
  nia.
Qed.

Section Punch.
Context `{Host}.

Lemma handlePunch_offline v now resp stat hist w :
  handlePunch v false now resp stat hist w
  = (Done tt, with_toast "Offline: Check connection" w).
Proof. reflexivity. Qed.

Lemma handlePunch_min_stay v now resp stat hist w p :
  hasToken w = true →
  storage w !! "punchInTime" = Some (VNum p) →
  p ≠ 0%Z →
  (now - p < PUNCH_DELAY_MS)%Z →
  handlePunch v true now resp stat hist w
  = (Done tt, with_toast (minStayMessage now p) w).
Proof.
  unfold hasToken. intros Htok Hp Hp0 Hlt.
  unfold handlePunch, mbind, M_bind, storage_get, gets. simpl.
  rewrite Hp, Htok. simpl.
  assert (truthy_num p = true) as ->.
  { unfold truthy_num. by apply negb_true_iff, Z.eqb_neq. }
  simpl. unfold mret, M_ret. simpl.
  apply Z.ltb_lt in Hlt. rewrite Hlt. reflexivity.
Qed.

Lemma handlePunch_shift_done v now resp stat hist w h :
  hasToken w = true →
  punchedInLocally w = false →
  storage w !! "history" = Some (VHistory h) →
  hasPunchedOutToday now h = true →
  handlePunch v true now resp stat hist w
  = (Done tt, with_toast "Already completed today’s attendance" w).
Proof.
  unfold hasToken, punchedInLocally. intros Htok Hp Hh Hout.
  unfold handlePunch, mbind, M_bind, storage_get, gets, mret, M_ret. simpl.
  rewrite Htok, Hp. simpl. rewrite Hh. simpl. rewrite Hout. reflexivity.
Qed.

End Punch.

(** C3, as amended.  While the browser is online and a session token is
    stored, a punch attempt made with a local punch-in time [p] stored and
    fewer than 7,200,000 ms gone by since [p] is refused on the spot: no
    request goes out, the store is left as it was, and the toast reports
    [r] minutes left, [r] being the least whole number of minutes that
    covers the [7200000 - (now - p)] ms still to wait. *)
Theorem C3_min_stay_refused_online `{Host} v now resp stat hist w p :
  hasToken w = true →
  punchedInLocally w = true →
  storage w !! "punchInTime" = Some (VNum p) →
  (now - p < 7200000)%Z →
  let w' := exec (handlePunch v true now resp stat hist) w in
  requests w' = requests w
  ∧ storage w' = storage w
  ∧ ∃ r : Z,
      toasts w' = ("Min. stay required: " +:+ String_of r +:+ " mins left") :: toasts w
      ∧ (60000 * (r - 1) < 7200000 - (now - p) ≤ 60000 * r)%Z.
Proof.
  intros Htok Hin Hp Hlt w'. subst w'. unfold exec.
  assert (p ≠ 0%Z) as Hp0.
  { unfold punchedInLocally in Hin. rewrite Hp in Hin. simpl in Hin.
    unfold truthy_num in Hin. apply negb_true_iff, Z.eqb_neq in Hin. done. }
  rewrite (handlePunch_min_stay v now resp stat hist w p Htok Hp Hp0 Hlt). simpl.
  split; [done |]. split; [done |].
  exists (remaining now p). split; [done |].
  apply (Math_ceil_div_spec (PUNCH_DELAY_MS - (now - p)) 60000). lia.
Qed.

Lemma C3_min_stay_refused_online_witness :
  let w := initWorld punchedInStore in
  let w' := exec (handlePunch (H := utcHost) PopupJs true 61000
                    noPunchAnswer noStatusAnswer noHistoryAnswer) w in
  requests w' = requests w
  ∧ storage w' = storage w
  ∧ ∃ r : Z,
      toasts w' = ("Min. stay required: " +:+ String_of r +:+ " mins left") :: toasts w
      ∧ (60000 * (r - 1) < 7200000 - (61000 - 1000) ≤ 60000 * r)%Z.
Proof.
  apply (C3_min_stay_refused_online (H := utcHost) PopupJs 61000
           noPunchAnswer noStatusAnswer noHistoryAnswer
           (initWorld punchedInStore) 1000); [reflexivity .. | lia].
Defined.

(** C3 as it was stated fails when the browser is offline: with a punch-in
    time stored and one second gone by, the attempt is refused with the
    toast of the offline check, which is not the toast that reports the
    minutes left. *)
Lemma C3_counterexample_offline :
  let w := initWorld punchedInStore in
  let w' := exec (handlePunch (H := utcHost) PopupJs false 2000
                    noPunchAnswer noStatusAnswer noHistoryAnswer) w in
  punchedInLocally w = true
  ∧ storage w !! "punchInTime" = Some (VNum 1000)
  ∧ (2000 - 1000 < 7200000)%Z
  ∧ toasts w' = ["Offline: Check connection"]
  ∧ toasts w' ≠ [minStayMessage 2000 1000]
  ∧ minStayMessage 2000 1000 = "Min. stay required: 120 mins left".
Proof.
  cbv zeta. repeat split; try reflexivity; try lia.
  intros Heq. vm_compute in Heq. discriminate Heq.
Qed.

(** *** The store *)

(** Properties of the store alone are kept by what does not write it. *)
Section StoreOnly.
Context (P : World → Prop).
Context (P_store : ∀ w w', storage w' = storage w → P w → P w').

Ltac store_only :=
  preserves_with ltac:(fail) ltac:(intros [] ?; eapply P_store; [| eassumption]; done).

Lemma store_only_showToast msg : preserves P (showToast msg).
Proof. unfold showToast. store_only. Qed.

Lemma store_only_transitionToView vw : preserves P (transitionToView vw).
Proof. unfold transitionToView. store_only. Qed.

Lemma store_only_setupDashboard u : preserves P (setupDashboard u).
Proof. unfold setupDashboard, transitionToView. store_only. Qed.

Lemma store_only_updatePunchUI b : preserves P (updatePunchUI b).
Proof. unfold updatePunchUI. store_only. Qed.

Lemma store_only_renderHistory h : preserves P (renderHistory h).
Proof. unfold renderHistory. store_only. Qed.

Lemma store_only_userName n : preserves P (modify (with_userName n)).
Proof. store_only. Qed.

Lemma store_only_request rq : preserves P (modify (with_request rq)).
Proof. store_only. Qed.

Lemma store_only_fetch {R} rq (resp : Fetched R) : preserves P (fetch rq resp).
Proof. unfold fetch. store_only. Qed.

Lemma store_only_json {R} (r : HttpResponse R) : preserves P (json r).
Proof. unfold json. store_only. Qed.

Lemma store_only_startTimer now startTime : preserves P (startTimer now startTime).
Proof.
  unfold startTimer, clearInterval, update, setInterval, set_timerInterval.
  repeat first
    [ preserves_step
    | lazymatch goal with
      | |- preserves _ (modify _) =>
          apply preserves_modify; intros [] ?; eapply P_store; [| eassumption];
          by repeat case_match
      end
    | intros [] ?; eapply P_store; [| eassumption]; done ].
Qed.

Lemma store_only_stopTimer : preserves P stopTimer.
Proof.
  unfold stopTimer, clearInterval, set_timerInterval.
  repeat first
    [ preserves_step
    | lazymatch goal with
      | |- preserves _ (modify _) =>
          apply preserves_modify; intros [] ?; eapply P_store; [| eassumption];
          by repeat case_match
      end ].
Qed.

End StoreOnly.

(** [handleLogout] returns; it sends the request to /logout when a token
    is stored, empties the store as [logout_store] says, stops the timer and
    shows the login view. *)
Lemma handleLogout_spec v preservePunch w :
  ∃ w', handleLogout v preservePunch w = (Done tt, w')
    ∧ storage w' = logout_store v preservePunch (storage w)
    ∧ view w' = LoginView
    ∧ toasts w' = "Logged out successfully" :: toasts w
    ∧ requests w' =
        (if hasToken w
         then mkRequest "/logout" "POST" (bearer (storage w !! "token")) NoBody
              :: requests w
         else requests w)
    ∧ timerInterval w' = None.
Proof.
  destruct w as [st ti iv nh vw ts rq un so td hl tk].
  unfold handleLogout, hasToken, mbind, M_bind, storage_get, gets. simpl.
  destruct (truthy (st !! "token")); simpl;
    destruct v; [| destruct preservePunch | | | destruct preservePunch |];
    destruct ti as [[|h]|]; simpl; eexists; repeat split.
Qed.

(** The functions that leave the store alone keep a property of the
    store. *)
Ltac store_only_known P_store :=
  first [ apply store_only_showToast | apply store_only_transitionToView
        | apply store_only_setupDashboard | apply store_only_updatePunchUI
        | apply store_only_renderHistory | apply store_only_userName
        | apply store_only_request
        | apply store_only_fetch | apply store_only_json
        | apply store_only_startTimer | apply store_only_stopTimer ];
  apply P_store.

(** *** The single shift per day *)

Section ShiftDone.
Context `{Host}.

Lemma hasPunchedOutToday_spec now h :
  hasPunchedOutToday now h = true ↔ outToday now h.
Proof.
  unfold hasPunchedOutToday, outToday. rewrite existsb_exists. split.
  - intros (item & Hin & Hitem). apply andb_true_iff in Hitem as [Htype Hdate].
    exists item. rewrite list_elem_of_In.
    by apply String.eqb_eq in Htype, Hdate.
  - intros (item & Hin & Htype & Hdate). exists item.
    rewrite <- list_elem_of_In. split; [done |].
    apply andb_true_iff. by rewrite Htype, Hdate, !String.eqb_refl.
Qed.

Lemma handlePunch_no_token v now resp stat hist w :
  hasToken w = false →
  handlePunch v true now resp stat hist w = handleLogout v true w.
Proof.
  unfold hasToken. intros Htok.
  unfold handlePunch, mbind at 1 2, M_bind at 1 2, storage_get, gets. simpl.
  by rewrite Htok.
Qed.

(** C4, as amended.  While a session token is stored, with no local
    punch-in time stored and an entry of type [out] in the stored history
    whose timestamp falls on today's date, a punch attempt is turned down
    where it is made, online or not: no request goes out, the store is left
    as it was, a toast is shown; online the toast is the one of the completed
    shift. *)
Theorem C4_second_shift_refused v online now resp stat hist w h :
  hasToken w = true →
  punchedInLocally w = false →
  storage w !! "history" = Some (VHistory h) →
  outToday now h →
  let w' := exec (handlePunch v online now resp stat hist) w in
  refusedOnTheSpot w w'
  ∧ (online = true →
     toasts w' = "Already completed today’s attendance" :: toasts w).
Proof.
  intros Htok Hnot Hh Hout w'. subst w'.
  apply hasPunchedOutToday_spec in Hout. unfold exec, refusedOnTheSpot.
  destruct online.
  - rewrite (handlePunch_shift_done v now resp stat hist w h Htok Hnot Hh Hout).
    simpl. eauto 10.
  - rewrite handlePunch_offline. simpl. split; [eauto 10 | discriminate].
Qed.

End ShiftDone.

Lemma C4_second_shift_refused_witness :
  let w := initWorld shiftDoneStore in
  let w' := exec (handlePunch (H := utcHost) PopupJs true 2000
                    noPunchAnswer noStatusAnswer noHistoryAnswer) w in
  refusedOnTheSpot w w'
  ∧ (true = true →
     toasts w' = "Already completed today’s attendance" :: toasts w).
Proof.
  apply (C4_second_shift_refused (H := utcHost) PopupJs true 2000
           noPunchAnswer noStatusAnswer noHistoryAnswer (initWorld shiftDoneStore)
           [mkEntry "in" 500; mkEntry "out" 1000]).
  - reflexivity.
  - reflexivity.
  - reflexivity.
  - exists (mkEntry "out" 1000). split; [| split; reflexivity].
    apply list_elem_of_further, list_elem_of_here.
Defined.

(** C4 as it was stated fails when no token is stored.  In [Part001], with
    no punch-in time stored and an [out] entry of today in the stored
    history, the click runs [handleLogout]: the store is cleared, the history
    with it, the login view is shown and the toast is the one of the
    logout. *)
Lemma C4_counterexample_no_token :
  let w := initWorld historyOnlyStore in
  let w' := exec (handlePunch (H := utcHost) Part001 true 2000
                    noPunchAnswer noStatusAnswer noHistoryAnswer) w in
  hasToken w = false
  ∧ punchedInLocally w = false
  ∧ storage w !! "history" = Some (VHistory [mkEntry "in" 500; mkEntry "out" 1000])
  ∧ outToday (H := utcHost) 2000 [mkEntry "in" 500; mkEntry "out" 1000]
  ∧ storage w' !! "history" = None
  ∧ storage w' = ∅
  ∧ view w' = LoginView
  ∧ toasts w' = ["Logged out successfully"].
Proof.
  cbv zeta. repeat split; try reflexivity.
  exists (mkEntry "out" 1000). split; [| split; reflexivity].
  apply list_elem_of_further, list_elem_of_here.
Qed.

(** *** Session expiry (HTTP 401) *)

(** On 401 [apiFetch] throws after [handleLogout] has run. *)
Lemma apiFetch_401 {R} v endpoint method form (r : HttpResponse R) w :
  hasToken w = true →
  status r = 401%Z →
  ∃ msg w', apiFetch v endpoint method form (Answer r) w = (Thrown msg, w')
    ∧ storage w' = logout_store v true (storage w)
    ∧ view w' = LoginView.
Proof.
  unfold hasToken. intros Htok H401.
  unfold apiFetch, mbind, M_bind, storage_get, gets. simpl. rewrite Htok. simpl.
  destruct v; unfold try_catch, fetch, mbind, M_bind, modify; simpl;
    rewrite H401; simpl;
    match goal with
    | |- context [handleLogout ?v ?b ?w1] =>
        destruct (handleLogout_spec v b w1) as (w' & Heq & Hst & Hview & _);
        rewrite Heq; simpl; by eauto
    end.
Qed.

(** [Part000] keeps the punch-in time through the forced logout, and the
    session is gone. *)
Lemma part000_401_keeps_punchInTime {R} endpoint method form (r : HttpResponse R) w :
  hasToken w = true →
  status r = 401%Z →
  let w' := exec (apiFetch Part000 endpoint method form (Answer r)) w in
  storage w' !! "punchInTime" = storage w !! "punchInTime"
  ∧ storage w' !! "token" = None
  ∧ storage w' !! "user" = None
  ∧ view w' = LoginView.
Proof.
  intros Htok H401 w'. subst w'. unfold exec.
  destruct (apiFetch_401 Part000 endpoint method form r w Htok H401)
    as (msg & w' & -> & Hst & Hview).
  simpl. rewrite Hst. simpl.
  rewrite !lookup_delete_ne by done. rewrite lookup_delete_eq.
  rewrite (lookup_delete_ne _ "token" "user") by done. by rewrite lookup_delete_eq.
Qed.

(** [handleLogin] never writes the punch-in time, so what survived the
    forced logout is there after the next login. *)
Lemma handleLogin_keeps_punchInTime emailInput password remember resp w :
  storage (exec (handleLogin emailInput password remember resp) w) !! "punchInTime"
  = storage w !! "punchInTime".
Proof.
  destruct (truthy_string (trim emailInput)) eqn:Hemail;
    [destruct (truthy_string password) eqn:Hpassword |].
  2, 3: unfold handleLogin, exec; rewrite Hemail, ?Hpassword; reflexivity.
  destruct resp as [msg|response].
  { unfold handleLogin, exec. rewrite Hemail, Hpassword. reflexivity. }
  destruct (body response) as [result|] eqn:Hbody.
  2: { unfold handleLogin, exec. rewrite Hemail, Hpassword. simpl.
       unfold try_catch, fetch, json, mbind, M_bind, modify. simpl.
       rewrite Hbody. reflexivity. }
  destruct (ok response) eqn:Hok;
    [destruct (truthy_opt_string (or_else (lr_token result) (lr_data_token result)))
       eqn:Htoken |].
  - rewrite (handleLogin_success _ _ _ _ _ _ Hemail Hpassword Hbody Hok Htoken).
    rewrite !lookup_insert_ne by done.
    destruct remember; [by rewrite lookup_insert_ne | by rewrite lookup_delete_ne].
  - unfold handleLogin, exec. rewrite Hemail, Hpassword. simpl.
    unfold try_catch, fetch, json, mbind, M_bind, modify. simpl.
    rewrite Hbody. simpl. rewrite Hok, Htoken. reflexivity.
  - unfold handleLogin, exec. rewrite Hemail, Hpassword. simpl.
    unfold try_catch, fetch, json, mbind, M_bind, modify. simpl.
    rewrite Hbody. simpl. rewrite Hok. reflexivity.
Qed.

(** [PopupJs] and [Part001] lose the punch-in time on the same path. *)
Lemma popup_401_removes_punchInTime {R} v endpoint method form (r : HttpResponse R) w :
  v ≠ Part000 →
  hasToken w = true →
  status r = 401%Z →
  storage (exec (apiFetch v endpoint method form (Answer r)) w) !! "punchInTime" = None.
Proof.
  intros Hv Htok H401. unfold exec.
  destruct (apiFetch_401 v endpoint method form r w Htok H401)
    as (msg & w' & -> & Hst & Hview).
  simpl. rewrite Hst. destruct v; [| done |]; simpl.
  - rewrite !lookup_delete_ne by done. apply lookup_delete_eq.
  - apply lookup_empty.
Qed.

(** C2, what [src/popup.js] does.  The status request of a user who is
    punched in is answered 401: the session is cleared and the login view
    shown, and the stored punch-in time is removed with it; after the next
    login nothing is left of it.  On the same input [Part000] keeps it, and
    it is there after the next login. *)
Theorem C2_popup_401_wipes_punchInTime :
  let w := initWorld sessionStore in
  let expired := exec (fetchStatus (H := utcHost) PopupJs 5000 sessionExpired) w in
  let again := exec (handleLogin "a@b.com" "x" false (Answer loginAnswerT1)) expired in
  storage w !! "punchInTime" = Some (VNum 1000)
  ∧ storage expired !! "token" = None
  ∧ storage expired !! "user" = None
  ∧ view expired = LoginView
  ∧ storage expired !! "punchInTime" = None
  ∧ storage again !! "punchInTime" = None
  ∧ storage (exec (fetchStatus (H := utcHost) Part000 5000 sessionExpired) w)
      !! "punchInTime" = Some (VNum 1000)
  ∧ storage (exec (handleLogin "a@b.com" "x" false (Answer loginAnswerT1))
               (exec (fetchStatus (H := utcHost) Part000 5000 sessionExpired) w))
      !! "punchInTime" = Some (VNum 1000).
Proof. cbv zeta. repeat split; vm_compute; reflexivity. Qed.

(** *** Status synchronisation and the local punch-in time *)

Lemma punchInTimeIs_store x w w' :
  storage w' = storage w → punchInTimeIs x w → punchInTimeIs x w'.
Proof. unfold punchInTimeIs. by intros ->. Qed.

Lemma storage_set_punchInTimeIs x k y :
  k ≠ "punchInTime" → preserves (punchInTimeIs x) (storage_set k y).
Proof. intros Hk w. unfold punchInTimeIs. simpl. by rewrite lookup_insert_ne. Qed.

(** What a handler reads under [punchInTime] is what is stored there. *)
Lemma preserves_get_punchInTime {A} x (f : option Value → M A) :
  preserves (punchInTimeIs x) (f x) →
  preserves (punchInTimeIs x) (storage_get "punchInTime" ≫= f).
Proof.
  intros Hf w Hw. unfold mbind, M_bind, storage_get, gets. simpl.
  rewrite Hw. by apply Hf.
Qed.

Lemma handleLogout_part000_keeps x :
  preserves (punchInTimeIs x) (handleLogout Part000 true).
Proof.
  intros w Hw. destruct (handleLogout_spec Part000 true w) as (w' & -> & Hst & _).
  unfold punchInTimeIs in *. simpl. rewrite Hst. simpl.
  by rewrite !lookup_delete_ne.
Qed.

Ltac punchInTimeIs_auto known :=
  preserves_with
    ltac:(first [ store_only_known punchInTimeIs_store
                | apply storage_set_punchInTimeIs; done
                | apply handleLogout_part000_keeps
                | known ])
    ltac:(fail).

Lemma apiFetch_part000_keeps {R} x endpoint method form (resp : Fetched R) :
  preserves (punchInTimeIs x) (apiFetch Part000 endpoint method form resp).
Proof. unfold apiFetch. punchInTimeIs_auto fail. Qed.

Section Part000KeepsPunch.
Context `{Host}.

Lemma fetchMe_part000_keeps x resp :
  preserves (punchInTimeIs x) (fetchMe Part000 resp).
Proof. unfold fetchMe. punchInTimeIs_auto ltac:(apply apiFetch_part000_keeps). Qed.

Lemma fetchHistory_part000_keeps x resp :
  preserves (punchInTimeIs x) (fetchHistory Part000 resp).
Proof. unfold fetchHistory. punchInTimeIs_auto ltac:(apply apiFetch_part000_keeps). Qed.

(** The status synchronisation of [Part000] never touches a punch-in time
    that is stored, whatever the server answers. *)
Lemma fetchStatus_part000_keeps x now resp :
  truthy x = true →
  preserves (punchInTimeIs x) (fetchStatus_part000 now resp).
Proof.
  intros Hx. unfold fetchStatus_part000.
  apply preserves_try_catch; [| intros e; apply preserves_ret].
  apply preserves_bind; [apply apiFetch_part000_keeps |]. intros response.
  apply preserves_bind; [store_only_known punchInTimeIs_store |]. intros result.
  destruct (ok response); [| apply preserves_ret].
  apply preserves_get_punchInTime. rewrite Hx. simpl.
  destruct (sr_isPunchedIn result).
  - unfold mbind at 1 2, M_bind at 1 2, mret at 1 2, M_ret at 1 2. rewrite Hx. simpl.
    match goal with |- preserves ?P (λ w, ?m w) => change (preserves P m) end.
    punchInTimeIs_auto fail.
  - punchInTimeIs_auto fail.
Qed.

Lemma restoreLocalState_keeps x now : preserves (punchInTimeIs x) (restoreLocalState now).
Proof. unfold restoreLocalState. punchInTimeIs_auto fail. Qed.

Lemma init_part000_keeps x now me stat hist :
  truthy x = true →
  preserves (punchInTimeIs x) (init Part000 now me stat hist).
Proof.
  intros Hx. unfold init, syncState.
  punchInTimeIs_auto
    ltac:(first [ apply restoreLocalState_keeps | apply fetchMe_part000_keeps
                | apply fetchHistory_part000_keeps
                | by apply fetchStatus_part000_keeps ]).
Qed.

End Part000KeepsPunch.

(** What [apiFetch] returns is the answer it was given. *)
Lemma apiFetch_returns {R} v endpoint method form (resp : Fetched R) w r w' :
  apiFetch v endpoint method form resp w = (Done r, w') → resp = Answer r.
Proof.
  unfold apiFetch, mbind, M_bind, storage_get, gets. simpl.
  destruct (truthy (storage w !! "token")); simpl.
  - destruct v; unfold try_catch, fetch, mbind, M_bind, modify; simpl;
      destruct resp as [msg|r0]; simpl; try discriminate;
      destruct (status r0 =? 401)%Z; simpl;
      try (intros [= -> _]; done);
      match goal with
      | |- context [handleLogout ?v ?b ?w1] =>
          destruct (handleLogout_spec v b w1) as (w2 & Heq & _);
          rewrite Heq; simpl; discriminate
      end.
  - destruct (handleLogout_spec v true w) as (w2 & -> & _). simpl. discriminate.
Qed.

Section Part000KeepsPunchInRuns.
Context `{Host}.

Lemma punchRequest_part000_keeps x type now resp stat hist :
  punchSucceeds resp = false →
  preserves (punchInTimeIs x) (punchRequest Part000 type now resp stat hist).
Proof.
  intros Hfail w Hw. unfold punchRequest, try_catch, mbind, M_bind.
  pose proof (apiFetch_part000_keeps x "/punch/action" "POST"
                (PunchForm type (Math_floor_div now 1000)) resp w Hw) as Hw1.
  destruct (apiFetch Part000 _ _ _ resp w) as [[r|e] w1] eqn:Hap; simpl in Hw1.
  - apply apiFetch_returns in Hap. subst resp. simpl in Hfail.
    unfold punch_answer_verbose. destruct (body r) as [result|].
    + rewrite Hfail. exact Hw1.
    + exact Hw1.
  - exact Hw1.
Qed.

Lemma handlePunch_part000_keeps x online now resp stat hist :
  truthy x = true →
  punchSucceeds resp = false →
  preserves (punchInTimeIs x) (handlePunch Part000 online now resp stat hist).
Proof.
  intros Hx Hfail. unfold handlePunch.
  destruct online; simpl; [| store_only_known punchInTimeIs_store].
  apply preserves_get_punchInTime. rewrite Hx. simpl.
  punchInTimeIs_auto ltac:(by apply punchRequest_part000_keeps).
Qed.

Lemma step_part000_keeps x e w :
  truthy x = true → keepsPunch e →
  punchInTimeIs x w → punchInTimeIs x (step Part000 e w).
Proof.
  intros Hx He Hw. destruct e; simpl in *; unfold exec.
  - by apply init_part000_keeps.
  - unfold punchInTimeIs in *.
    by rewrite <- Hw, <- (handleLogin_keeps_punchInTime email password remember resp w).
  - done.
  - by apply handlePunch_part000_keeps.
  - apply (punchInTimeIs_store x w); [| done]. by destruct (tick_spec now w).
Qed.

(** In [Part000] a punch-in time that is stored stays as it is through any
    run of the popup made of starts, status synchronisations with any
    answer, logins and punches the server does not accept. *)
Lemma run_part000_keeps x es w :
  truthy x = true → Forall keepsPunch es →
  punchInTimeIs x w → punchInTimeIs x (run Part000 es w).
Proof.
  intros Hx Hes. revert w. induction Hes as [|e es He Hes IH]; intros w Hw; simpl.
  - done.
  - apply IH. by apply step_part000_keeps.
Qed.

(** In [PopupJs] and [Part001] a status that says "not punched in" removes
    the stored punch-in time. *)
Lemma sync_not_punched_in_removes v now r result w :
  v ≠ Part000 →
  hasToken w = true →
  status r ≠ 401%Z →
  ok r = true →
  body r = Some result →
  sr_isPunchedIn result = false →
  storage (exec (fetchStatus v now (Answer r)) w) !! "punchInTime" = None.
Proof.
  unfold hasToken. intros Hv Htok H401 Hok Hbody Hout.
  apply Z.eqb_neq in H401.
  destruct v; [| done |]; unfold exec; simpl.
  - unfold fetchStatus_popup, try_catch, apiFetch, mbind, M_bind, storage_get, gets.
    simpl. rewrite Htok. simpl. unfold try_catch, fetch, mbind, M_bind, modify. simpl.
    rewrite H401. simpl. unfold json. rewrite Hbody. simpl. rewrite Hok, Hout.
    unfold storage_remove, modify. simpl.
    match goal with
    | |- context [stopTimer ?w1] =>
        pose proof (store_only_stopTimer (punchInTimeIs None) (punchInTimeIs_store None) w1)
          as Hstop; destruct (stopTimer w1) as [[[]|e] w2]
    end; simpl in *; apply Hstop, lookup_delete_eq.
  - unfold fetchStatus_part001, try_catch, apiFetch, mbind, M_bind, storage_get, gets.
    simpl. rewrite Htok. simpl. unfold fetch, mbind, M_bind, modify. simpl.
    rewrite H401. simpl. unfold json. rewrite Hbody. simpl. rewrite Hok, Hout.
    unfold storage_remove, modify. simpl.
    match goal with
    | |- context [stopTimer ?w1] =>
        pose proof (store_only_stopTimer (punchInTimeIs None) (punchInTimeIs_store None) w1)
          as Hstop; destruct (stopTimer w1) as [[[]|e] w2]
    end; simpl in *; apply Hstop, lookup_delete_eq.
Qed.

End Part000KeepsPunchInRuns.

(** C1, what [src/popup.js] does.  A user is punched in at [1000]; the
    status request is answered "not punched in": [fetchStatus] removes the
    stored punch-in time.  [Part001] does the same; on the same input
    [Part000] leaves it as it is. *)
Theorem C1_popup_sync_removes_punchInTime :
  let w := initWorld sessionStore in
  punchedInLocally w = true
  ∧ storage (exec (fetchStatus (H := utcHost) PopupJs 5000 statusAnswerOut) w)
      !! "punchInTime" = None
  ∧ storage (exec (fetchStatus (H := utcHost) Part001 5000 statusAnswerOut) w)
      !! "punchInTime" = None
  ∧ storage (exec (fetchStatus (H := utcHost) Part000 5000 statusAnswerOut) w)
      !! "punchInTime" = Some (VNum 1000).
Proof. cbv zeta. repeat split; vm_compute; reflexivity. Qed.

(** *** The local history *)

Lemma slice_last_length {A} n (l : list A) :
  length (slice_last n l) = Nat.min n (length l).
Proof. unfold slice_last. rewrite length_drop. lia. Qed.

(** [slice_last n l] is the end of [l]. *)
Lemma slice_last_suffix {A} n (l : list A) :
  ∃ older, l = (older ++ slice_last n l)%list.
Proof.
  exists (take (length l - n) l). unfold slice_last. by rewrite take_drop.
Qed.

(** What [renderHistory] shows: at most five entries, the last of the
    history first. *)
Lemma renderHistory_spec h w :
  historyList (exec (renderHistory h) w) = reverse (slice_last 5 h).
Proof. by destruct h. Qed.

Lemma renderHistory_storage h w : storage (snd (renderHistory h w)) = storage w.
Proof. by destruct h. Qed.

Lemma rendered_newest_first h w i :
  (i < Nat.min 5 (length h))%nat →
  historyList (exec (renderHistory h) w) !! i = h !! (length h - 1 - i)%nat.
Proof.
  intros Hi. rewrite renderHistory_spec.
  assert (length (slice_last 5 h) = Nat.min 5 (length h)) as Hlen
    by apply slice_last_length.
  rewrite reverse_lookup by lia. unfold slice_last in *.
  rewrite lookup_drop. f_equal. rewrite length_drop. lia.
Qed.

(** [logActivity] stores the last twenty entries of the history with the
    new entry appended, and renders them. *)
Lemma logActivity_spec now type w :
  let w' := exec (logActivity now type) w in
  let history := (stored_history (storage w !! "history") ++ [mkEntry type now])%list in
  storage w' !! "history" = Some (VHistory (slice_last 20 history))
  ∧ (length (slice_last 20 history) ≤ 20)%nat
  ∧ (∃ older, history = (older ++ slice_last 20 history)%list)
  ∧ historyList w' = reverse (slice_last 5 (slice_last 20 history)).
Proof.
  cbv zeta. split; [| split; [| split]].
  - unfold logActivity, exec, mbind, M_bind, storage_get, gets, storage_set, modify.
    simpl. rewrite renderHistory_storage. apply lookup_insert_eq.
  - rewrite slice_last_length. lia.
  - apply slice_last_suffix.
  - unfold logActivity, exec, mbind, M_bind, storage_get, gets, storage_set, modify.
    simpl. apply renderHistory_spec.
Qed.

(** [fetchHistory] stores the list of the server as it comes. *)
Lemma fetchHistory_stores v r h w :
  hasToken w = true →
  status r ≠ 401%Z →
  ok r = true →
  body r = Some (mkHistoryResult (Some h)) →
  let w' := exec (fetchHistory v (Answer r)) w in
  storage w' !! "history" = Some (VHistory h)
  ∧ historyList w' = reverse (slice_last 5 h).
Proof.
  unfold hasToken. intros Htok H401 Hok Hbody. apply Z.eqb_neq in H401.
  unfold exec, fetchHistory, try_catch, apiFetch, mbind, M_bind, storage_get, gets.
  simpl. rewrite Htok. simpl.
  destruct v; unfold try_catch, fetch, mbind, M_bind, modify; simpl;
    rewrite H401; simpl; unfold json; rewrite Hbody; simpl; rewrite Hok;
    unfold storage_set, modify, mbind, M_bind; simpl;
    (split; [destruct h; apply lookup_insert_eq | by destruct h]).
Qed.

(** C6, where the code departs from it.  The server answers the history
    request with twenty-one entries: [fetchHistory] stores all twenty-one,
    and shows the last five, newest first.  On the same store [logActivity]
    keeps twenty. *)
Theorem C6_fetchHistory_stores_more_than_twenty :
  let w := initWorld sessionStore in
  let w' := exec (fetchHistory PopupJs
                    (Answer (mkResponse 200 "OK"
                               (Some (mkHistoryResult (Some longHistory)))))) w in
  storage w' !! "history" = Some (VHistory longHistory)
  ∧ length longHistory = 21%nat
  ∧ entry_timestamp <$> historyList w' = [21000; 20000; 19000; 18000; 17000]%Z
  ∧ (length (stored_history (storage (exec (logActivity 22000 "in") w') !! "history"))
     = 20)%nat.
Proof. cbv zeta. repeat split; vm_compute; reflexivity. Qed.

(** *** The direction of a punch *)

Section RequestLog.
Context (w0 : World) (type : string) (ts : Z) (tok : option string).

Local Abbreviation punchFormOnly := (punchFormOnly type ts).
Local Abbreviation punchLogged := (punchLogged w0 type ts tok).

Lemma punchLogged_requests w w' :
  requests w' = requests w → punchLogged w → punchLogged w'.
Proof. unfold punchLogged. by intros ->. Qed.

Lemma punchLogged_request rq :
  punchFormOnly rq → preserves punchLogged (modify (with_request rq)).
Proof.
  intros Hrq w (new & Hnew & Hall & Hin). exists (rq :: new). simpl.
  rewrite Hnew. split; [done |]. split; [by constructor | by constructor].
Qed.

Ltac log_leaf :=
  intros [] ?; eapply punchLogged_requests; [| eassumption]; by repeat case_match.

Ltac log_only := preserves_with ltac:(fail) log_leaf.

Lemma log_showToast msg : preserves punchLogged (showToast msg).
Proof. unfold showToast. log_only. Qed.

Lemma log_transitionToView vw : preserves punchLogged (transitionToView vw).
Proof. unfold transitionToView. log_only. Qed.

Lemma log_updatePunchUI b : preserves punchLogged (updatePunchUI b).
Proof. unfold updatePunchUI. log_only. Qed.

Lemma log_renderHistory h : preserves punchLogged (renderHistory h).
Proof. unfold renderHistory. log_only. Qed.

Lemma log_userName n : preserves punchLogged (modify (with_userName n)).
Proof. log_only. Qed.

Lemma log_json {R} (r : HttpResponse R) : preserves punchLogged (json r).
Proof. unfold json. log_only. Qed.

Lemma log_storage_set k x : preserves punchLogged (storage_set k x).
Proof. unfold storage_set. log_only. Qed.

Lemma log_storage_remove ks : preserves punchLogged (storage_remove ks).
Proof. unfold storage_remove. log_only. Qed.

Lemma log_storage_clear : preserves punchLogged storage_clear.
Proof. unfold storage_clear. log_only. Qed.

Lemma log_startTimer now startTime : preserves punchLogged (startTimer now startTime).
Proof.
  unfold startTimer, clearInterval, update, setInterval, set_timerInterval.
  repeat first [ preserves_step
               | lazymatch goal with
                 | |- preserves _ (modify _) => apply preserves_modify; log_leaf
                 end
               | log_leaf ].
Qed.

Lemma log_stopTimer : preserves punchLogged stopTimer.
Proof. unfold stopTimer, clearInterval, set_timerInterval. log_only. Qed.

Lemma log_fetch {R} rq (resp : Fetched R) :
  punchFormOnly rq → preserves punchLogged (fetch rq resp).
Proof.
  intros Hrq. unfold fetch.
  preserves_with ltac:(by apply punchLogged_request) ltac:(fail).
Qed.

Ltac log_known :=
  first [ apply log_showToast | apply log_transitionToView | apply log_updatePunchUI
        | apply log_renderHistory | apply log_userName | apply log_json
        | apply log_storage_set | apply log_storage_remove | apply log_storage_clear
        | apply log_startTimer | apply log_stopTimer
        | apply punchLogged_request; intros [=]
        | apply log_fetch; intros [=] ].

Lemma log_handleLogout v preservePunch :
  preserves punchLogged (handleLogout v preservePunch).
Proof. unfold handleLogout. preserves_with log_known ltac:(fail). Qed.

Lemma log_apiFetch {R} v endpoint method form (resp : Fetched R) :
  (∀ b, punchFormOnly (mkRequest endpoint method b form)) →
  preserves punchLogged (apiFetch v endpoint method form resp).
Proof.
  intros Hrq. unfold apiFetch.
  preserves_with
    ltac:(first [ apply log_handleLogout | by apply log_fetch | log_known ])
    ltac:(fail).
Qed.

Context `{Host}.

Lemma log_fetchHistory v resp : preserves punchLogged (fetchHistory v resp).
Proof.
  unfold fetchHistory.
  preserves_with ltac:(first [ apply log_apiFetch; intros b [=] | log_known ])
                 ltac:(fail).
Qed.

Lemma log_fetchStatus v now resp : preserves punchLogged (fetchStatus v now resp).
Proof.
  destruct v; simpl;
    [unfold fetchStatus_popup | unfold fetchStatus_part000 | unfold fetchStatus_part001];
    preserves_with ltac:(first [ apply log_apiFetch; intros b [=] | log_known ])
                   ltac:(fail).
Qed.

Lemma log_punch_answer v now response stat hist :
  preserves punchLogged
    (match v with
     | Part001 => punch_answer_part001 type now response stat hist
     | _ => punch_answer_verbose v type now response hist
     end).
Proof.
  destruct v; unfold punch_answer_verbose, punch_answer_part001;
    preserves_with
      ltac:(first [ apply log_fetchHistory | apply log_fetchStatus | log_known ])
      ltac:(fail).
Qed.

End RequestLog.

Lemma apiFetch_with_token {R} v endpoint method form (resp : Fetched R) w :
  hasToken w = true →
  apiFetch v endpoint method form resp w
  = apiFetch_tail v resp
      (with_request (mkRequest endpoint method (bearer (storage w !! "token")) form) w).
Proof.
  unfold hasToken. intros Htok.
  unfold apiFetch, mbind at 1, M_bind at 1, storage_get, gets. simpl. rewrite Htok. simpl.
  destruct v, resp; reflexivity.
Qed.

Section DirectionOfPunch.
Context `{Host}.

Lemma punchRequest_logged v type now resp stat hist w :
  hasToken w = true →
  punchLogged w type (Math_floor_div now 1000) (bearer (storage w !! "token"))
    (exec (punchRequest v type now resp stat hist) w).
Proof.
  intros Htok.
  set (ts := Math_floor_div now 1000). set (tok := bearer (storage w !! "token")).
  set (rq := mkRequest "/punch/action" "POST" tok (PunchForm type ts)).
  assert (punchLogged w type ts tok (with_request rq w)) as Hw1.
  { exists [rq]. split; [done |]. split; [| by constructor].
    constructor; [| constructor]. by intros _. }
  assert (preserves (punchLogged w type ts tok)
            (try_catch
               (response ← apiFetch_tail v resp;
                match v with
                | Part001 => punch_answer_part001 type now response stat hist
                | _ => punch_answer_verbose v type now response hist
                end)
               (λ e, match v with
                     | Part001 => showToast "Sync Error"
                     | _ => showToast ("Punch failed: " +:+
                              or_default (Some e)
                                "Network error. Please check your connection.")
                     end))) as Hrest.
  { apply preserves_try_catch.
    - apply preserves_bind; [| intros response; apply log_punch_answer].
      unfold apiFetch_tail.
      preserves_with
        ltac:(first [ apply log_handleLogout | apply log_showToast ]) ltac:(fail).
    - intros e. destruct v; apply log_showToast. }
  specialize (Hrest _ Hw1). unfold exec, punchRequest.
  unfold try_catch, mbind, M_bind in *.
  rewrite (apiFetch_with_token v _ _ _ resp w Htok).
  exact Hrest.
Qed.

(** [handlePunch] ends in one of four ways. *)
Lemma handlePunch_cases v online now resp stat hist w :
  (∃ msg, handlePunch v online now resp stat hist w = (Done tt, with_toast msg w)
          ∧ (online = false ∨ hasToken w = true ∧ refusedLocally now w = true))
  ∨ (online = true ∧ hasToken w = false
     ∧ handlePunch v online now resp stat hist w = handleLogout v true w)
  ∨ (online = true ∧ hasToken w = true ∧ refusedLocally now w = false
     ∧ handlePunch v online now resp stat hist w
       = punchRequest v (if punchedInLocally w then "out" else "in") now resp stat hist w).
Proof.
  destruct online; [| left; eexists; split; [reflexivity | by left]].
  destruct (hasToken w) eqn:Htok;
    [| right; left; repeat split; by apply handlePunch_no_token].
  unfold refusedLocally, punchedInLocally. unfold hasToken in Htok.
  unfold handlePunch, mbind, M_bind, storage_get, gets, mret, M_ret. simpl.
  rewrite Htok. simpl.
  destruct (truthy (storage w !! "punchInTime")) eqn:Hin; simpl.
  - destruct (now - to_num (storage w !! "punchInTime") <? PUNCH_DELAY_MS)%Z; simpl.
    + left. eexists. split; [reflexivity | by right].
    + right. right. done.
  - destruct (hasPunchedOutToday now (stored_history (storage w !! "history"))); simpl.
    + left. eexists. split; [reflexivity | by right].
    + right. right. done.
Qed.

(** C10.  Every request that [handlePunch] sends to /punch/action is a POST
    whose type is [out] when a local punch-in time is stored at the click
    and [in] when none is, with the second of the click as timestamp,
    whatever the server reported or answers; and online, with a token and
    no local rule against it, that request is sent. *)
Theorem C10_direction_from_local_state v online now resp stat hist w :
  let w' := exec (handlePunch v online now resp stat hist) w in
  let direction := if punchedInLocally w then "out" else "in" in
  ∃ new,
    requests w' = (new ++ requests w)%list
    ∧ (∀ rq, rq ∈ new → req_endpoint rq = "/punch/action" →
         req_method rq = "POST" ∧ req_body rq = PunchForm direction (now / 1000))
    ∧ (online = true → hasToken w = true → refusedLocally now w = false →
       mkRequest "/punch/action" "POST" (bearer (storage w !! "token"))
                 (PunchForm direction (now / 1000)) ∈ new).
Proof.
  cbv zeta. unfold exec.
  destruct (handlePunch_cases v online now resp stat hist w)
    as [(msg & -> & Hwhy) | [(Hon & Htok & ->) | (Hon & Htok & Hfree & ->)]].
  - exists []. simpl. split; [done |]. split.
    + intros rq Hin. by apply not_elem_of_nil in Hin.
    + intros Hon Htok Hfree. destruct Hwhy as [-> | [_ Hrefused]]; [done |].
      by rewrite Hrefused in Hfree.
  - destruct (handleLogout_spec v true w) as (w' & -> & _ & _ & _ & Hrq & _).
    rewrite Htok in Hrq. exists []. simpl. split; [done |]. split.
    + intros rq Hin. by apply not_elem_of_nil in Hin.
    + intros _ Htok'. by rewrite Htok in Htok'.
  - destruct (punchRequest_logged v (if punchedInLocally w then "out" else "in")
                now resp stat hist w Htok) as (new & Hnew & Hall & Hin).
    exists new. split; [exact Hnew |]. split.
    + intros rq Hrq. rewrite Forall_forall in Hall. by apply Hall.
    + intros _ _ _. exact Hin.
Qed.

End DirectionOfPunch.

Lemma C10_direction_from_local_state_witness :
  let w := initWorld sessionStore in
  ∃ new,
    requests (exec (handlePunch (H := utcHost) PopupJs true 8000000
                      noPunchAnswer noStatusAnswer noHistoryAnswer) w)
    = (new ++ requests w)%list
    ∧ (∀ rq, rq ∈ new → req_endpoint rq = "/punch/action" →
         req_method rq = "POST" ∧ req_body rq = PunchForm "out" 8000)
    ∧ (true = true → hasToken w = true → refusedLocally (H := utcHost) 8000000 w = false →
       mkRequest "/punch/action" "POST" (Some "T") (PunchForm "out" 8000) ∈ new).
Proof.
  exact (C10_direction_from_local_state (H := utcHost) PopupJs true 8000000
           noPunchAnswer noStatusAnswer noHistoryAnswer (initWorld sessionStore)).
Defined.

(** *** Adopting the time the server reports *)

Lemma hours24_spec h :
  ((h < 12)%Z → hours24 h (Some PM) = (h + 12)%Z)
  ∧ ((12 ≤ h)%Z → hours24 h (Some PM) = h)
  ∧ hours24 12 (Some AM) = 0%Z
  ∧ (h ≠ 12%Z → hours24 h (Some AM) = h)
  ∧ hours24 h None = h.
Proof.
  unfold hours24. repeat split.
  - intros Hlt. apply Z.ltb_lt in Hlt. by rewrite Hlt.
  - intros Hge. apply Z.ltb_ge in Hge. by rewrite Hge.
  - intros Hne. apply Z.eqb_neq in Hne. by rewrite Hne.
Qed.

Example time_match_morning :
  time_match (list_ascii_of_string "10:16:29 AM") = Some (10, 16, 29, Some AM)%Z.
Proof. reflexivity. Qed.

Example time_match_afternoon :
  time_match (list_ascii_of_string "at 2:05:09pm") = Some (2, 5, 9, Some PM)%Z.
Proof. reflexivity. Qed.

Example time_match_24h :
  time_match (list_ascii_of_string "23:59:07") = Some (23, 59, 7, None)%Z.
Proof. reflexivity. Qed.

Example time_match_no_seconds :
  time_match (list_ascii_of_string "10:16") = None.
Proof. reflexivity. Qed.

Example time_match_in_iso :
  time_match (list_ascii_of_string "2024-01-15T10:16:29Z") = Some (10, 16, 29, None)%Z.
Proof. reflexivity. Qed.

Section Adoption.
Context `{Host}.

Lemma fetchStatus_popup_adopts now r text w :
  hasToken w = true →
  punchedInLocally w = false →
  status r ≠ 401%Z →
  ok r = true →
  body r = Some (mkStatusResult true (Some text)) →
  truthy_string text = true →
  storage (exec (fetchStatus_popup now (Answer r)) w) !! "punchInTime"
  = Some (VNum (if usable (parsedTime_popup now text)
                then default 0%Z (parsedTime_popup now text) else now)).
Proof.
  unfold hasToken, punchedInLocally. intros Htok Hlocal H401 Hok Hbody Htext.
  apply Z.eqb_neq in H401.
  unfold exec, fetchStatus_popup, try_catch, apiFetch, mbind, M_bind, storage_get, gets.
  simpl. rewrite Htok. simpl. unfold try_catch, fetch, mbind, M_bind, modify. simpl.
  rewrite H401. simpl. unfold json. rewrite Hbody. simpl. rewrite Hok. simpl.
  rewrite Hlocal, Htext. simpl. unfold storage_set, modify, mret, M_ret. simpl.
  set (t := if usable _ then _ else _).
  destruct (truthy_num t); simpl.
  - match goal with
    | |- context [startTimer ?n ?s ?w1] =>
        pose proof (store_only_startTimer (punchInTimeIs (Some (VNum t)))
                      (punchInTimeIs_store _) n s w1) as Hstart;
        destruct (startTimer n s w1) as [[[]|e] w2]
    end; simpl in *; apply Hstart, lookup_insert_eq.
  - apply lookup_insert_eq.
Qed.

Lemma fetchStatus_part000_adopts now r text w :
  hasToken w = true →
  punchedInLocally w = false →
  status r ≠ 401%Z →
  ok r = true →
  body r = Some (mkStatusResult true text) →
  storage (exec (fetchStatus_part000 now (Answer r)) w) !! "punchInTime"
  = Some (VNum (if truthy_opt_string text
                   && usable (parsedTime_part000 now (default EmptyString text))
                then default 0%Z (parsedTime_part000 now (default EmptyString text))
                else now)).
Proof.
  unfold hasToken, punchedInLocally. intros Htok Hlocal H401 Hok Hbody.
  apply Z.eqb_neq in H401.
  unfold exec, fetchStatus_part000, try_catch, apiFetch, mbind, M_bind, storage_get, gets.
  simpl. rewrite Htok. simpl. unfold try_catch, fetch, mbind, M_bind, modify. simpl.
  rewrite H401. simpl. unfold json. rewrite Hbody. simpl. rewrite Hok. simpl.
  rewrite Hlocal. simpl. unfold storage_set, modify, mret, M_ret.
  assert (∀ n s w1 x,
            storage w1 !! "punchInTime" = Some x →
            storage (snd (try_catch (startTimer n s ≫= λ _, updatePunchUI true)
                                    (λ _, mret tt) w1))
              !! "punchInTime" = Some x) as Hend.
  { intros n s w1 x Hx.
    apply (preserves_try_catch (punchInTimeIs (Some x)));
      [apply preserves_bind; [| intros _] | intros _; apply preserves_ret | exact Hx];
      store_only_known punchInTimeIs_store. }
  destruct (truthy_opt_string text); simpl;
    [destruct (usable (parsedTime_part000 now (default EmptyString text))) eqn:Huse |];
    simpl; rewrite ?Hlocal; simpl.
  - assert (truthy_num (default 0%Z (parsedTime_part000 now (default EmptyString text)))
            = true) as ->.
    { unfold usable in Huse. by destruct (parsedTime_part000 _ _). }
    simpl.
    match goal with
    | |- context [startTimer ?n ?s ?w1] =>
        exact (Hend n s w1 _ ltac:(simpl; apply lookup_insert_eq))
    end.
  - match goal with
    | |- context [startTimer ?n ?s ?w1] =>
        exact (Hend n s w1 _ ltac:(simpl; apply lookup_insert_eq))
    end.
  - match goal with
    | |- context [startTimer ?n ?s ?w1] =>
        exact (Hend n s w1 _ ltac:(simpl; apply lookup_insert_eq))
    end.
Qed.

End Adoption.

Section AdoptionOfTimeOfDay.
Context `{Host}.

(** With no local punch-in time, a status "punched in" whose text holds a
    colon makes [PopupJs] and [Part000] store the first time of day found in
    the text, set on the current date, and the current time when the text
    holds none or the date it gives is not usable. *)
Lemma fetchStatus_adopts_time_of_day v now r text w :
  v ≠ Part001 →
  hasToken w = true →
  punchedInLocally w = false →
  status r ≠ 401%Z →
  ok r = true →
  body r = Some (mkStatusResult true (Some text)) →
  includes text ":" = true →
  storage (exec (fetchStatus v now (Answer r)) w) !! "punchInTime"
  = Some (VNum (adopted now text)).
Proof.
  intros Hv Htok Hlocal H401 Hok Hbody Hcolon.
  assert (truthy_string text = true) as Htext.
  { destruct text; [discriminate Hcolon | done]. }
  assert (∀ parsed : option Z,
            parsed = parse_time_of_day now text →
            (if usable parsed then default 0%Z parsed else now) = adopted now text)
    as Hadopted.
  { intros parsed ->. unfold adopted, parse_time_of_day.
    destruct (time_match (list_ascii_of_string text)) as [[[[h m] s] modifier]|]; done. }
  destruct v; [| | done]; simpl.
  - rewrite (fetchStatus_popup_adopts now r text w Htok Hlocal H401 Hok Hbody Htext).
    f_equal. f_equal. apply Hadopted. unfold parsedTime_popup. by rewrite Hcolon.
  - rewrite (fetchStatus_part000_adopts now r (Some text) w Htok Hlocal H401 Hok Hbody).
    simpl. rewrite Htext. simpl.
    f_equal. f_equal. apply Hadopted. unfold parsedTime_part000. by rewrite Hcolon.
Qed.

(** [Part000] falls back to the current time when the server sends no text
    at all. *)
Lemma fetchStatus_part000_no_text now r w :
  hasToken w = true →
  punchedInLocally w = false →
  status r ≠ 401%Z →
  ok r = true →
  body r = Some (mkStatusResult true None) →
  storage (exec (fetchStatus_part000 now (Answer r)) w) !! "punchInTime"
  = Some (VNum now).
Proof.
  intros Htok Hlocal H401 Hok Hbody.
  by rewrite (fetchStatus_part000_adopts now r None w Htok Hlocal H401 Hok Hbody).
Qed.

End AdoptionOfTimeOfDay.

(** When the server says "punched in" and sends no text, [PopupJs] adopts
    nothing and shows no timer, where [Part000] adopts the current time. *)
Example popup_no_text_adopts_nothing :
  let w := initWorld tokenOnlyStore in
  let popup := exec (fetchStatus (H := utcHost) PopupJs 5000 statusAnswerNoText) w in
  let part000 := exec (fetchStatus (H := utcHost) Part000 5000 statusAnswerNoText) w in
  storage popup = storage w
  ∧ timerInterval popup = None
  ∧ statusOnline popup = false
  ∧ storage part000 !! "punchInTime" = Some (VNum 5000)
  ∧ statusOnline part000 = true.
Proof. cbv zeta. repeat split; vm_compute; reflexivity. Qed.

(** C5, where the code departs from it.  On 16 January 2024 at 10:13:20 UTC
    the server reports "punched in" since [2024-01-15T10:16:29Z] and no
    punch-in time is stored.  The text holds a colon, so [PopupJs] and
    [Part000] read it as the time of day 10:16:29 on the current date: they
    store 16 January 10:16:29, a day after the instant the text denotes (and
    later than the clock). *)
Theorem C5_iso_datetime_read_as_time_of_day :
  let now := 1705400000000%Z in
  let w := initWorld tokenOnlyStore in
  punchedInLocally w = false
  ∧ Date_parse (Host := utcHost) isoText = Some 1705313789000%Z
  ∧ storage (exec (fetchStatus (H := utcHost) Part000 now statusAnswerIso) w)
      !! "punchInTime" = Some (VNum 1705400189000)
  ∧ storage (exec (fetchStatus (H := utcHost) PopupJs now statusAnswerIso) w)
      !! "punchInTime" = Some (VNum 1705400189000)
  ∧ Date_setHours (Host := utcHost) now 10 16 29 = 1705400189000%Z
  ∧ (1705400189000 - 1705313789000 = MS_PER_DAY)%Z.
Proof. cbv zeta. repeat split; vm_compute; reflexivity. Qed.

(** * Further properties

    What the handlers do on the paths the statements above do not follow. *)

(** *** Calls with the bearer token *)

Lemma apiFetch_ok {R} v endpoint method form (r : HttpResponse R) w :
  hasToken w = true →
  status r ≠ 401%Z →
  apiFetch v endpoint method form (Answer r) w
  = (Done r, with_request (apiRequest endpoint method form w) w).
Proof.
  intros Htok H401. apply Z.eqb_neq in H401.
  rewrite apiFetch_with_token by done.
  unfold apiFetch_tail, apiRequest.
  destruct v; unfold try_catch, mbind, M_bind, mret, M_ret; simpl; by rewrite H401.
Qed.

Lemma apiFetch_network_error {R} v endpoint method form msg w :
  hasToken w = true →
  apiFetch (R := R) v endpoint method form (NetworkError msg) w
  = (Thrown (rethrown v msg), with_request (apiRequest endpoint method form w) w).
Proof.
  intros Htok. rewrite apiFetch_with_token by done. by destruct v.
Qed.

Lemma apiFetch_no_token {R} v endpoint method form (resp : Fetched R) w :
  hasToken w = false →
  ∃ w', handleLogout v true w = (Done tt, w')
    ∧ apiFetch v endpoint method form resp w = (Thrown "No token found", w')
    ∧ requests w' = requests w
    ∧ view w' = LoginView.
Proof.
  intros Htok.
  destruct (handleLogout_spec v true w) as (w' & Heq & _ & Hview & _ & Hrq & _).
  rewrite Htok in Hrq. exists w'. repeat split; try done.
  unfold apiFetch, mbind, M_bind, storage_get, gets. simpl.
  unfold hasToken in Htok. rewrite Htok. simpl. by rewrite Heq.
Qed.

Lemma apiFetch_expired {R} v endpoint method form (r : HttpResponse R) w :
  hasToken w = true →
  status r = 401%Z →
  ∃ w', apiFetch v endpoint method form (Answer r) w
        = (Thrown (rethrown v "Session expired"), w')
    ∧ handleLogout v true (with_request (apiRequest endpoint method form w) w)
      = (Done tt, w').
Proof.
  intros Htok H401. rewrite apiFetch_with_token by done.
  unfold apiFetch_tail. fold (apiRequest endpoint method form w).
  set (w1 := with_request _ w).
  destruct (handleLogout_spec v true w1) as (w' & Heq & _).
  exists w'. split; [| done].
  destruct v; unfold try_catch, mbind, M_bind, mret, M_ret; simpl;
    rewrite H401; simpl; by rewrite Heq.
Qed.

(** *** Requests that fail *)

Section FailedSync.
Context `{Host}.

Lemma fetchMe_failed v me w :
  hasToken w = true → failedAnswer me →
  fetchMe v me w = (Done tt, with_request (apiRequest "/me" "GET" NoBody w) w).
Proof.
  intros Htok Hfail. unfold fetchMe, try_catch, mbind, M_bind.
  destruct me as [msg|r]; simpl in Hfail.
  - by rewrite apiFetch_network_error.
  - destruct Hfail as [H401 Hfail]. rewrite apiFetch_ok by done. unfold json.
    destruct (body r) as [result|]; [| done].
    destruct Hfail as [|Hok]; [done |]. simpl.
    destruct (me_user result) as [[name business_email]|]; [| done]. by rewrite Hok.
Qed.

Lemma fetchHistory_failed v hist w :
  hasToken w = true → failedAnswer hist →
  fetchHistory v hist w
  = (Done tt, with_request (apiRequest "/punch/history" "GET" NoBody w) w).
Proof.
  intros Htok Hfail. unfold fetchHistory, try_catch, mbind, M_bind.
  destruct hist as [msg|r]; simpl in Hfail.
  - by rewrite apiFetch_network_error.
  - destruct Hfail as [H401 Hfail]. rewrite apiFetch_ok by done. unfold json.
    destruct (body r) as [result|]; [| done].
    destruct Hfail as [|Hok]; [done |]. simpl.
    destruct (hr_history result) as [history|]; [| done]. by rewrite Hok.
Qed.

Lemma fetchStatus_failed v now stat w :
  hasToken w = true → failedAnswer stat →
  fetchStatus v now stat w
  = (Done tt, with_request (apiRequest "/user/status" "GET" NoBody w) w).
Proof.
  intros Htok Hfail.
  destruct v; simpl;
    [unfold fetchStatus_popup | unfold fetchStatus_part000 | unfold fetchStatus_part001];
    unfold try_catch, mbind, M_bind;
    (destruct stat as [msg|r]; simpl in Hfail;
     [by rewrite apiFetch_network_error |]);
    destruct Hfail as [H401 Hfail]; rewrite apiFetch_ok by done; unfold json;
    (destruct (body r) as [result|]; [| done]);
    (destruct Hfail as [|Hok]; [done |]); simpl; by rewrite Hok.
Qed.

End FailedSync.

(** *** Login *)

Lemma handleLogin_invalid emailInput password remember resp w :
  truthy_string (trim emailInput) = false ∨ truthy_string password = false →
  handleLogin emailInput password remember resp w
  = (Done tt, with_toast "Invalid credentials provided." w).
Proof.
  intros Hbad. unfold handleLogin.
  destruct Hbad as [-> | ->]; [done |]. by rewrite orb_true_r.
Qed.

Lemma handleLogin_rejected emailInput password remember resp w :
  truthy_string (trim emailInput) = true →
  truthy_string password = true →
  loginAccepted resp = false →
  handleLogin emailInput password remember resp w
  = (Done tt,
     with_toast (loginFailureMessage resp)
       (with_request (mkRequest "/login" "POST" None (LoginForm (trim emailInput) password))
          w)).
Proof.
  intros Hemail Hpassword Hrej. unfold handleLogin. rewrite Hemail, Hpassword. simpl.
  unfold try_catch, fetch, json, mbind, M_bind, modify. simpl.
  destruct resp as [msg|r]; simpl in *; [done |].
  destruct (body r) as [result|]; simpl; [| done].
  by rewrite Hrej.
Qed.

Lemma handleLogin_accepted emailInput password remember r result w :
  truthy_string (trim emailInput) = true →
  truthy_string password = true →
  body r = Some result →
  loginAccepted (Answer r) = true →
  let email := trim emailInput in
  let name := or_default (or_else (lr_user_name result) (lr_data_user_name result))
                         (default EmptyString (head (split "@" email))) in
  let token := default EmptyString (or_else (lr_token result) (lr_data_token result)) in
  handleLogin emailInput password remember (Answer r) w
  = (Done tt,
     with_toast "Welcome back"
       (with_timerDisplay "00:00:00"
          (with_status false
             (with_historyList []
                (with_view DashboardView
                   (with_userName (or_default (Some name) "Employee")
                      (with_storage
                         (λ st, <["user" := VUser (mkUser name email)]>
                                  (<["token" := VStr token]>
                                     (if remember
                                      then <["savedCreds" := VCreds (mkCreds email password)]> st
                                      else delete "savedCreds" st)))
                         (with_request
                            (mkRequest "/login" "POST" None (LoginForm email password))
                            w)))))))).
Proof.
  intros Hemail Hpassword Hbody Hacc. simpl in Hacc. rewrite Hbody in Hacc.
  unfold handleLogin. rewrite Hemail, Hpassword. simpl.
  unfold try_catch, fetch, json, mbind, M_bind, modify. simpl.
  rewrite Hbody. simpl. rewrite Hacc. by destruct remember.
Qed.

(** *** Logout *)

(** [handleLogout] leaves no timer running, and the timer text as it was. *)
Lemma handleLogout_timers v preservePunch w :
  timer_inv w →
  let w' := exec (handleLogout v preservePunch) w in
  intervals w' = ∅
  ∧ timerDisplay w' = timerDisplay w
  ∧ ticks w' = ticks w
  ∧ statusOnline w' = statusOnline w
  ∧ userName w' = userName w
  ∧ historyList w' = historyList w.
Proof.
  destruct w as [st ti iv nh vw ts rq un so td hl tk].
  unfold timer_inv. simpl. intros [_ Hti].
  unfold exec, handleLogout, mbind, M_bind, storage_get, gets. simpl.
  destruct (truthy (st !! "token")); simpl;
    destruct v; [| destruct preservePunch | | | destruct preservePunch |];
    destruct ti as [[|h]|]; simpl;
    try (by destruct Hti);
    try (destruct Hti as [_ [t ->]]; by rewrite delete_singleton_eq);
    by rewrite ?Hti.
Qed.

Lemma tick_no_timer now w : intervals w = ∅ → tick now w = w.
Proof. intros Hiv. unfold tick. rewrite Hiv. apply map_fold_empty. Qed.

Lemma logout_store_session v st :
  logout_store v false st !! "token" = None
  ∧ logout_store v false st !! "user" = None
  ∧ logout_store v false st !! "punchInTime" = None.
Proof.
  destruct v; simpl; rewrite ?lookup_empty, ?lookup_delete_eq;
    repeat (rewrite lookup_delete_ne by done; rewrite ?lookup_delete_eq); done.
Qed.

Section NoToken.
Context `{Host}.

Lemma step_no_token_requests v e w :
  hasToken w = false → notLogin e = true → requests (step v e w) = requests w.
Proof.
  intros Htok He. destruct e; simpl in *; try discriminate; unfold exec.
  - unfold init, mbind, M_bind, storage_get, gets. simpl.
    unfold hasToken in Htok. by rewrite Htok.
  - destruct (handleLogout_spec v false w) as (w' & -> & _ & _ & _ & Hrq & _).
    by rewrite Htok in Hrq.
  - destruct online; [| by rewrite handlePunch_offline].
    rewrite handlePunch_no_token by done.
    destruct (handleLogout_spec v true w) as (w' & -> & _ & _ & _ & Hrq & _).
    by rewrite Htok in Hrq.
  - by destruct (tick_spec now w) as (_ & _ & _ & _ & Hrq & _).
Qed.

Lemma init_no_token v now me stat hist w :
  hasToken w = false →
  init v now me stat hist w = (Done tt, with_view LoginView w).
Proof.
  intros Htok. unfold init, mbind, M_bind, storage_get, gets. simpl.
  unfold hasToken in Htok. by rewrite Htok.
Qed.

End NoToken.

(** *** The timer, field by field *)

Lemma startTimer_frame now startTime w :
  ∃ w', startTimer now startTime w = (Done tt, w')
    ∧ storage w' = storage w
    ∧ view w' = view w
    ∧ toasts w' = toasts w
    ∧ requests w' = requests w
    ∧ userName w' = userName w
    ∧ statusOnline w' = statusOnline w
    ∧ historyList w' = historyList w
    ∧ timerInterval w' = Some (nextHandle w)
    ∧ nextHandle w' = S (nextHandle w)
    ∧ (timer_inv w → intervals w' = {[nextHandle w := startTime]}).
Proof.
  pose proof (startTimer_intervals now startTime w) as Hiv.
  destruct w as [st ti iv nh vw ts rq un so td hl tk].
  unfold exec in Hiv.
  destruct ti as [[|h]|]; simpl in *; eexists; (split; [reflexivity |]);
    simpl; repeat split; intros Hinv; by destruct (Hiv Hinv) as (_ & ? & _).
Qed.

Lemma stopTimer_frame w :
  ∃ w', stopTimer w = (Done tt, w')
    ∧ storage w' = storage w
    ∧ view w' = view w
    ∧ toasts w' = toasts w
    ∧ requests w' = requests w
    ∧ userName w' = userName w
    ∧ statusOnline w' = statusOnline w
    ∧ historyList w' = historyList w
    ∧ timerDisplay w' = timerDisplay w
    ∧ ticks w' = ticks w
    ∧ timerInterval w' = None
    ∧ nextHandle w' = nextHandle w
    ∧ (timer_inv w → intervals w' = ∅).
Proof.
  pose proof (stopTimer_intervals w) as Hiv.
  destruct w as [st ti iv nh vw ts rq un so td hl tk].
  unfold exec in Hiv.
  destruct ti as [[|h]|]; simpl in *; eexists; (split; [reflexivity |]);
    simpl; repeat split; intros Hinv; by destruct (Hiv Hinv) as (_ & ? & _).
Qed.

(** *** The refresh of the history *)

Section HistoryRefresh.
Context `{Host}.

Lemma historyRefreshed_request rq w : historyRefreshed w (with_request rq w).
Proof. by repeat split. Qed.

(** A refresh that does not end the session touches nothing but the
    history. *)
Lemma fetchHistory_frame v hist w :
  hasToken w = true → expired hist = false →
  ∃ w', fetchHistory v hist w = (Done tt, w') ∧ historyRefreshed w w'.
Proof.
  intros Htok Hexp.
  destruct hist as [msg|r].
  { eexists. split; [by apply fetchHistory_failed | apply historyRefreshed_request]. }
  simpl in Hexp. apply Z.eqb_neq in Hexp.
  unfold fetchHistory, try_catch, mbind, M_bind. rewrite apiFetch_ok by done.
  unfold json. destruct (body r) as [result|]; simpl;
    [| eexists; split; [done | apply historyRefreshed_request]].
  destruct (hr_history result) as [history|];
    [| eexists; split; [done | apply historyRefreshed_request]].
  destruct (ok r); [| eexists; split; [done | apply historyRefreshed_request]].
  unfold mbind, M_bind, storage_set, modify.
  destruct history as [|item history]; simpl; eexists; (split; [reflexivity |]);
    repeat split; simpl; intros k Hk; by rewrite lookup_insert_ne.
Qed.

End HistoryRefresh.

(** *** Punches that reach the server *)

Section PunchesSent.
Context `{Host}.

Lemma handlePunch_sends v now resp stat hist w :
  hasToken w = true →
  refusedLocally now w = false →
  handlePunch v true now resp stat hist w
  = punchRequest v (if punchedInLocally w then "out" else "in") now resp stat hist w.
Proof.
  intros Htok Hfree.
  destruct (handlePunch_cases v true now resp stat hist w)
    as [(msg & _ & [Hoff | [_ Href]]) | [(_ & Hno & _) | (_ & _ & _ & Heq)]].
  - discriminate.
  - by rewrite Href in Hfree.
  - by rewrite Hno in Htok.
  - exact Heq.
Qed.

Lemma punchRequest_network_error v type now msg stat hist w :
  hasToken w = true →
  punchRequest v type now (NetworkError msg) stat hist w
  = (Done tt,
     with_toast
       (match v with
        | Part001 => "Sync Error"
        | _ => "Punch failed: " +:+
               or_default (Some (rethrown v msg))
                 "Network error. Please check your connection."
        end)
       (with_request (apiRequest "/punch/action" "POST" (punchForm type now) w) w)).
Proof.
  intros Htok. unfold punchRequest, try_catch, mbind, M_bind.
  rewrite apiFetch_network_error by done. by destruct v.
Qed.

Lemma punchRequest_answered v type now r stat hist w :
  hasToken w = true →
  status r ≠ 401%Z →
  punchRequest v type now (Answer r) stat hist w
  = try_catch
      (match v with
       | Part001 => punch_answer_part001 type now r stat hist
       | _ => punch_answer_verbose v type now r hist
       end)
      (λ e, match v with
            | Part001 => showToast "Sync Error"
            | _ => showToast ("Punch failed: " +:+
                     or_default (Some e) "Network error. Please check your connection.")
            end)
      (with_request (apiRequest "/punch/action" "POST" (punchForm type now) w) w).
Proof.
  intros Htok H401. unfold punchRequest, try_catch, mbind, M_bind.
  by rewrite apiFetch_ok.
Qed.

Lemma punchRequest_rejected v type now r stat hist w :
  hasToken w = true →
  status r ≠ 401%Z →
  punchAccepted v (Answer r) = false →
  punchRequest v type now (Answer r) stat hist w
  = (Done tt,
     with_toast (punchRejectionMessage v r)
       (with_request (apiRequest "/punch/action" "POST" (punchForm type now) w) w)).
Proof.
  intros Htok H401 Hrej. rewrite punchRequest_answered by done.
  unfold punchRejectionMessage, try_catch.
  destruct v; simpl in Hrej;
    unfold punch_answer_verbose, punch_answer_part001, json, mbind, M_bind;
    destruct (body r) as [result|]; simpl; try done; by rewrite Hrej.
Qed.

End PunchesSent.

Section PunchesAccepted.
Context `{Host}.

Lemma ok_200 {R} (r : HttpResponse R) : status r = 200%Z → ok r = true.
Proof. unfold ok. by intros ->. Qed.

Lemma fetchHistory_returns v hist w : ∃ w', fetchHistory v hist w = (Done tt, w').
Proof.
  unfold fetchHistory, try_catch.
  match goal with |- context [(?m ≫= ?f) w] => destruct ((m ≫= f) w) as [[[]|e] w'] end;
    by eexists.
Qed.

(** An accepted punch-in in [PopupJs] and [Part000], up to the refresh of
    the history that ends it. *)
Lemma punch_in_accepted v now r result stat hist w :
  v ≠ Part001 →
  timer_inv w →
  hasToken w = true →
  punchedInLocally w = false →
  hasPunchedOutToday now (stored_history (storage w !! "history")) = false →
  body r = Some result →
  status r = 200%Z →
  isSuccess result || negb (hasError result) = true →
  ∃ w5, handlePunch v true now (Answer r) stat hist w = fetchHistory v hist w5
    ∧ storage w5 = <["punchInTime" := VNum now]> (storage w)
    ∧ statusOnline w5 = true
    ∧ timerInterval w5 = Some (nextHandle w)
    ∧ intervals w5 = {[nextHandle w := now]}
    ∧ view w5 = view w
    ∧ toasts w5 = or_default (pr_message result) "Punched In Successfully" :: toasts w.
Proof.
  intros Hv Hinv Htok Hlocal Hshift Hbody H200 Hsucc.
  assert (refusedLocally now w = false) as Hfree.
  { unfold refusedLocally. by rewrite Hlocal, Hshift. }
  rewrite handlePunch_sends by done. rewrite Hlocal.
  rewrite punchRequest_answered by (done || (rewrite H200; done)).
  set (w1 := with_request _ w).
  assert (∃ w5, punch_answer_verbose v "in" now r hist w1 = fetchHistory v hist w5
    ∧ storage w5 = <["punchInTime" := VNum now]> (storage w)
    ∧ statusOnline w5 = true
    ∧ timerInterval w5 = Some (nextHandle w)
    ∧ intervals w5 = {[nextHandle w := now]}
    ∧ view w5 = view w
    ∧ toasts w5 = or_default (pr_message result) "Punched In Successfully" :: toasts w)
    as (w5 & Heq & Hfacts).
  { unfold punch_answer_verbose. rewrite Hbody, (ok_200 r H200), H200, Hsucc. simpl.
    unfold mbind at 1, M_bind at 1.
    unfold mbind at 1, M_bind at 1. unfold storage_set at 1, modify at 1.
    set (w2 := with_storage _ w1).
    destruct (startTimer_frame now now w2)
      as (w3 & Hstart & Hst3 & Hvw3 & Hts3 & Hrq3 & Hun3 & Hso3 & Hhl3 & Hti3 & Hnh3 & Hiv3).
    unfold mbind at 1, M_bind at 1. rewrite Hstart.
    unfold mbind at 1, M_bind at 1. unfold updatePunchUI, mbind at 1, M_bind at 1, modify at 1.
    unfold mret, M_ret, showToast, modify.
    eexists. split; [reflexivity |]. simpl.
    rewrite Hst3, Hti3, Hvw3, Hts3. repeat split. by apply Hiv3. }
  exists w5. split; [| exact Hfacts].
  destruct (fetchHistory_returns v hist w5) as (w6 & Hret).
  unfold try_catch. destruct v; [| | done]; by rewrite Heq, Hret.
Qed.

(** An accepted punch-out in [PopupJs] and [Part000], up to the refresh of
    the history that ends it. *)
Lemma punch_out_accepted v now r result stat hist w p :
  v ≠ Part001 →
  timer_inv w →
  hasToken w = true →
  storage w !! "punchInTime" = Some (VNum p) →
  p ≠ 0%Z →
  (PUNCH_DELAY_MS ≤ now - p)%Z →
  body r = Some result →
  status r = 200%Z →
  isSuccess result || negb (hasError result) = true →
  ∃ w5, handlePunch v true now (Answer r) stat hist w = fetchHistory v hist w5
    ∧ storage w5 = delete "punchInTime" (storage w)
    ∧ statusOnline w5 = false
    ∧ timerDisplay w5 = "00:00:00"
    ∧ timerInterval w5 = None
    ∧ intervals w5 = ∅
    ∧ view w5 = view w
    ∧ toasts w5 = or_default (pr_message result) "Punched Out Successfully" :: toasts w.
Proof.
  intros Hv Hinv Htok Hp Hp0 Hlate Hbody H200 Hsucc.
  assert (punchedInLocally w = true) as Hlocal.
  { unfold punchedInLocally. rewrite Hp. simpl. unfold truthy_num.
    by apply negb_true_iff, Z.eqb_neq. }
  assert (refusedLocally now w = false) as Hfree.
  { unfold refusedLocally. rewrite Hlocal, Hp. simpl. by apply Z.ltb_ge. }
  rewrite handlePunch_sends by done. rewrite Hlocal.
  rewrite punchRequest_answered by (done || (rewrite H200; done)).
  set (w1 := with_request _ w).
  assert (∃ w5, punch_answer_verbose v "out" now r hist w1 = fetchHistory v hist w5
    ∧ storage w5 = delete "punchInTime" (storage w)
    ∧ statusOnline w5 = false
    ∧ timerDisplay w5 = "00:00:00"
    ∧ timerInterval w5 = None
    ∧ intervals w5 = ∅
    ∧ view w5 = view w
    ∧ toasts w5 = or_default (pr_message result) "Punched Out Successfully" :: toasts w)
    as (w5 & Heq & Hfacts).
  { unfold punch_answer_verbose. rewrite Hbody, (ok_200 r H200), H200, Hsucc. simpl.
    unfold mbind at 1, M_bind at 1.
    unfold mbind at 1, M_bind at 1. unfold storage_remove at 1, modify at 1.
    set (w2 := with_storage _ w1).
    destruct (stopTimer_frame w2)
      as (w3 & Hstop & Hst3 & Hvw3 & Hts3 & Hrq3 & Hun3 & Hso3 & Hhl3 & Htd3 & Htk3
          & Hti3 & Hnh3 & Hiv3).
    unfold mbind at 1, M_bind at 1. rewrite Hstop.
    unfold mbind at 1, M_bind at 1. unfold updatePunchUI, mbind at 1, M_bind at 1, modify at 1.
    unfold mret, M_ret, showToast, modify.
    eexists. split; [reflexivity |]. simpl.
    rewrite Hst3, Hti3, Hvw3, Hts3. repeat split. by apply Hiv3. }
  exists w5. split; [| exact Hfacts].
  destruct (fetchHistory_returns v hist w5) as (w6 & Hret).
  unfold try_catch. destruct v; [| | done]; by rewrite Heq, Hret.
Qed.

End PunchesAccepted.

(** *** Without a token *)

Lemma logout_store_token v preservePunch st :
  logout_store v preservePunch st !! "token" = None.
Proof.
  destruct v; [| destruct preservePunch |]; simpl;
    by rewrite ?lookup_empty, ?lookup_delete_eq.
Qed.

Lemma handleLogout_no_token v preservePunch w :
  hasToken (exec (handleLogout v preservePunch) w) = false.
Proof.
  unfold exec. destruct (handleLogout_spec v preservePunch w) as (w' & -> & Hst & _).
  simpl. unfold hasToken. by rewrite Hst, logout_store_token.
Qed.

Section NoTokenRuns.
Context `{Host}.

Lemma step_no_token_keeps v e w :
  hasToken w = false → notLogin e = true → hasToken (step v e w) = false.
Proof.
  intros Htok He. destruct e; simpl in *; try discriminate.
  - unfold exec. by rewrite init_no_token.
  - apply handleLogout_no_token.
  - unfold exec. destruct online; [| by rewrite handlePunch_offline].
    rewrite handlePunch_no_token by done. apply handleLogout_no_token.
  - unfold hasToken in *. by destruct (tick_spec now w) as (-> & _).
Qed.

End NoTokenRuns.

(** *** The status of the server and the local punch-in time *)

Section StatusSync.
Context `{Host}.

Lemma truthy_num_ne p : p ≠ 0%Z → truthy_num p = true.
Proof. intros Hp. unfold truthy_num. by apply negb_true_iff, Z.eqb_neq. Qed.

(** The server agrees that the user is punched in: the local time stays. *)
Lemma fetchStatus_local_wins v now r text w p :
  hasToken w = true →
  storage w !! "punchInTime" = Some (VNum p) →
  p ≠ 0%Z →
  status r ≠ 401%Z →
  ok r = true →
  body r = Some (mkStatusResult true text) →
  fetchStatus v now (Answer r) w
  = (startTimer now p ;; updatePunchUI true)
      (with_request (apiRequest "/user/status" "GET" NoBody w) w).
Proof.
  intros Htok Hp Hp0 H401 Hok Hbody.
  set (w1 := with_request _ w).
  destruct (startTimer_frame now p w1) as (w2 & Hstart & _).
  destruct v; simpl;
    [unfold fetchStatus_popup | unfold fetchStatus_part000 | unfold fetchStatus_part001];
    unfold try_catch; unfold mbind at 1, M_bind at 1;
    rewrite apiFetch_ok by done; fold w1;
    unfold json; rewrite Hbody; unfold mbind at 1, M_bind at 1; unfold mret at 1, M_ret at 1;
    rewrite Hok; simpl;
    unfold mbind, M_bind, storage_get, gets, mret, M_ret; simpl;
    rewrite Hp; simpl; rewrite (truthy_num_ne p Hp0); simpl;
    unfold mbind, M_bind in Hstart; simpl in Hstart |- *.
  all: try (rewrite (truthy_num_ne p Hp0); simpl).
  all: fold (startTimer now p w1); rewrite Hstart; reflexivity.
Qed.

(** The server says "not punched in": [PopupJs] and [Part001] drop the local
    time. *)
Lemma fetchStatus_server_out v now r text w :
  v ≠ Part000 →
  hasToken w = true →
  status r ≠ 401%Z →
  ok r = true →
  body r = Some (mkStatusResult false text) →
  fetchStatus v now (Answer r) w
  = (storage_remove ["punchInTime"] ;; stopTimer ;; updatePunchUI false)
      (with_request (apiRequest "/user/status" "GET" NoBody w) w).
Proof.
  intros Hv Htok H401 Hok Hbody.
  set (w1 := with_request _ w).
  set (w2 := with_storage (λ st, delete "punchInTime" st) w1).
  destruct (stopTimer_frame w2) as (w3 & Hstop & _).
  destruct v; [| done |]; simpl;
    [unfold fetchStatus_popup | unfold fetchStatus_part001];
    unfold try_catch; unfold mbind at 1, M_bind at 1;
    rewrite apiFetch_ok by done; fold w1;
    unfold json; rewrite Hbody; unfold mbind at 1, M_bind at 1; unfold mret at 1, M_ret at 1;
    rewrite Hok; simpl;
    unfold mbind, M_bind, storage_remove, modify; simpl; fold w2;
    rewrite Hstop; reflexivity.
Qed.

End StatusSync.

(** *** Sequences of handlers *)

Lemma bind_done {A B} (m : M A) (f : A → M B) w a w' :
  m w = (Done a, w') → (m ≫= f) w = f a w'.
Proof. unfold mbind, M_bind. by intros ->. Qed.

Lemma try_catch_returns (m : M unit) w :
  ∃ w', try_catch m (λ _, mret tt) w = (Done tt, w').
Proof. unfold try_catch. destruct (m w) as [[[]|e] w']; by eexists. Qed.

Lemma try_catch_done {A} (m : M A) h w a w' :
  m w = (Done a, w') → try_catch m h w = (Done a, w').
Proof. unfold try_catch. by intros ->. Qed.

(** *** The start of the popup when the requests fail *)

Section FailingNetwork.
Context `{Host}.

Lemma fetchStatus_returns v now stat w :
  ∃ w', fetchStatus v now stat w = (Done tt, w').
Proof. destruct v; apply try_catch_returns. Qed.

Lemma restoreLocalState_punched_in now w p :
  timer_inv w →
  hasToken w = true →
  storage w !! "punchInTime" = Some (VNum p) →
  p ≠ 0%Z →
  ∃ w', restoreLocalState now w = (Done tt, w')
    ∧ storage w' = storage w
    ∧ view w' = view w
    ∧ requests w' = requests w
    ∧ statusOnline w' = true
    ∧ timerInterval w' = Some (nextHandle w)
    ∧ intervals w' = {[nextHandle w := p]}.
Proof.
  intros Hinv Htok Hp Hp0.
  destruct (startTimer_frame now p w)
    as (w1 & Hstart & Hst & Hvw & Hts & Hrq & Hun & Hso & Hhl & Hti & Hnh & Hiv).
  unfold restoreLocalState, mbind, M_bind, storage_get, gets. simpl.
  unfold hasToken in Htok. rewrite Htok, Hp. simpl. rewrite (truthy_num_ne p Hp0).
  unfold mbind, M_bind in Hstart. simpl in Hstart |- *.
  fold (startTimer now p w). rewrite Hstart.
  eexists. split; [reflexivity |]. simpl. repeat split; try done. by apply Hiv.
Qed.

Lemma init_with_token v now me stat hist w :
  hasToken w = true →
  init v now me stat hist w
  = syncState v now me stat hist
      (with_view DashboardView
         (with_userName
            (or_default
               (user_name <$> match storage w !! "user" with
                              | Some (VUser u) => Some u
                              | _ => None
                              end)
               "Employee")
            w)).
Proof.
  intros Htok. unfold init, mbind, M_bind, storage_get, gets. simpl.
  unfold hasToken in Htok. by rewrite Htok.
Qed.

(** The three requests of [syncState] go out and fail: nothing but the
    request log changes, in any order. *)
Lemma sync_requests_fail v now me stat hist w :
  hasToken w = true → failedAnswer me → failedAnswer stat → failedAnswer hist →
  ∃ w', (match v with
         | Part000 => fetchMe v me ;; fetchHistory v hist ;; fetchStatus v now stat
         | _ => fetchMe v me ;; fetchStatus v now stat ;; fetchHistory v hist
         end) w = (Done tt, w')
    ∧ storage w' = storage w
    ∧ view w' = view w
    ∧ statusOnline w' = statusOnline w
    ∧ timerDisplay w' = timerDisplay w
    ∧ timerInterval w' = timerInterval w
    ∧ intervals w' = intervals w
    ∧ length (requests w') = (3 + length (requests w))%nat
    ∧ Forall (λ rq, req_method rq = "GET"
                    ∧ req_bearer rq = bearer (storage w !! "token"))
             (take 3 (requests w')).
Proof.
  intros Htok Hme Hstat Hhist.
  destruct v.
  all: erewrite bind_done by (by apply fetchMe_failed).
  all: erewrite bind_done
         by (first [by apply fetchStatus_failed | by apply fetchHistory_failed]).
  all: first [rewrite fetchStatus_failed by done | rewrite fetchHistory_failed by done].
  all: eexists; split; [reflexivity |]; simpl; repeat split; try done.
  all: repeat constructor.
Qed.

End FailingNetwork.

(** *** White space around the email *)

Lemma drop_spaces_no_lead l : no_lead (drop_spaces l).
Proof.
  induction l as [|c l IH]; simpl; [done |].
  destruct (is_space c) eqn:Hc; [done |]. simpl. done.
Qed.

Lemma drop_spaces_id l : no_lead l → drop_spaces l = l.
Proof. destruct l as [|c l]; simpl; [done |]. by intros ->. Qed.

Lemma drop_spaces_suffix l : ∃ pre, l = (pre ++ drop_spaces l)%list.
Proof.
  induction l as [|c l [pre IH]]; simpl; [by exists [] |].
  destruct (is_space c); [| by exists []].
  exists (c :: pre). simpl. by rewrite <- IH.
Qed.

Lemma no_lead_rev_drop l : no_lead l → no_lead (rev (drop_spaces (rev l))).
Proof.
  intros Hl. destruct (drop_spaces_suffix (rev l)) as [pre Hpre].
  assert (l = (rev (drop_spaces (rev l)) ++ rev pre)%list) as Heq.
  { rewrite <- rev_app_distr, <- Hpre. by rewrite rev_involutive. }
  destruct (rev (drop_spaces (rev l))) as [|c r]; [done |].
  rewrite Heq in Hl. exact Hl.
Qed.

Lemma trim_trim s : trim (trim s) = trim s.
Proof.
  unfold trim. rewrite list_ascii_of_string_of_list_ascii.
  set (L := drop_spaces (list_ascii_of_string s)).
  assert (no_lead L) as HL by apply drop_spaces_no_lead.
  rewrite (drop_spaces_id (rev (drop_spaces (rev L)))) by by apply no_lead_rev_drop.
  rewrite rev_involutive.
  by rewrite (drop_spaces_id (drop_spaces (rev L))) by apply drop_spaces_no_lead.
Qed.

(** *** The text of the timer *)

Lemma timer_fields diff :
  (0 ≤ diff)%Z →
  let h := Math_floor_div diff 3600000 in
  let m := Math_floor_div (Z.rem diff 3600000) 60000 in
  let s := Math_floor_div (Z.rem diff 60000) 1000 in
  (0 ≤ h ∧ 0 ≤ m < 60 ∧ 0 ≤ s < 60 ∧ h * 3600 + m * 60 + s = diff / 1000)%Z.
Proof.
  intros Hdiff. cbv zeta. unfold Math_floor_div.
  rewrite !Z.rem_mod_nonneg by lia.
  pose proof (Z.div_mod diff 3600000 ltac:(lia)) as E1.
  pose proof (Z.mod_pos_bound diff 3600000 ltac:(lia)) as B1.
  pose proof (Z.div_mod diff 60000 ltac:(lia)) as E2.
  pose proof (Z.mod_pos_bound diff 60000 ltac:(lia)) as B2.
  pose proof (Z.div_mod (diff mod 3600000) 60000 ltac:(lia)) as E3.
  pose proof (Z.mod_pos_bound (diff mod 3600000) 60000 ltac:(lia)) as B3.
  pose proof (Z.div_mod (diff mod 60000) 1000 ltac:(lia)) as E4.
  pose proof (Z.mod_pos_bound (diff mod 60000) 1000 ltac:(lia)) as B4.
  pose proof (Z.div_mod diff 1000 ltac:(lia)) as E5.
  pose proof (Z.mod_pos_bound diff 1000 ltac:(lia)) as B5.
  lia.
Qed.

Lemma two_characters n :
  (0 ≤ n < 100)%Z → String.length (padStart2 (String_of n)) = 2%nat.
Proof.
  intros Hn.
  assert (forallb (λ i, Nat.eqb (String.length (padStart2 (String_of (Z.of_nat i)))) 2)
                  (seq 0 100) = true) as Hall by (vm_compute; reflexivity).
  rewrite forallb_forall in Hall.
  specialize (Hall (Z.to_nat n)). rewrite Z2Nat.id in Hall by lia.
  apply Nat.eqb_eq, Hall, in_seq. lia.
Qed.

Section Part001Punch.
Context `{Host}.

(** An accepted punch-in in [Part001], up to the two refreshes that end
    it. *)
Lemma part001_punch_in_accepted now r result stat hist w :
  timer_inv w →
  hasToken w = true →
  punchedInLocally w = false →
  hasPunchedOutToday now (stored_history (storage w !! "history")) = false →
  body r = Some result →
  status r ≠ 401%Z →
  ok r = true →
  pr_status result = Some "success" →
  ∃ w5, handlePunch Part001 true now (Answer r) stat hist w
        = (fetchStatus Part001 now stat ;; fetchHistory Part001 hist) w5
    ∧ timer_inv w5
    ∧ storage w5 = <["punchInTime" := VNum now]> (storage w)
    ∧ statusOnline w5 = true
    ∧ timerInterval w5 = Some (nextHandle w)
    ∧ intervals w5 = {[nextHandle w := now]}
    ∧ view w5 = view w
    ∧ toasts w5 = "Punched In Successfully" :: toasts w.
Proof.
  intros Hinv Htok Hlocal Hshift Hbody H401 Hok Hsucc.
  assert (refusedLocally now w = false) as Hfree.
  { unfold refusedLocally. by rewrite Hlocal, Hshift. }
  rewrite handlePunch_sends by done. rewrite Hlocal.
  rewrite punchRequest_answered by done.
  set (w1 := with_request _ w).
  set (w2 := with_storage (insert "punchInTime" (VNum now)) w1).
  destruct (startTimer_frame now now w2)
    as (w3 & Hstart & Hst3 & Hvw3 & Hts3 & Hrq3 & Hun3 & Hso3 & Hhl3 & Hti3 & Hnh3 & Hiv3).
  pose proof (startTimer_timer_inv now now w2 Hinv) as Hinv3.
  rewrite Hstart in Hinv3. simpl in Hinv3.
  set (w5 := with_toast "Punched In Successfully" (with_status true w3)).
  assert (punch_answer_part001 "in" now r stat hist w1
          = (fetchStatus Part001 now stat ;; fetchHistory Part001 hist) w5) as Heq.
  { unfold punch_answer_part001, json. rewrite Hbody. unfold mbind at 1, M_bind at 1.
    unfold mret at 1, M_ret at 1. rewrite Hok, Hsucc. simpl.
    unfold mbind at 1, M_bind at 1.
    unfold mbind at 1, M_bind at 1. unfold storage_set at 1, modify at 1. fold w2.
    unfold mbind at 1, M_bind at 1. rewrite Hstart.
    unfold mbind at 1, M_bind at 1. unfold updatePunchUI, mbind at 1, M_bind at 1, modify at 1.
    unfold mret at 1, M_ret at 1. unfold showToast, modify. reflexivity. }
  exists w5. split.
  - destruct (fetchStatus_returns Part001 now stat w5) as (w6 & Hs).
    destruct (fetchHistory_returns Part001 hist w6) as (w7 & Hh).
    cbv iota. erewrite try_catch_done; [| rewrite Heq; erewrite bind_done by exact Hs; exact Hh].
    erewrite bind_done by exact Hs. by rewrite Hh.
  - subst w5. simpl. rewrite Hst3, Hti3, Hvw3, Hts3. repeat split; try done.
    + apply Hinv3.
    + apply Hinv3.
    + by apply Hiv3.
Qed.

End Part001Punch.

(** *** The reading of [Part001] *)

Lemma split_go_cur sep cur l :
  split_go sep cur l
  = match split_go sep [] l with
    | x :: xs => (string_of_list_ascii (rev cur) +:+ x) :: xs
    | [] => []
    end.
Proof.
  assert (∀ a b, string_of_list_ascii (a ++ b)%list
                 = string_of_list_ascii a +:+ string_of_list_ascii b) as Happ.
  { intros a b. induction a as [|c a IH]; [done |].
    change (String c (string_of_list_ascii (a ++ b)%list)
            = String c (string_of_list_ascii a +:+ string_of_list_ascii b)).
    by f_equal. }
  assert (∀ s, s +:+ EmptyString = s) as Hnil.
  { intros s. induction s as [|c s IH]; [done |].
    change (String c (s +:+ EmptyString) = String c s). by f_equal. }
  revert cur. induction l as [|c l IH]; intros cur; simpl.
  - by rewrite Hnil.
  - destruct (Ascii.eqb c sep); simpl.
    + by rewrite Hnil.
    + rewrite (IH (c :: cur)), (IH [c]).
      destruct (split_go sep [] l) as [|x xs]; [done |].
      f_equal. simpl. rewrite Happ.
      generalize (string_of_list_ascii (rev cur)). clear.
      intros s. induction s as [|d s IH]; [done |].
      change (String d ((s +:+ String c EmptyString) +:+ x)
              = String d (s +:+ (String c EmptyString +:+ x))).
      f_equal. exact IH.
Qed.

Lemma split_cons_ne sep c s :
  c ≠ sep →
  split sep (String c s)
  = match split sep s with
    | x :: xs => String c x :: xs
    | [] => []
    end.
Proof.
  intros Hne. unfold split.
  change (list_ascii_of_string (String c s)) with (c :: list_ascii_of_string s).
  cbn [split_go]. destruct (Ascii.eqb_spec c sep) as [|_]; [done |].
  by rewrite split_go_cur.
Qed.

(** *** Sessions *)

(** X1.  Without a stored token the popup sends nothing: over any run of
    starts of the popup, clicks on the punch and logout buttons and timer
    periods, the request log stays as it was and no token appears.  Only a
    click on the login button can open a session. *)
Theorem X1_nothing_sent_without_token `{Host} v es w :
  hasToken w = false →
  forallb notLogin es = true →
  requests (run v es w) = requests w ∧ hasToken (run v es w) = false.
Proof.
  revert w. induction es as [|e es IH]; intros w Htok Hes; [done |].
  simpl in Hes. apply andb_true_iff in Hes as [He Hes].
  unfold run in *. simpl.
  destruct (IH (step v e w)) as [Hrq Htok']; [by apply step_no_token_keeps | done |].
  split; [| done]. rewrite Hrq. by apply step_no_token_requests.
Qed.

Lemma X1_nothing_sent_without_token_witness :
  requests (run (H := utcHost) Part000 eventsWithoutLogin (initWorld ∅)) = []
  ∧ hasToken (run (H := utcHost) Part000 eventsWithoutLogin (initWorld ∅)) = false.
Proof.
  apply (X1_nothing_sent_without_token (H := utcHost) Part000 eventsWithoutLogin
           (initWorld ∅)); reflexivity.
Defined.

(** X2.  A login that does not succeed changes nothing but the request log
    and the toasts: the store, the view and the name shown stay as they
    were.  With an email that is empty once trimmed, or an empty password,
    no request is sent and the toast is "Invalid credentials provided.";
    otherwise the one request to /login goes out, without a bearer token and
    with the trimmed email, and when the server does not accept it (no
    answer, an answer that is not JSON, a status outside 2xx, or no token in
    the answer) the toast is the message of the server if it sent one. *)
Theorem X2_failed_login_changes_nothing emailInput password remember resp w :
  let blank := negb (truthy_string (trim emailInput)) || negb (truthy_string password) in
  blank = true ∨ loginAccepted resp = false →
  let w' := exec (handleLogin emailInput password remember resp) w in
  storage w' = storage w
  ∧ view w' = view w
  ∧ userName w' = userName w
  ∧ requests w'
    = (if blank
       then requests w
       else mkRequest "/login" "POST" None (LoginForm (trim emailInput) password)
            :: requests w)
  ∧ toasts w'
    = (if blank then "Invalid credentials provided." else loginFailureMessage resp)
      :: toasts w.
Proof.
  intros blank Hfail w'. subst w'. unfold exec.
  destruct blank eqn:Hblank; subst blank.
  - rewrite handleLogin_invalid; [done |].
    apply orb_true_iff in Hblank as [Hb|Hb]; apply negb_true_iff in Hb; [by left | by right].
  - destruct Hfail as [|Hrej]; [done |].
    apply orb_false_iff in Hblank as [He Hp]. apply negb_false_iff in He, Hp.
    by rewrite handleLogin_rejected.
Qed.

Lemma X2_failed_login_changes_nothing_witness :
  let w' := exec (handleLogin " a@b.com" "x" true loginAnswerWrongPassword)
                 (initWorld ∅) in
  storage w' = ∅
  ∧ view w' = LoginView
  ∧ userName w' = userName (initWorld ∅)
  ∧ requests w' = [mkRequest "/login" "POST" None (LoginForm "a@b.com" "x")]
  ∧ toasts w' = ["Wrong password"].
Proof.
  apply (X2_failed_login_changes_nothing " a@b.com" "x" true loginAnswerWrongPassword
           (initWorld ∅)).
  right. reflexivity.
Defined.

(** X3.  A login the server accepts stores the token of the answer,
    [result.token] before [result.data.token], and that token is the bearer
    of the requests that follow; the dashboard is shown with an empty
    history list, the status Offline and the timer text 00:00:00.  The keys
    of the store other than [savedCreds], [token] and [user] are left as they
    were, and so are the timers. *)
Theorem X3_accepted_login_opens_session emailInput password remember r result w :
  truthy_string (trim emailInput) = true →
  truthy_string password = true →
  body r = Some result →
  loginAccepted (Answer r) = true →
  let w' := exec (handleLogin emailInput password remember (Answer r)) w in
  let token := default EmptyString (or_else (lr_token result) (lr_data_token result)) in
  hasToken w' = true
  ∧ bearer (storage w' !! "token") = Some token
  ∧ (truthy_opt_string (lr_token result) = true → Some token = lr_token result)
  ∧ view w' = DashboardView
  ∧ historyList w' = []
  ∧ statusOnline w' = false
  ∧ timerDisplay w' = "00:00:00"
  ∧ (∀ k, k ≠ "savedCreds" → k ≠ "token" → k ≠ "user" → storage w' !! k = storage w !! k)
  ∧ timerInterval w' = timerInterval w
  ∧ intervals w' = intervals w.
Proof.
  intros Hemail Hpassword Hbody Hacc w' token. subst w'. unfold exec.
  rewrite (handleLogin_accepted emailInput password remember r result w) by done.
  simpl in Hacc. rewrite Hbody in Hacc. apply andb_true_iff in Hacc as [_ Htoken].
  assert (truthy_string token = true) as Htruthy.
  { subst token. by destruct (or_else (lr_token result) (lr_data_token result)). }
  simpl. unfold hasToken. simpl.
  rewrite lookup_insert_ne by done. rewrite lookup_insert_eq. simpl.
  repeat split; try done.
  - intros Hfirst. subst token. unfold or_else.
    destruct (lr_token result) as [t|]; [| done]. simpl in Hfirst |- *.
    by rewrite Hfirst.
  - intros k Hk1 Hk2 Hk3. rewrite !lookup_insert_ne by done.
    destruct remember; [by rewrite lookup_insert_ne | by rewrite lookup_delete_ne].
Qed.

Lemma X3_accepted_login_opens_session_witness :
  let w := initWorld punchedInStore in
  let w' := exec (handleLogin "a@b.com" "x" false (Answer loginAnswerT1)) w in
  hasToken w' = true
  ∧ bearer (storage w' !! "token") = Some "T1"
  ∧ (truthy_opt_string (Some "T1") = true → Some "T1" = Some "T1")
  ∧ view w' = DashboardView
  ∧ historyList w' = []
  ∧ statusOnline w' = false
  ∧ timerDisplay w' = "00:00:00"
  ∧ (∀ k, k ≠ "savedCreds" → k ≠ "token" → k ≠ "user" → storage w' !! k = storage w !! k)
  ∧ timerInterval w' = timerInterval w
  ∧ intervals w' = intervals w.
Proof.
  apply (X3_accepted_login_opens_session "a@b.com" "x" false loginAnswerT1
           (mkLoginResult (Some "T1") None None None None) (initWorld punchedInStore));
    reflexivity.
Defined.

(** X4.  A click on the logout button ends the session in every copy: the
    token, the user and the local punch-in time are gone from the store, the
    login view is shown, no timer is left running, so that the periods that
    follow change nothing, and the timer text keeps its last value. *)
Theorem X4_logout_ends_session `{Host} v w later :
  timer_inv w →
  let w' := step v LogoutClick w in
  hasToken w' = false
  ∧ storage w' !! "user" = None
  ∧ punchedInLocally w' = false
  ∧ view w' = LoginView
  ∧ timerInterval w' = None
  ∧ intervals w' = ∅
  ∧ timerDisplay w' = timerDisplay w
  ∧ tick later w' = w'
  ∧ toasts w' = "Logged out successfully" :: toasts w.
Proof.
  intros Hinv w'. subst w'. simpl.
  destruct (handleLogout_timers v false w Hinv) as (Hiv & Htd & _).
  unfold exec in *.
  destruct (handleLogout_spec v false w) as (w' & Heq & Hst & Hview & Hts & _ & Hti).
  rewrite Heq in *. simpl in *.
  destruct (logout_store_session v (storage w)) as (Htok & Huser & Hpunch).
  unfold hasToken, punchedInLocally. rewrite Hst, Htok, Huser, Hpunch.
  repeat split; try done. by apply tick_no_timer.
Qed.

Lemma X4_logout_ends_session_witness :
  let w := initWorld sessionStore in
  let w' := step (H := utcHost) Part000 LogoutClick w in
  hasToken w' = false
  ∧ storage w' !! "user" = None
  ∧ punchedInLocally w' = false
  ∧ view w' = LoginView
  ∧ timerInterval w' = None
  ∧ intervals w' = ∅
  ∧ timerDisplay w' = timerDisplay w
  ∧ tick 9000 w' = w'
  ∧ toasts w' = "Logged out successfully" :: toasts w.
Proof.
  apply (X4_logout_ends_session (H := utcHost) Part000 (initWorld sessionStore) 9000).
  apply timer_inv_init.
Defined.

(** X5.  What a logout leaves in the store.  In [PopupJs] and [Part000] the
    saved credentials, the theme and the history survive it, and the next
    start of the popup fills the form and sets the theme as it did before; in
    [Part001] the store is emptied, and the next start shows the dark theme
    and leaves the form alone. *)
Theorem X5_logout_and_saved_preferences v w sh :
  let w' := exec (handleLogout v false) w in
  match v with
  | Part001 =>
      storage w' = ∅
      ∧ fst (initShell sh w') = Done (applyTheme "dark" sh)
  | _ =>
      storage w' !! "savedCreds" = storage w !! "savedCreds"
      ∧ storage w' !! "theme" = storage w !! "theme"
      ∧ storage w' !! "history" = storage w !! "history"
      ∧ fst (initShell sh w') = fst (initShell sh w)
  end.
Proof.
  cbv zeta. unfold exec.
  destruct (handleLogout_spec v false w) as (w' & -> & Hst & _). simpl.
  unfold initShell, mbind, M_bind, storage_get, gets. simpl. rewrite Hst.
  destruct v; simpl; rewrite ?lookup_empty, ?lookup_delete_ne by done; done.
Qed.

(** *** Requests *)

(** X6.  With a token stored, [apiFetch] sends exactly one request, with
    the stored token as bearer, and then: a transport failure is thrown on
    (with the prefix "Network request failed: " in [PopupJs] and
    [Part000]); a 401 runs [handleLogout] and throws "Session expired"; any
    other answer is returned as it is, whatever its status. *)
Theorem X6_authenticated_call_outcomes {R} v endpoint method form (resp : Fetched R) w :
  hasToken w = true →
  let w1 := with_request (apiRequest endpoint method form w) w in
  match resp with
  | NetworkError msg =>
      apiFetch v endpoint method form resp w = (Thrown (rethrown v msg), w1)
  | Answer r =>
      if (status r =? 401)%Z
      then apiFetch v endpoint method form resp w
           = (Thrown (rethrown v "Session expired"), exec (handleLogout v true) w1)
      else apiFetch v endpoint method form resp w = (Done r, w1)
  end.
Proof.
  intros Htok w1. destruct resp as [msg|r].
  - by apply apiFetch_network_error.
  - destruct (Z.eqb_spec (status r) 401) as [H401|H401].
    + destruct (apiFetch_expired v endpoint method form r w Htok H401) as (w' & -> & Hout).
      subst w1. unfold exec. by rewrite Hout.
    + by apply apiFetch_ok.
Qed.

Lemma X6_authenticated_call_outcomes_witness :
  let w := initWorld sessionStore in
  let w1 := with_request (mkRequest "/me" "GET" (Some "T") NoBody) w in
  apiFetch (R := MeResult) Part000 "/me" "GET" NoBody sessionExpired w
  = (Thrown "Network request failed: Session expired",
     exec (handleLogout Part000 true) w1).
Proof.
  apply (X6_authenticated_call_outcomes (R := MeResult) Part000 "/me" "GET" NoBody
           sessionExpired (initWorld sessionStore)).
  reflexivity.
Defined.

(** *** Punches *)

Lemma tick_single now w h t : intervals w = {[h := t]} → tick now w = exec (update t now) w.
Proof. intros Hiv. unfold tick. rewrite Hiv. by rewrite map_fold_singleton. Qed.

Section PunchOutcomes.
Context `{Host}.

(** X7.  A punch that reaches the server and is not accepted (no answer, or
    an answer other than 401 that the copy does not count as a success)
    changes nothing but the request log and the toasts: the store, the timer
    and the status shown stay as they were.  After a transport failure
    [PopupJs] and [Part000] never show their fallback text "Network error.
    Please check your connection.", because the message they are handed
    always starts with "Network request failed: ". *)
Theorem X7_punch_not_accepted_changes_nothing v now resp stat hist w :
  hasToken w = true →
  refusedLocally now w = false →
  expired resp = false →
  punchAccepted v resp = false →
  let type := if punchedInLocally w then "out" else "in" in
  handlePunch v true now resp stat hist w
  = (Done tt,
     with_toast (punchFailureMessage v resp)
       (with_request (apiRequest "/punch/action" "POST" (punchForm type now) w) w)).
Proof.
  intros Htok Hfree Hexp Hrej type. subst type.
  rewrite handlePunch_sends by done.
  destruct resp as [msg|r].
  - rewrite punchRequest_network_error by done. by destruct v.
  - simpl in Hexp. apply Z.eqb_neq in Hexp. by rewrite punchRequest_rejected.
Qed.

(** X8.  A punch-in the server accepts, in [PopupJs] and [Part000]: the
    instant of the click is stored as the local punch-in time, the status
    shown is Online, the one live timer counts from that instant, and the
    toast is the message of the server or "Punched In Successfully".  The
    refresh of the history that follows touches no other key of the store,
    and every timer period that follows shows the time gone by since the
    click. *)
Theorem X8_accepted_punch_in v now r result stat hist w :
  v ≠ Part001 →
  timer_inv w →
  hasToken w = true →
  punchedInLocally w = false →
  hasPunchedOutToday now (stored_history (storage w !! "history")) = false →
  body r = Some result →
  status r = 200%Z →
  isSuccess result || negb (hasError result) = true →
  expired hist = false →
  let w' := exec (handlePunch v true now (Answer r) stat hist) w in
  storage w' !! "punchInTime" = Some (VNum now)
  ∧ statusOnline w' = true
  ∧ timerInterval w' = Some (nextHandle w)
  ∧ intervals w' = {[nextHandle w := now]}
  ∧ view w' = view w
  ∧ toasts w' = or_default (pr_message result) "Punched In Successfully" :: toasts w
  ∧ (∀ k, k ≠ "punchInTime" → k ≠ "history" → storage w' !! k = storage w !! k)
  ∧ (∀ later, tick later w' = exec (update now later) w').
Proof.
  intros Hv Hinv Htok Hlocal Hshift Hbody H200 Hsucc Hexp w'. subst w'. unfold exec.
  destruct (punch_in_accepted v now r result stat hist w)
    as (w5 & -> & Hst & Hso & Hti & Hiv & Hvw & Hts); try done.
  assert (hasToken w5 = true) as Htok5.
  { unfold hasToken in *. rewrite Hst. by rewrite lookup_insert_ne. }
  destruct (fetchHistory_frame v hist w5 Htok5 Hexp)
    as (w6 & -> & Hti6 & Hiv6 & _ & Hvw6 & Hts6 & _ & Hso6 & _ & _ & Hst6).
  simpl. rewrite Hti6, Hiv6, Hvw6, Hts6, Hso6.
  repeat split; try done.
  - rewrite Hst6 by done. rewrite Hst. apply lookup_insert_eq.
  - intros k Hk1 Hk2. rewrite Hst6 by done. rewrite Hst. by apply lookup_insert_ne.
  - intros later. apply (tick_single later w6 (nextHandle w) now). by rewrite Hiv6.
Qed.

(** X9.  A punch-out the server accepts, in [PopupJs] and [Part000]: the
    local punch-in time is removed, the status shown is Offline, the timer
    text is 00:00:00 and no timer is left running, so that the periods that
    follow change nothing. *)
Theorem X9_accepted_punch_out v now r result stat hist w p :
  v ≠ Part001 →
  timer_inv w →
  hasToken w = true →
  storage w !! "punchInTime" = Some (VNum p) →
  p ≠ 0%Z →
  (PUNCH_DELAY_MS ≤ now - p)%Z →
  body r = Some result →
  status r = 200%Z →
  isSuccess result || negb (hasError result) = true →
  expired hist = false →
  let w' := exec (handlePunch v true now (Answer r) stat hist) w in
  storage w' !! "punchInTime" = None
  ∧ statusOnline w' = false
  ∧ timerDisplay w' = "00:00:00"
  ∧ timerInterval w' = None
  ∧ intervals w' = ∅
  ∧ view w' = view w
  ∧ toasts w' = or_default (pr_message result) "Punched Out Successfully" :: toasts w
  ∧ (∀ k, k ≠ "punchInTime" → k ≠ "history" → storage w' !! k = storage w !! k)
  ∧ (∀ later, tick later w' = w').
Proof.
  intros Hv Hinv Htok Hp Hp0 Hlate Hbody H200 Hsucc Hexp w'. subst w'. unfold exec.
  destruct (punch_out_accepted v now r result stat hist w p)
    as (w5 & -> & Hst & Hso & Htd & Hti & Hiv & Hvw & Hts); try done.
  assert (hasToken w5 = true) as Htok5.
  { unfold hasToken in *. rewrite Hst. by rewrite lookup_delete_ne. }
  destruct (fetchHistory_frame v hist w5 Htok5 Hexp)
    as (w6 & -> & Hti6 & Hiv6 & _ & Hvw6 & Hts6 & _ & Hso6 & Htd6 & _ & Hst6).
  simpl. rewrite Hti6, Hiv6, Hvw6, Hts6, Hso6, Htd6.
  repeat split; try done.
  - rewrite Hst6 by done. rewrite Hst. apply lookup_delete_eq.
  - intros k Hk1 Hk2. rewrite Hst6 by done. rewrite Hst. by apply lookup_delete_ne.
  - intros later. apply tick_no_timer. by rewrite Hiv6.
Qed.


(** The server says "not punched in", in [PopupJs] and [Part001]: what is
    left of the local state. *)
Lemma fetchStatus_server_out_frame v now r text w :
  v ≠ Part000 →
  hasToken w = true →
  status r ≠ 401%Z →
  ok r = true →
  body r = Some (mkStatusResult false text) →
  ∃ w', fetchStatus v now (Answer r) w = (Done tt, w')
    ∧ storage w' = delete "punchInTime" (storage w)
    ∧ statusOnline w' = false
    ∧ timerDisplay w' = "00:00:00"
    ∧ timerInterval w' = None
    ∧ (timer_inv w → intervals w' = ∅)
    ∧ toasts w' = toasts w
    ∧ view w' = view w.
Proof.
  intros Hv Htok H401 Hok Hbody.
  rewrite (fetchStatus_server_out v now r text w) by done.
  set (w1 := with_request _ w).
  set (w2 := with_storage (λ st, delete "punchInTime" st) w1).
  destruct (stopTimer_frame w2)
    as (w3 & Hstop & Hst3 & Hvw3 & Hts3 & _ & _ & _ & _ & _ & _ & Hti3 & _ & Hiv3).
  unfold mbind at 1, M_bind at 1. unfold storage_remove at 1, modify at 1.
  change (with_storage (λ st, foldr delete st ["punchInTime"]) w1) with w2.
  unfold mbind at 1, M_bind at 1. rewrite Hstop.
  unfold updatePunchUI, mbind at 1, M_bind at 1, modify.
  eexists. split; [reflexivity |]. simpl. rewrite Hst3, Hts3, Hvw3, Hti3.
  repeat split; done.
Qed.

(** X11.  In [Part001] the status of the server is asked for right after an
    accepted punch-in, and it prevails: when it says "not punched in", the
    punch-in time just stored is removed again and the timer is stopped,
    although the toast "Punched In Successfully" was shown. *)
Theorem X11_part001_status_overrides_punch_in now r result rs text hist w :
  timer_inv w →
  hasToken w = true →
  punchedInLocally w = false →
  hasPunchedOutToday now (stored_history (storage w !! "history")) = false →
  body r = Some result →
  status r ≠ 401%Z →
  ok r = true →
  pr_status result = Some "success" →
  status rs ≠ 401%Z →
  ok rs = true →
  body rs = Some (mkStatusResult false text) →
  expired hist = false →
  let w' := exec (handlePunch Part001 true now (Answer r) (Answer rs) hist) w in
  storage w' !! "punchInTime" = None
  ∧ statusOnline w' = false
  ∧ timerDisplay w' = "00:00:00"
  ∧ timerInterval w' = None
  ∧ intervals w' = ∅
  ∧ toasts w' = "Punched In Successfully" :: toasts w.
Proof.
  intros Hinv Htok Hlocal Hshift Hbody H401 Hok Hsucc Hs401 Hsok Hsbody Hexp w'.
  subst w'. unfold exec.
  destruct (part001_punch_in_accepted now r result (Answer rs) hist w)
    as (w5 & -> & Hinv5 & Hst & _ & _ & _ & _ & Hts); try done.
  assert (hasToken w5 = true) as Htok5.
  { unfold hasToken in *. rewrite Hst. by rewrite lookup_insert_ne. }
  destruct (fetchStatus_server_out_frame Part001 now rs text w5)
    as (w9 & Hstatus & Hst9 & Hso9 & Htd9 & Hti9 & Hiv9 & Hts9 & _); try done.
  assert (hasToken w9 = true) as Htok9.
  { unfold hasToken in *. rewrite Hst9. by rewrite lookup_delete_ne. }
  destruct (fetchHistory_frame Part001 hist w9 Htok9 Hexp)
    as (w10 & Hhistory & Hti10 & Hiv10 & _ & _ & Hts10 & _ & Hso10 & Htd10 & _ & Hst10).
  erewrite bind_done by exact Hstatus. rewrite Hhistory.
  simpl. rewrite Hti10, Hiv10, Hts10, Hso10, Htd10, Hst10 by done.
  rewrite Hst9, Hts9. repeat split; try done.
  - apply lookup_delete_eq.
  - by apply Hiv9.
Qed.

(** X12.  When the server confirms that the user is punched in and a local
    punch-in time is stored, every copy keeps the local time, whatever time
    the server reports: the store is left as it was, the status shown is
    Online and the one live timer counts from the local time. *)
Theorem X12_status_sync_keeps_local_time v now r text w p :
  timer_inv w →
  hasToken w = true →
  storage w !! "punchInTime" = Some (VNum p) →
  p ≠ 0%Z →
  status r ≠ 401%Z →
  ok r = true →
  body r = Some (mkStatusResult true text) →
  let w' := exec (fetchStatus v now (Answer r)) w in
  storage w' = storage w
  ∧ statusOnline w' = true
  ∧ timerInterval w' = Some (nextHandle w)
  ∧ intervals w' = {[nextHandle w := p]}.
Proof.
  intros Hinv Htok Hp Hp0 H401 Hok Hbody w'. subst w'. unfold exec.
  rewrite (fetchStatus_local_wins v now r text w p) by done.
  set (w1 := with_request _ w).
  destruct (startTimer_frame now p w1)
    as (w2 & Hstart & Hst & _ & _ & _ & _ & _ & _ & Hti & _ & Hiv).
  unfold mbind, M_bind. rewrite Hstart. simpl.
  rewrite Hst, Hti. repeat split. by apply Hiv.
Qed.

(** X13.  The start of the popup with a token and a local punch-in time
    stored, when the three requests of the synchronisation fail (no answer,
    no JSON, or a status outside 2xx other than 401): the dashboard is shown,
    three GET requests went out with the stored token and the store is left
    as it was.  [Part000] has shown the local state first, so its status is
    Online and its timer counts from the local time; [PopupJs] and [Part001]
    show the status and the timers they had. *)
Theorem X13_start_when_requests_fail v now me stat hist w p :
  timer_inv w →
  hasToken w = true →
  storage w !! "punchInTime" = Some (VNum p) →
  p ≠ 0%Z →
  failedAnswer me →
  failedAnswer stat →
  failedAnswer hist →
  let w' := exec (init v now me stat hist) w in
  storage w' = storage w
  ∧ view w' = DashboardView
  ∧ length (requests w') = (3 + length (requests w))%nat
  ∧ Forall (λ rq, req_method rq = "GET" ∧ req_bearer rq = bearer (storage w !! "token"))
           (take 3 (requests w'))
  ∧ match v with
    | Part000 =>
        statusOnline w' = true
        ∧ timerInterval w' = Some (nextHandle w)
        ∧ intervals w' = {[nextHandle w := p]}
    | _ =>
        statusOnline w' = statusOnline w
        ∧ timerInterval w' = timerInterval w
        ∧ intervals w' = intervals w
    end.
Proof.
  intros Hinv Htok Hp Hp0 Hme Hstat Hhist w'. subst w'. unfold exec.
  rewrite init_with_token by done.
  set (w0 := with_view DashboardView _).
  assert (hasToken w0 = true) as Htok0 by done.
  unfold syncState.
  destruct v.
  - destruct (sync_requests_fail PopupJs now me stat hist w0 Htok0 Hme Hstat Hhist)
      as (w' & -> & Hst & Hvw & Hso & _ & Hti & Hiv & Hlen & Hall).
    simpl. rewrite Hst, Hvw, Hso, Hti, Hiv, Hlen. repeat split; done.
  - destruct (restoreLocalState_punched_in now w0 p)
      as (w1 & Hrestore & Hst1 & Hvw1 & Hrq1 & Hso1 & Hti1 & Hiv1); try done.
    erewrite bind_done by exact Hrestore.
    assert (hasToken w1 = true) as Htok1.
    { unfold hasToken in *. by rewrite Hst1. }
    destruct (sync_requests_fail Part000 now me stat hist w1 Htok1 Hme Hstat Hhist)
      as (w' & -> & Hst & Hvw & Hso & _ & Hti & Hiv & Hlen & Hall).
    simpl. rewrite Hst, Hvw, Hso, Hti, Hiv, Hlen, Hst1, Hvw1, Hrq1, Hso1, Hti1, Hiv1.
    rewrite Hst1 in Hall. repeat split; done.
  - destruct (sync_requests_fail Part001 now me stat hist w0 Htok0 Hme Hstat Hhist)
      as (w' & -> & Hst & Hvw & Hso & _ & Hti & Hiv & Hlen & Hall).
    simpl. rewrite Hst, Hvw, Hso, Hti, Hiv, Hlen. repeat split; done.
Qed.

End PunchOutcomes.

(** The runs of the statements above, on a host on UTC. *)

Lemma X7_punch_not_accepted_changes_nothing_witness :
  let w := initWorld tokenOnlyStore in
  handlePunch (H := utcHost) PopupJs true 5000 punchAnswerTooEarly
    noStatusAnswer noHistoryAnswer w
  = (Done tt,
     with_toast "Too early"
       (with_request (mkRequest "/punch/action" "POST" (Some "T") (PunchForm "in" 5)) w)).
Proof.
  apply (X7_punch_not_accepted_changes_nothing (H := utcHost) PopupJs 5000
           punchAnswerTooEarly noStatusAnswer noHistoryAnswer (initWorld tokenOnlyStore));
    reflexivity.
Defined.

Lemma X8_accepted_punch_in_witness :
  let w := initWorld tokenOnlyStore in
  let w' := exec (handlePunch (H := utcHost) PopupJs true 5000 (Answer punchAnswerOk)
                    noStatusAnswer noHistoryAnswer) w in
  storage w' !! "punchInTime" = Some (VNum 5000)
  ∧ statusOnline w' = true
  ∧ timerInterval w' = Some (nextHandle w)
  ∧ intervals w' = {[nextHandle w := 5000%Z]}
  ∧ view w' = view w
  ∧ toasts w' = "Punched In Successfully" :: toasts w
  ∧ (∀ k, k ≠ "punchInTime" → k ≠ "history" → storage w' !! k = storage w !! k)
  ∧ (∀ later, tick later w' = exec (update 5000 later) w').
Proof.
  apply (X8_accepted_punch_in (H := utcHost) PopupJs 5000 punchAnswerOk
           (mkPunchResult (Some "success") true None None None None)
           noStatusAnswer noHistoryAnswer (initWorld tokenOnlyStore));
    try reflexivity; [discriminate | apply timer_inv_init].
Defined.

Lemma X9_accepted_punch_out_witness :
  let w := initWorld punchedInStore in
  let w' := exec (handlePunch (H := utcHost) Part000 true 8000000 (Answer punchAnswerOk)
                    noStatusAnswer noHistoryAnswer) w in
  storage w' !! "punchInTime" = None
  ∧ statusOnline w' = false
  ∧ timerDisplay w' = "00:00:00"
  ∧ timerInterval w' = None
  ∧ intervals w' = ∅
  ∧ view w' = view w
  ∧ toasts w' = "Punched Out Successfully" :: toasts w
  ∧ (∀ k, k ≠ "punchInTime" → k ≠ "history" → storage w' !! k = storage w !! k)
  ∧ (∀ later, tick later w' = w').
Proof.
  apply (X9_accepted_punch_out (H := utcHost) Part000 8000000 punchAnswerOk
           (mkPunchResult (Some "success") true None None None None)
           noStatusAnswer noHistoryAnswer (initWorld punchedInStore) 1000);
    try reflexivity; [discriminate | apply timer_inv_init | discriminate | vm_compute; discriminate].
Defined.


Lemma X11_part001_status_overrides_punch_in_witness :
  let w := initWorld tokenOnlyStore in
  let w' := exec (handlePunch (H := utcHost) Part001 true 5000 (Answer punchAnswerOk)
                    (Answer statusAnswerNotIn) noHistoryAnswer) w in
  storage w' !! "punchInTime" = None
  ∧ statusOnline w' = false
  ∧ timerDisplay w' = "00:00:00"
  ∧ timerInterval w' = None
  ∧ intervals w' = ∅
  ∧ toasts w' = "Punched In Successfully" :: toasts w.
Proof.
  apply (X11_part001_status_overrides_punch_in (H := utcHost) 5000 punchAnswerOk
           (mkPunchResult (Some "success") true None None None None)
           statusAnswerNotIn None noHistoryAnswer (initWorld tokenOnlyStore));
    try reflexivity; [apply timer_inv_init | discriminate | discriminate].
Defined.

Lemma X12_status_sync_keeps_local_time_witness :
  let w := initWorld punchedInStore in
  let w' := exec (fetchStatus (H := utcHost) Part001 9000 (Answer statusAnswerIn)) w in
  storage w' = storage w
  ∧ statusOnline w' = true
  ∧ timerInterval w' = Some (nextHandle w)
  ∧ intervals w' = {[nextHandle w := 1000%Z]}.
Proof.
  apply (X12_status_sync_keeps_local_time (H := utcHost) Part001 9000 statusAnswerIn
           (Some "10:16:29 AM") (initWorld punchedInStore) 1000);
    try reflexivity; [apply timer_inv_init | discriminate | discriminate].
Defined.

Lemma X13_start_when_requests_fail_witness :
  let w := initWorld punchedInStore in
  let w' := exec (init (H := utcHost) Part000 9000 noMeAnswer noStatusAnswer
                    noHistoryAnswer) w in
  storage w' = storage w
  ∧ view w' = DashboardView
  ∧ length (requests w') = (3 + length (requests w))%nat
  ∧ Forall (λ rq, req_method rq = "GET" ∧ req_bearer rq = bearer (storage w !! "token"))
           (take 3 (requests w'))
  ∧ statusOnline w' = true
  ∧ timerInterval w' = Some (nextHandle w)
  ∧ intervals w' = {[nextHandle w := 1000%Z]}.
Proof.
  apply (X13_start_when_requests_fail (H := utcHost) Part000 9000 noMeAnswer noStatusAnswer
           noHistoryAnswer (initWorld punchedInStore) 1000);
    try reflexivity; try exact I; [apply timer_inv_init | discriminate].
Defined.

(** *** The theme and the saved credentials *)

(** X14.  A click on the theme button always changes the theme shown, to
    light or dark, and stores the new theme under [theme] alone; the next
    start of the popup shows the theme that was stored.  From light or dark,
    two clicks give the first theme back. *)
Theorem X14_theme_toggle_is_remembered sh sh0 w :
  ∃ sh' w',
    toggleTheme sh w = (Done sh', w')
    ∧ dataTheme sh' ≠ dataTheme sh
    ∧ (dataTheme sh' = Some "light" ∨ dataTheme sh' = Some "dark")
    ∧ (∀ k, k ≠ "theme" → storage w' !! k = storage w !! k)
    ∧ (∃ sh1, fst (initShell sh0 w') = Done sh1 ∧ dataTheme sh1 = dataTheme sh')
    ∧ (dataTheme sh = Some "light" ∨ dataTheme sh = Some "dark" →
       ∃ sh2, fst (toggleTheme sh' w') = Done sh2 ∧ dataTheme sh2 = dataTheme sh).
Proof.
  unfold toggleTheme, initShell, mbind, M_bind, storage_set, storage_get, gets, modify.
  simpl. eexists _, _. split; [reflexivity |]. simpl.
  rewrite lookup_insert_eq.
  assert (∀ next : string, ∀ k : string, k ≠ "theme" →
            <["theme" := VStr next]> (storage w) !! k = storage w !! k) as Hframe.
  { intros next k Hk. by rewrite lookup_insert_ne. }
  destruct (dataTheme sh) as [s|] eqn:Hs; simpl.
  - case_bool_decide as Hlight; simpl.
    + split; [congruence |]. split; [by right |]. split; [apply Hframe |].
      split; [by eexists |]. intros _. eexists. split; [reflexivity |]. simpl. congruence.
    + split; [congruence |]. split; [by left |]. split; [apply Hframe |].
      split; [by eexists |]. intros [Heq|Heq]; [congruence |].
      eexists. split; [reflexivity |]. simpl. congruence.
  - split; [done |]. split; [by left |]. split; [apply Hframe |].
    split; [by eexists |]. by intros [|].
Qed.

Lemma X14_theme_toggle_is_remembered_witness :
  ∃ sh' w',
    toggleTheme formOfA (initWorld ∅) = (Done sh', w')
    ∧ dataTheme sh' ≠ dataTheme formOfA
    ∧ (dataTheme sh' = Some "light" ∨ dataTheme sh' = Some "dark")
    ∧ (∀ k, k ≠ "theme" → storage w' !! k = storage (initWorld ∅) !! k)
    ∧ (∃ sh1, fst (initShell emptyForm w') = Done sh1 ∧ dataTheme sh1 = dataTheme sh')
    ∧ (dataTheme formOfA = Some "light" ∨ dataTheme formOfA = Some "dark" →
       ∃ sh2, fst (toggleTheme sh' w') = Done sh2 ∧ dataTheme sh2 = dataTheme formOfA).
Proof. exact (X14_theme_toggle_is_remembered formOfA emptyForm (initWorld ∅)). Defined.

Lemma handleLogin_trimmed emailInput password remember resp :
  handleLogin (trim emailInput) password remember resp
  = handleLogin emailInput password remember resp.
Proof. unfold handleLogin. by rewrite trim_trim. Qed.

(** X15.  Remember me.  After a login the server accepted with the box
    ticked, the next start of the popup fills the form with the trimmed email
    and the password and ticks the box, and a click on the login button then
    does what the first click did; with the box not ticked, the next start
    leaves the form as it finds it. *)
Theorem X15_remembered_credentials_fill_the_form sh sh0 r result w :
  truthy_string (trim (emailInput sh)) = true →
  truthy_string (passwordInput sh) = true →
  body r = Some result →
  loginAccepted (Answer r) = true →
  let w' := exec (loginClick sh (Answer r)) w in
  ∃ sh1 : Shell,
    fst (initShell sh0 w') = Done sh1
    ∧ if rememberChecked sh
      then emailInput sh1 = trim (emailInput sh)
           ∧ passwordInput sh1 = passwordInput sh
           ∧ rememberChecked sh1 = true
           ∧ ∀ resp, loginClick sh1 resp = loginClick sh resp
      else emailInput sh1 = emailInput sh0
           ∧ passwordInput sh1 = passwordInput sh0
           ∧ rememberChecked sh1 = rememberChecked sh0.
Proof.
  intros Hemail Hpassword Hbody Hacc w'. subst w'. unfold exec, loginClick.
  rewrite (handleLogin_accepted (emailInput sh) (passwordInput sh) (rememberChecked sh)
             r result w) by done.
  unfold initShell, mbind, M_bind, storage_get, gets. simpl.
  rewrite !(lookup_insert_ne _ _ "savedCreds") by done.
  eexists. split; [reflexivity |].
  destruct (rememberChecked sh) eqn:Hremember.
  - rewrite lookup_insert_eq. simpl. repeat split.
    intros resp. apply handleLogin_trimmed.
  - rewrite lookup_delete_eq. simpl. done.
Qed.

Lemma X15_remembered_credentials_fill_the_form_witness :
  let w' := exec (loginClick formOfA (Answer loginAnswerT1)) (initWorld ∅) in
  ∃ sh1 : Shell,
    fst (initShell emptyForm w') = Done sh1
    ∧ emailInput sh1 = "a@b.com"
    ∧ passwordInput sh1 = "x"
    ∧ rememberChecked sh1 = true
    ∧ ∀ resp, loginClick sh1 resp = loginClick formOfA resp.
Proof.
  apply (X15_remembered_credentials_fill_the_form formOfA emptyForm loginAnswerT1
           (mkLoginResult (Some "T1") None None None None) (initWorld ∅));
    reflexivity.
Defined.

(** *** The history list *)

(** X16.  [renderHistory] shows the last five entries of the history, or
    all of them when there are fewer, the newest first: row [i] is the entry
    [i] places from the end. *)
Theorem X16_history_list_newest_first h w :
  let shown := historyList (exec (renderHistory h) w) in
  length shown = Nat.min 5 (length h)
  ∧ ∀ i, (i < length shown)%nat → shown !! i = h !! (length h - 1 - i)%nat.
Proof.
  cbv zeta.
  assert (length (historyList (exec (renderHistory h) w)) = Nat.min 5 (length h)) as Hlen.
  { rewrite renderHistory_spec, length_reverse. apply slice_last_length. }
  split; [exact Hlen |].
  intros i Hi. apply rendered_newest_first. by rewrite <- Hlen.
Qed.

Lemma X16_history_list_newest_first_witness :
  let shown := historyList (exec (renderHistory longHistory) (initWorld ∅)) in
  length shown = Nat.min 5 (length longHistory)
  ∧ ∀ i, (i < length shown)%nat →
      shown !! i = longHistory !! (length longHistory - 1 - i)%nat.
Proof. exact (X16_history_list_newest_first longHistory (initWorld ∅)). Defined.

(** X17.  [logActivity] appends the entry of the instant to the stored
    history and keeps the last twenty: the list stored has the length of the
    old history plus one, or twenty when that is more, and is the end of the
    old history followed by the new entry.  The list shown is its last five
    entries, newest first, and no other key of the store is written. *)
Theorem X17_logActivity_keeps_the_last_twenty now type w :
  let w' := exec (logActivity now type) w in
  let old := stored_history (storage w !! "history") in
  ∃ kept,
    storage w' !! "history" = Some (VHistory kept)
    ∧ length kept = Nat.min 20 (S (length old))
    ∧ (∃ older, (old ++ [mkEntry type now])%list = (older ++ kept)%list)
    ∧ last kept = Some (mkEntry type now)
    ∧ length (historyList w') = Nat.min 5 (length kept)
    ∧ (∀ i, (i < length (historyList w'))%nat →
         historyList w' !! i = kept !! (length kept - 1 - i)%nat)
    ∧ (∀ k, k ≠ "history" → storage w' !! k = storage w !! k).
Proof.
  cbv zeta.
  destruct (logActivity_spec now type w) as (Hst & _ & [older Hsuffix] & Hshown).
  set (history := (stored_history (storage w !! "history") ++ [mkEntry type now])%list) in *.
  set (kept := slice_last 20 history) in *.
  assert (length kept = Nat.min 20 (S (length (stored_history (storage w !! "history")))))
    as Hlen.
  { subst kept. rewrite slice_last_length. subst history. rewrite length_app.
    cbn [length]. f_equal. lia. }
  assert (last kept = Some (mkEntry type now)) as Hlast.
  { assert (last history = Some (mkEntry type now)) as Hl by apply last_snoc.
    rewrite Hsuffix in Hl. destruct kept as [|e kept'] eqn:Hk.
    - cbn [length] in Hlen. lia.
    - by rewrite last_app_cons in Hl. }
  assert (historyList (exec (logActivity now type) w)
          = historyList (exec (renderHistory kept) w)) as Hrender.
  { rewrite Hshown. symmetry. apply renderHistory_spec. }
  assert (length (historyList (exec (logActivity now type) w))
          = Nat.min 5 (length kept)) as Hlen5.
  { rewrite Hshown, length_reverse. apply slice_last_length. }
  exists kept. split; [exact Hst |]. split; [exact Hlen |].
  split; [by exists older |]. split; [exact Hlast |]. split; [exact Hlen5 |].
  split.
  - intros i Hi. rewrite Hrender. apply rendered_newest_first. by rewrite <- Hlen5.
  - intros k Hk.
    unfold logActivity, exec, mbind, M_bind, storage_get, gets, storage_set, modify.
    simpl. rewrite renderHistory_storage. simpl. by rewrite lookup_insert_ne.
Qed.

Lemma X17_logActivity_keeps_the_last_twenty_witness :
  let w := initWorld longHistoryStore in
  let w' := exec (logActivity 22000 "in") w in
  ∃ kept,
    storage w' !! "history" = Some (VHistory kept)
    ∧ length kept = Nat.min 20 (S (length longHistory))
    ∧ (∃ older, (longHistory ++ [mkEntry "in" 22000])%list = (older ++ kept)%list)
    ∧ last kept = Some (mkEntry "in" 22000)
    ∧ length (historyList w') = Nat.min 5 (length kept)
    ∧ (∀ i, (i < length (historyList w'))%nat →
         historyList w' !! i = kept !! (length kept - 1 - i)%nat)
    ∧ (∀ k, k ≠ "history" → storage w' !! k = storage w !! k).
Proof.
  exact (X17_logActivity_keeps_the_last_twenty 22000 "in" (initWorld longHistoryStore)).
Defined.

(** *** The timer text *)

Lemma length_append (a b : string) :
  String.length (a +:+ b) = (String.length a + String.length b)%nat.
Proof.
  induction a as [|c a IH]; [done |].
  change (S (String.length (a +:+ b)) = S (String.length a + String.length b)).
  by rewrite IH.
Qed.

(** X18.  The text of the timer.  For a start time that is not in the
    future, [update] shows hours, minutes and seconds that add up to the
    whole seconds gone by, with minutes and seconds below sixty; up to a
    hundred hours the text has the eight characters of HH:MM:SS. *)
Theorem X18_timer_text startTime now w :
  (startTime ≤ now)%Z →
  ∃ h m s : Z,
    timerDisplay (exec (update startTime now) w)
    = padStart2 (String_of h) +:+ ":" +:+ padStart2 (String_of m) +:+ ":"
      +:+ padStart2 (String_of s)
    ∧ (0 ≤ h)%Z ∧ (0 ≤ m < 60)%Z ∧ (0 ≤ s < 60)%Z
    ∧ (h * 3600 + m * 60 + s = (now - startTime) / 1000)%Z
    ∧ ((now - startTime < 360000000)%Z →
       String.length (timerDisplay (exec (update startTime now) w)) = 8%nat).
Proof.
  intros Hle.
  destruct (timer_fields (now - startTime)) as (Hh & Hm & Hs & Hsum); [lia |].
  eexists _, _, _. split; [reflexivity |].
  repeat split; try done; try lia.
  intros Hlt. unfold exec, update, modify. simpl.
  rewrite !length_append, !two_characters; try done; try lia.
  unfold Math_floor_div in *. split; [done |].
  apply Z.div_lt_upper_bound; lia.
Qed.

Lemma X18_timer_text_witness :
  ∃ h m s : Z,
    timerDisplay (exec (update 1000 3725000) (initWorld ∅))
    = padStart2 (String_of h) +:+ ":" +:+ padStart2 (String_of m) +:+ ":"
      +:+ padStart2 (String_of s)
    ∧ (0 ≤ h)%Z ∧ (0 ≤ m < 60)%Z ∧ (0 ≤ s < 60)%Z
    ∧ (h * 3600 + m * 60 + s = (3725000 - 1000) / 1000)%Z
    ∧ ((3725000 - 1000 < 360000000)%Z →
       String.length (timerDisplay (exec (update 1000 3725000) (initWorld ∅))) = 8%nat).
Proof. apply (X18_timer_text 1000 3725000 (initWorld ∅)). lia. Defined.

(** *** The time of day the server reports *)

(** X19.  The hour of a twelve-hour clock as [PopupJs] and [Part000] turn
    it into the hour of the day: for an hour from 1 to 12 the result lies
    between 0 and 23, leaves the hour unchanged modulo twelve, and falls
    before noon for AM and from noon on for PM. *)
Theorem X19_twelve_hour_clock h mer :
  (1 ≤ h ≤ 12)%Z →
  let hour := hours24 h (Some mer) in
  (0 ≤ hour ≤ 23)%Z
  ∧ (hour mod 12 = h mod 12)%Z
  ∧ match mer with
    | AM => (hour < 12)%Z
    | PM => (12 ≤ hour)%Z
    end.
Proof.
  intros Hh. cbv zeta. unfold hours24.
  destruct mer.
  - destruct (Z.eqb_spec h 12) as [->|Hne]; [done |].
    repeat split; lia.
  - destruct (Z.ltb_spec h 12) as [Hlt|Hge].
    + repeat split; try lia.
      replace (h + 12)%Z with (h + 1 * 12)%Z by lia. apply Z.mod_add. lia.
    + repeat split; lia.
Qed.

Lemma X19_twelve_hour_clock_witness :
  let hour := hours24 12 (Some AM) in
  (0 ≤ hour ≤ 23)%Z ∧ (hour mod 12 = 12 mod 12)%Z ∧ (hour < 12)%Z.
Proof. apply (X19_twelve_hour_clock 12 AM). lia. Defined.

(** X20.  [Part001] turns the hour 12 into 00 before it looks at the
    modifier, so a text that starts with "12:" is read as the same text with
    "00:" in its place: "12:30:00 PM" as half past noon, and "12:30:00"
    without a modifier as half past midnight. *)
Theorem X20_part001_reads_twelve_as_zero `{Host} now rest :
  startTime_part001 now ("12:" +:+ rest) = startTime_part001 now ("00:" +:+ rest).
Proof.
  change ("12:" +:+ rest) with (String "1" (String "2" (String ":" rest))).
  change ("00:" +:+ rest) with (String "0" (String "0" (String ":" rest))).
  unfold startTime_part001.
  rewrite !(split_cons_ne " ") by done.
  destruct (split " " rest) as [|x xs]; [done |].
  simpl. reflexivity.
Qed.

(** *** The punch button *)

(** X21.  The button and the handler apply the same two-hour rule.  With a
    token and a local punch-in time stored, a click at an instant at which
    [updatePunchUI] would mark the button disabled is refused with the toast
    of the minimum stay, and a click at an instant at which it would not is
    sent to the server as a punch-out. *)
Theorem X21_disabled_button_and_handler_agree `{Host} v now resp stat hist w :
  hasToken w = true →
  punchedInLocally w = true →
  handlePunch v true now resp stat hist w
  = if punchBtnDisabled true (storage w !! "punchInTime") now
    then (Done tt, with_toast (minStayMessage now (to_num (storage w !! "punchInTime"))) w)
    else punchRequest v "out" now resp stat hist w.
Proof.
  unfold hasToken, punchedInLocally, punchBtnDisabled. intros Htok Hin.
  unfold handlePunch, mbind, M_bind, storage_get, gets, mret, M_ret. simpl.
  rewrite Htok, Hin. simpl.
  by destruct (now - to_num (storage w !! "punchInTime") <? PUNCH_DELAY_MS)%Z.
Qed.

Lemma X21_disabled_button_and_handler_agree_witness :
  let w := initWorld punchedInStore in
  handlePunch (H := utcHost) PopupJs true 61000 noPunchAnswer noStatusAnswer
    noHistoryAnswer w
  = (Done tt, with_toast (minStayMessage 61000 1000) w).
Proof.
  apply (X21_disabled_button_and_handler_agree (H := utcHost) PopupJs 61000 noPunchAnswer
           noStatusAnswer noHistoryAnswer (initWorld punchedInStore)); reflexivity.
Defined.
